(** * wry: WS-Management client for Intel AMT -- a shallow embedding

    The development follows [wry/common.py] (transaction layer, enumeration
    pager, method invocation), [wry/device.py] (capability objects) and
    [wry/monkey.py] (the patched [ClientOptions.__copy__]).  The code is
    Python 2: values are dynamically typed, errors are exceptions, and the
    transport ([pywsman]) is an external collaborator. *)

From Stdlib Require Import String Ascii List ZArith Bool Lia.
Import ListNotations.
Open Scope string_scope.
Open Scope Z_scope.
Set Warnings "-register-all".

(** ** Python values *)

(** The values that travel through the code: what [WryDict] hands back for a
    response, the arguments of the setters, namedtuples such as [StateMap].
    [VInt] is Python's [int] (the separate [long] type of Python 2 is not
    modelled); a dict is an association list in insertion order with element
    names as keys. *)
Inductive Value : Type :=
| VNone
| VBool (b : bool)
| VInt (z : Z)
| VStr (s : string)
| VTuple (items : list Value)
| VList (items : list Value)
| VDict (entries : list (string * Value)).

(** A parsed response document ([pywsman.XmlDoc]).

    Modelled from the spec: [WryDict] (wry/data_structures.py) is not among
    the sources.  The spec's Response Document Model "normalizes a parsed XML
    response into a uniform nested key/value structure and exposes fault
    detection": a document is its fault flag together with the mapping
    [WryDict(doc)] yields. *)
Record XmlDoc : Type := mkDoc {
  is_fault : bool;
  parsed : list (string * Value)
}.

Definition WryDict (doc : XmlDoc) : Value := VDict (parsed doc).

(** Exceptions raised by the code, with the fixed text of the message where
    the code gives one (the [%r]-interpolated part is left out). *)
Inductive Exn : Type :=
| AMTConnectFailure
| WSManFault (doc : XmlDoc)
| NonZeroReturn (return_value : Value)
| KeyError (what : string)
| LookupError (msg : string)
| IndexError
| ValueError (msg : string)
| TypeError (msg : string)
| NameError (name : string)
| AttributeError (name : string)
| AssertionError.

(** How a computation ends: a value, a raised exception, or the model's
    iteration budget running out (only the pull loop can, and
    [enumerate_resource] is shown never to). *)
Inductive Outcome (A : Type) : Type :=
| Ok (a : A)
| Raise (e : Exn)
| OutOfFuel.

Arguments Ok {A} a.
Arguments Raise {A} e.
Arguments OutOfFuel {A}.

Definition obind {A B} (r : Outcome A) (k : A -> Outcome B) : Outcome B :=
  match r with
  | Ok a => k a
  | Raise e => Raise e
  | OutOfFuel => OutOfFuel
  end.

(** ** Built-in operations on values *)

Fixpoint assoc (k : string) (d : list (string * Value)) : option Value :=
  match d with
  | [] => None
  | (k', v) :: d' => if String.eqb k k' then Some v else assoc k d'
  end.

(** [d[k] = v]: replaces the binding in place, or appends a new one. *)
Fixpoint dict_set (k : string) (v : Value) (d : list (string * Value))
  : list (string * Value) :=
  match d with
  | [] => [(k, v)]
  | (k', v') :: d' =>
      if String.eqb k k' then (k, v) :: d' else (k', v') :: dict_set k v d'
  end.

(** [OrderedDict(pairs)] and dict literals: later bindings of a key win. *)
Definition OrderedDict (pairs : list (string * Value)) : list (string * Value) :=
  fold_left (fun d kv => dict_set (fst kv) (snd kv) d) pairs [].

(** [d.update(other)]. *)
Definition dict_update (d other : list (string * Value)) : list (string * Value) :=
  fold_left (fun d kv => dict_set (fst kv) (snd kv) d) other d.

(** [d.pop(k, default)]: the value and the dict without the key. *)
Fixpoint dict_remove (k : string) (d : list (string * Value))
  : list (string * Value) :=
  match d with
  | [] => []
  | (k', v) :: d' =>
      if String.eqb k k' then dict_remove k d' else (k', v) :: dict_remove k d'
  end.

Definition dict_pop (k : string) (default : Value) (d : list (string * Value))
  : Value * list (string * Value) :=
  match assoc k d with
  | Some v => (v, dict_remove k d)
  | None => (default, d)
  end.

(** Truth value of an object ([if x:], [not x]). *)
Definition truthy (v : Value) : bool :=
  match v with
  | VNone => false
  | VBool b => b
  | VInt z => negb (z =? 0)
  | VStr s => negb (String.eqb s "")
  | VTuple l | VList l => match l with [] => false | _ => true end
  | VDict d => match d with [] => false | _ => true end
  end.

(** [a == b].  A bool is an int; a tuple never equals a str or a list;
    dicts compare by content. *)
Fixpoint py_eq (a b : Value) {struct a} : bool :=
  let fix all2 (x y : list Value) {struct x} : bool :=
    match x, y with
    | [], [] => true
    | u :: x', v :: y' => py_eq u v && all2 x' y'
    | _, _ => false
    end in
  let fix alld (x : list (string * Value)) (y : list (string * Value))
      {struct x} : bool :=
    match x with
    | [] => true
    | (k, u) :: x' =>
        match assoc k y with
        | Some v => py_eq u v
        | None => false
        end && alld x' y
    end in
  match a, b with
  | VNone, VNone => true
  | VBool x, VBool y => Bool.eqb x y
  | VBool x, VInt y => (if x then 1 else 0) =? y
  | VInt x, VBool y => x =? (if y then 1 else 0)
  | VInt x, VInt y => x =? y
  | VStr x, VStr y => String.eqb x y
  | VTuple x, VTuple y => all2 x y
  | VList x, VList y => all2 x y
  | VDict x, VDict y => (length x =? length y)%nat && alld x y
  | _, _ => false
  end.

(** [x is False]: identity with the [False] singleton. *)
Definition is_False (v : Value) : bool :=
  match v with
  | VBool false => true
  | _ => false
  end.

(** [d[k]] for a string key. *)
Definition getitem (v : Value) (k : string) : Outcome Value :=
  match v with
  | VDict d =>
      match assoc k d with
      | Some x => Ok x
      | None => Raise (KeyError k)
      end
  | VStr _ => Raise (TypeError "string indices must be integers")
  | VList _ => Raise (TypeError "list indices must be integers")
  | VTuple _ => Raise (TypeError "tuple indices must be integers")
  | _ => Raise (TypeError "object has no attribute '__getitem__'")
  end.

(** [l[i]] on a sequence, negative indices counting from the end. *)
Definition seq_index (l : list Value) (i : Z) : Outcome Value :=
  let n := Z.of_nat (length l) in
  let j := if i <? 0 then i + n else i in
  if (0 <=? j) && (j <? n)
  then match nth_error l (Z.to_nat j) with
       | Some x => Ok x
       | None => Raise IndexError
       end
  else Raise IndexError.

(** An object usable as a sequence index: an int, or a bool (an int too). *)
Definition as_index (v : Value) : option Z :=
  match v with
  | VInt z => Some z
  | VBool b => Some (if b then 1 else 0)
  | _ => None
  end.

(** [v[i]] for an integer literal [i]. *)
Definition getindex (v : Value) (i : Z) : Outcome Value :=
  match v with
  | VTuple l | VList l => seq_index l i
  | VDict _ => Raise (KeyError "<int>")
  | VStr s =>
      match seq_index (map (fun c => VStr (String c EmptyString)) (list_ascii_of_string s)) i with
      | Ok c => Ok c
      | _ => Raise IndexError
      end
  | _ => Raise (TypeError "object has no attribute '__getitem__'")
  end.

(** [len(v)]. *)
Definition py_len (v : Value) : Outcome Z :=
  match v with
  | VTuple l | VList l => Ok (Z.of_nat (length l))
  | VDict d => Ok (Z.of_nat (length d))
  | VStr s => Ok (Z.of_nat (String.length s))
  | _ => Raise (TypeError "object has no len()")
  end.

(** [needle in hay] for two strings: substring test. *)
Fixpoint contains (needle hay : string) : bool :=
  String.prefix needle hay ||
  match hay with
  | EmptyString => false
  | String _ hay' => contains needle hay'
  end.

(** [s in v] for a string [s]: substring of a str, element of a sequence,
    key of a dict. *)
Definition py_in (s : string) (v : Value) : Outcome bool :=
  match v with
  | VStr h => Ok (contains s h)
  | VTuple l | VList l => Ok (existsb (py_eq (VStr s)) l)
  | VDict d => Ok (match assoc s d with Some _ => true | None => false end)
  | _ => Raise (TypeError "argument of this type is not iterable")
  end.

(** [s.startswith(p)] is [String.prefix p s].  [s.replace(old, new)] for a
    non-empty [old]: every non-overlapping occurrence, left to right. *)
Fixpoint drop (n : nat) (s : string) : string :=
  match n, s with
  | O, _ => s
  | S n', String _ s' => drop n' s'
  | S _, EmptyString => EmptyString
  end.

Fixpoint replace_from (skip : nat) (old new s : string) : string :=
  match s with
  | EmptyString => EmptyString
  | String c s' =>
      match skip with
      | S k => replace_from k old new s'
      | O =>
          if String.prefix old s
          then new ++ replace_from (Nat.pred (String.length old)) old new s'
          else String c (replace_from O old new s')
      end
  end.

Definition str_replace (old new s : string) : string := replace_from O old new s.

(** ** The external collaborators *)

(** [pywsman.ClientOptions], an external class, by the operations the code
    performs on it: construction, [dir(self)], calling a zero-argument
    attribute ([getattr(self, attr)()]), calling a one-argument attribute
    ([getattr(self, setter)(value)], which changes the object and fails with
    whatever the class raises), and [add_selector]. *)
Class ClientOptionsAPI (O : Type) : Type := {
  ClientOptions : O;
  dir : O -> list string;
  call_getter : string -> O -> Outcome Value;
  call_setter : string -> Value -> O -> Outcome O;
  add_selector : Value -> Value -> O -> O
}.

(** What the code takes from outside its three source files.  The tables of
    wry/config.py ([RESOURCE_URIs], [SCHEMAS]) are parameters, total on the
    names the code looks up; [py_str] is the built-in [str()]; [RETRY_LIMIT]
    and [add_client_options] belong to the absent wry/decorators.py (see
    [retry] below; [add_client_options] is the decorator's effect on the
    [options] argument). *)
Class Environment : Type := {
  Options : Type;
  options_api :: ClientOptionsAPI Options;
  RESOURCE_URIs : string -> string;
  SCHEMAS : string -> string;
  py_str : Value -> string;
  RETRY_LIMIT : nat;
  add_client_options : option Options -> Options
}.

Section Wry.

Context {env : Environment}.

(** A call on the transport ([pywsman.Client]), with its arguments.  Payloads
    are kept as the structure handed to the serializer ([as_xml],
    [xmltodict.unparse]), not as XML text. *)
Inductive Request : Type :=
| ReqGet (options : Options) (resource_uri : string)
| ReqPut (options : Options) (resource_uri : string) (data : Value)
| ReqEnumerate (options : Options) (wsman_filter : Value) (resource_uri : string)
| ReqPull (options : Options) (wsman_filter : Value) (resource_uri : string)
    (context : string)
| ReqInvoke (options : Options) (resource_uri : string) (method : string)
    (data : Value).

(** The state a run threads: the documents the transport will deliver, one
    per call and in call order whatever the request ([None]: the call yields
    no document; an exhausted script yields none either), the calls made so
    far, and the [ClientOptions] object of the device handle, which
    [AMTDevice.__init__] creates once and every capability aliases as
    [self.options]. *)
Record World : Type := mkWorld {
  script : list (option XmlDoc);
  sent : list Request;
  self_options : Options
}.

Definition M (A : Type) : Type := World -> Outcome A * World.

Definition ret {A} (a : A) : M A := fun w => (Ok a, w).

Definition raise {A} (e : Exn) : M A := fun w => (Raise e, w).

Definition lift {A} (r : Outcome A) : M A := fun w => (r, w).

Definition bind {A B} (m : M A) (k : A -> M B) : M B :=
  fun w =>
    match m w with
    | (Ok a, w') => k a w'
    | (Raise e, w') => (Raise e, w')
    | (OutOfFuel, w') => (OutOfFuel, w')
    end.

Definition read_options : M Options := fun w => (Ok (self_options w), w).

(** One call on the transport: the request is recorded, the next document of
    the script is its answer. *)
Definition client_call (r : Request) : M (option XmlDoc) :=
  fun w =>
    match script w with
    | [] => (Ok None, mkWorld [] (sent w ++ [r])%list (self_options w))
    | d :: rest => (Ok d, mkWorld rest (sent w ++ [r])%list (self_options w))
    end.

End Wry.

Notation "x <- m ;; k" := (bind m (fun x => k))
  (at level 61, m at next level, right associativity).
Notation "' p <- m ;; k" := (bind m (fun x => let p := x in k))
  (at level 61, p pattern, m at next level, right associativity).

Section Common.

Context {env : Environment}.

(** ** wry/common.py: the transaction layer *)

Definition _validate (doc : option XmlDoc) (silent : bool) : M XmlDoc :=
  match doc with
  | None => raise AMTConnectFailure
  | Some doc =>
      if negb silent
      then if is_fault doc then raise (WSManFault doc) else ret doc
      else ret doc
  end.

(** Modelled from the spec: the [retry] decorator (wry/decorators.py) is not
    among the sources.  "A retry policy that re-issues the underlying
    transport call a bounded number of times on transient connection
    failure, with no retry on a successfully-delivered fault response"; "a
    transport that always fails yields ConnectFailure after exactly
    RETRY_LIMIT attempts".  [retry_from n f] makes at most [n] attempts. *)
Fixpoint retry_from {A} (attempts : nat) (f : M A) : M A :=
  match attempts with
  | O => raise AMTConnectFailure
  | S k =>
      fun w =>
        match f w with
        | (Raise AMTConnectFailure, w') => retry_from k f w'
        | r => r
        end
  end.

Definition retry {A} (f : M A) : M A := retry_from RETRY_LIMIT f.

Definition wsman_get (resource_uri : string) (options : option Options)
    (silent : bool) : M XmlDoc :=
  let options := add_client_options options in
  retry (doc <- client_call (ReqGet options resource_uri) ;;
         _validate doc silent).

Definition wsman_pull (resource_uri : string) (options : option Options)
    (wsman_filter : Value) (context : string) (silent : bool) : M XmlDoc :=
  let options := add_client_options options in
  retry (doc <- client_call (ReqPull options wsman_filter resource_uri context) ;;
         _validate doc silent).

Definition wsman_enumerate (resource_uri : string) (options : option Options)
    (wsman_filter : Value) (silent : bool) : M XmlDoc :=
  let options := add_client_options options in
  retry (doc <- client_call (ReqEnumerate options wsman_filter resource_uri) ;;
         _validate doc silent).

Definition wsman_put (resource_uri : string) (data : Value)
    (options : option Options) (silent : bool) : M XmlDoc :=
  let options := add_client_options options in
  retry (doc <- client_call (ReqPut options resource_uri data) ;;
         _validate doc silent).

Definition wsman_invoke (resource_uri : string) (method : string) (data : Value)
    (options : option Options) (silent : bool) : M XmlDoc :=
  let options := add_client_options options in
  retry (doc <- client_call (ReqInvoke options resource_uri method data) ;;
         _validate doc silent).

Definition get_resource (resource_name : string) (options : option Options)
  : M Value :=
  let uri := RESOURCE_URIs resource_name in
  doc <- wsman_get uri options false ;;
  ret (WryDict doc).

(** The body of the pull loop after the call: the page's [PullResponse], its
    [EndOfSequence] popped with default [False], and
    [response['Items'][resource_name]]. *)
Definition read_page (resource_name : string) (doc : XmlDoc)
  : Outcome (Value * Value) :=
  obind (getitem (WryDict doc) "PullResponse") (fun response =>
  match response with
  | VDict r =>
      let '(ended, r') := dict_pop "EndOfSequence" (VBool false) r in
      obind (getitem (VDict r') "Items") (fun items =>
      obind (getitem items resource_name) (fun item =>
      Ok (ended, item)))
  | _ => Raise (AttributeError "pop")
  end).

(** [while ended is False: ...], entered with [ended = False]; [fuel] bounds
    the iterations. *)
Fixpoint pull_loop (fuel : nat) (uri : string) (context : string)
    (options : option Options) (resource_name : string) (output : list Value)
  : M (list Value) :=
  match fuel with
  | O => fun w => (OutOfFuel, w)
  | S fuel' =>
      doc <- wsman_pull uri options VNone context false ;;
      ' (ended, item) <- lift (read_page resource_name doc) ;;
      let output := (output ++ [item])%list in
      if is_False ended
      then pull_loop fuel' uri context options resource_name output
      else ret output
  end.

(** Every iteration that does not raise takes a document off the script, so
    one more iteration than the script has documents is budget enough. *)
Definition enumerate_resource (resource_name : string) (wsman_filter : Value)
    (options : option Options) : M Value :=
  let uri := RESOURCE_URIs resource_name in
  doc <- wsman_enumerate uri options VNone false ;;
  let doc := WryDict doc in
  response <- lift (getitem doc "EnumerateResponse") ;;
  context <- lift (getitem response "EnumerationContext") ;;
  fun w =>
    (output <- pull_loop (S (length (script w))) uri (py_str context) options
                 resource_name [] ;;
     ret (VDict [(resource_name, VList output)])) w.

(** [indict.keys()[0]] *)
Definition first_key (indict : Value) : Outcome string :=
  match indict with
  | VDict ((k, _) :: _) => Ok k
  | VDict [] => Raise IndexError
  | _ => Raise (AttributeError "keys")
  end.

Definition put_resource (indict : Value) (options : option Options)
    (uri : option string) (silent : bool) : M Value :=
  uri <- match uri with
         | Some u => if String.eqb u "" then
                       k <- lift (first_key indict) ;; ret (RESOURCE_URIs k)
                     else ret u
         | None => k <- lift (first_key indict) ;; ret (RESOURCE_URIs k)
         end ;;
  let data := indict in
  doc <- wsman_put uri data options silent ;;
  ret (WryDict doc).

End Common.

Section Monkey.

Context {env : Environment}.

(** ** wry/monkey.py *)

(** The loop of [copy_client_options]: each [get_*] attribute of [self] is
    read and written back through the matching [set_*] attribute of [self].
    Returns how the loop ended and [self] as the setters left it. *)
Fixpoint reapply_settings (attrs : list string) (self : Options)
  : Outcome unit * Options :=
  match attrs with
  | [] => (Ok tt, self)
  | attr :: rest =>
      if String.prefix "get_" attr
      then
        let setter := str_replace "get_" "set_" attr in
        match call_getter attr self with
        | Ok value =>
            match call_setter setter value self with
            | Ok self' => reapply_settings rest self'
            | Raise e => (Raise e, self)
            | OutOfFuel => (OutOfFuel, self)
            end
        | Raise e => (Raise e, self)
        | OutOfFuel => (OutOfFuel, self)
        end
      else reapply_settings rest self
  end.

(** [copy_client_options(self)], installed as [ClientOptions.__copy__]: the
    returned object, and [self] afterwards. *)
Definition copy_client_options (self : Options) : Outcome Options * Options :=
  let new_options := ClientOptions in
  match reapply_settings (dir self) self with
  | (Ok _, self') => (Ok new_options, self')
  | (Raise e, self') => (Raise e, self')
  | (OutOfFuel, self') => (OutOfFuel, self')
  end.

End Monkey.

Section Invoke.

Context {env : Environment}.

(** ** wry/common.py: method invocation *)

(** [d[p1][p2]...[k] = v] on nested dicts. *)
Fixpoint setitem_path (path : list string) (k : string) (v : Value) (d : Value)
  : Outcome Value :=
  match path with
  | [] =>
      match d with
      | VDict e => Ok (VDict (dict_set k v e))
      | _ => Raise (TypeError "object does not support item assignment")
      end
  | p :: path' =>
      obind (getitem d p) (fun sub =>
      obind (setitem_path path' k v sub) (fun sub' =>
      match d with
      | VDict e => Ok (VDict (dict_set p sub' e))
      | _ => Raise (TypeError "object does not support item assignment")
      end))
  end.

(** The initial [data] of [invoke_method]. *)
Definition method_input (service_uri resource_name affected_item method_name
    address_schema : string) : Value :=
  VDict (OrderedDict [
    (method_name ++ "_INPUT", VDict (OrderedDict [
      ("@xmlns", VStr service_uri);
      (affected_item, VDict (OrderedDict [
        ("@xmlns", VStr service_uri);
        ("Address", VDict (OrderedDict [
          ("#text", VStr (SCHEMAS address_schema));
          ("@xmlns", VStr (SCHEMAS "addressing"))]));
        ("ReferenceParameters", VDict (OrderedDict [
          ("ResourceURI", VDict (OrderedDict [
            ("#text", VStr (RESOURCE_URIs resource_name));
            ("@xmlns", VStr (SCHEMAS "wsman"))]));
          ("@xmlns", VStr (SCHEMAS "addressing"))]))]))]))]).

(** [if selector: ...]: the selector set goes into the reference parameters;
    a third component is registered with the outgoing options. *)
Definition add_selector_set (affected_item method_name : string)
    (selector : Value) (data : Value) (options : Options)
  : Outcome (Value * Options) :=
  if truthy selector
  then
    obind (getindex selector 1) (fun text =>
    obind (getindex selector 0) (fun name =>
    obind (setitem_path
             [method_name ++ "_INPUT"; affected_item; "ReferenceParameters"]
             "SelectorSet"
             (VDict (OrderedDict [
                ("Selector", VDict (OrderedDict [
                   ("#text", text); ("@Name", name)]));
                ("@xmlns", VStr (SCHEMAS "wsman"))]))
             data) (fun data =>
    obind (py_len selector) (fun n =>
    if 2 <? n
    then
      if n =? 3
      then
        obind (getindex selector 0) (fun s0 =>
        obind (getindex selector (-1)) (fun s2 =>
        Ok (data, add_selector s0 s2 options)))
      else Raise AssertionError
    else Ok (data, options)))))
  else Ok (data, options).

(** [for arg_name, arg_value in method_args: ...] *)
Fixpoint add_method_args (service_uri method_name : string)
    (method_args : list (string * Value)) (data : Value) : Outcome Value :=
  match method_args with
  | [] => Ok data
  | (arg_name, arg_value) :: rest =>
      obind (setitem_path [method_name ++ "_INPUT"] arg_name
               (VDict (OrderedDict [("#text", arg_value);
                                    ("@xmlns", VStr service_uri)]))
               data)
            (add_method_args service_uri method_name rest)
  end.

(** [invoke_method].  [options] is the caller's object: device.py always
    passes [self.options], so what [options.__copy__()] does to it is written
    back to the handle's object.  [print xml] is not modelled. *)
Definition invoke_method (service_name resource_name affected_item
    method_name : string) (options : Options) (selector : Value)
    (method_args : list (string * Value)) (anonymous : bool) : M bool :=
  let address_schema :=
    if anonymous then "addressing_anonymous" else "addressing" in
  options <- (fun w =>
                let '(r, self') := copy_client_options options in
                (r, mkWorld (script w) (sent w) self')) ;;
  let service_uri := RESOURCE_URIs service_name in
  let data := method_input service_uri resource_name affected_item method_name
                address_schema in
  ' (data, options) <- lift (add_selector_set affected_item method_name
                               selector data options) ;;
  data <- lift (add_method_args service_uri method_name method_args data) ;;
  let xml := data in
  doc <- wsman_invoke service_uri method_name xml (Some options) false ;;
  let returned := WryDict doc in
  output <- lift (getitem returned (method_name ++ "_OUTPUT")) ;;
  return_value <- lift (getitem output "ReturnValue") ;;
  if negb (py_eq return_value (VInt 0))
  then raise (NonZeroReturn return_value)
  else ret (negb (truthy return_value)).

(** Binding of a call's keyword arguments to a signature, given as the
    parameter names with whether each has a default: a keyword that names no
    parameter, or a parameter without default left unbound, is a
    [TypeError]. *)
Definition bind_keywords (fname : string) (params : list (string * bool))
    (given : list string) : Outcome unit :=
  match find (fun k => negb (existsb (String.eqb k) (map fst params))) given with
  | Some k => Raise (TypeError (fname ++ "() got an unexpected keyword argument"))
  | None =>
      if forallb (fun p => snd p || existsb (String.eqb (fst p)) given) params
      then Ok tt
      else Raise (TypeError (fname ++ "() takes more arguments"))
  end.

(** [def invoke_method(service_name, resource_name, affected_item,
    method_name, options, client, selector=None, method_args=(),
    anonymous=False)] *)
Definition invoke_method_params : list (string * bool) :=
  [("service_name", false); ("resource_name", false); ("affected_item", false);
   ("method_name", false); ("options", false); ("client", false);
   ("selector", true); ("method_args", true); ("anonymous", true)].

End Invoke.

(** ** wry/data_structures.py: EnablementMap *)

(** [x in l] with [==] on the elements. *)
Definition py_mem (x : Value) (l : list Value) : bool := existsb (py_eq x) l.

(** Modelled from the spec: [EnablementMap] (wry/data_structures.py) is not
    among the sources.  "A fixed universe of mutually-independent (bitset)
    named values with current selection state; mutation methods must validate
    against the fixed universe."  [values] is the universe in constructor
    order, [enabled] the values currently on; a new map has none on. *)
Record EnablementMap : Type := mkEnablementMap {
  values : list Value;
  enabled : list Value
}.

Definition EnablementMap_new (universe : list Value) : EnablementMap :=
  mkEnablementMap universe [].

Definition toggle (x : Value) (m : EnablementMap) : Outcome EnablementMap :=
  if py_mem x (values m)
  then Ok (mkEnablementMap (values m)
             (filter (fun v => xorb (py_mem v (enabled m)) (py_eq v x))
                     (values m)))
  else Raise (ValueError "value outside the fixed universe").

(** [set(l)] fails on unhashable elements (lists, dicts). *)
Fixpoint hashable (v : Value) : bool :=
  match v with
  | VList _ | VDict _ => false
  | VTuple l => forallb hashable l
  | _ => true
  end.

Definition py_set (l : list Value) : Outcome (list Value) :=
  if forallb hashable l then Ok l else Raise (TypeError "unhashable type").

(** ** wry/device.py *)

(** [StateMap = namedtuple('StateMap', ['state', 'sub_state'])]: a tuple. *)
Definition StateMap (state sub_state : Value) : Value :=
  VTuple [state; sub_state].

Definition AMT_POWER_STATE_MAP : list Value :=
  [ VNone;
    StateMap (VStr "other") VNone;
    StateMap (VStr "on") VNone;
    StateMap (VStr "sleep") (VStr "Light");
    StateMap (VStr "sleep") (VStr "Deep");
    StateMap (VStr "cycle") (VStr "(Off - Soft)");
    StateMap (VStr "off") (VStr "hard");
    StateMap (VStr "hibernate") (VStr "(Off - Soft)");
    StateMap (VStr "off") (VStr "soft");
    StateMap (VStr "cycle") (VStr "(Off - Hard)");
    StateMap (VStr "Master Bus Reset") VNone;
    StateMap (VStr "Diagnostic Interrupt (NMI)") VNone;
    StateMap (VStr "off") (VStr "Soft Graceful");
    StateMap (VStr "off") (VStr "Hard Graceful");
    StateMap (VStr "Master Bus Reset") (VStr "Graceful");
    StateMap (VStr "cycle") (VStr "(Off - Soft Graceful)");
    StateMap (VStr "cycle") (VStr "(Off - Hard Graceful)");
    StateMap (VStr "Diagnostic Interrupt (INIT)") VNone ].

(** [l.index(x)] *)
Fixpoint list_index (x : Value) (l : list Value) : option Z :=
  match l with
  | [] => None
  | y :: l' =>
      if py_eq y x then Some 0
      else match list_index x l' with
           | Some i => Some (i + 1)
           | None => None
           end
  end.

Module DeviceCapability.
Section Methods.

Context {env : Environment}.

(** [if not resource_name: resource_name = self.resource_name]; of the
    capabilities only [AMTPower] sets the attribute. *)
Definition pick_resource_name (self_resource_name resource_name : option string)
  : M string :=
  match resource_name with
  | Some n =>
      if negb (String.eqb n "") then ret n
      else match self_resource_name with
           | Some s => ret s
           | None => raise (AttributeError "resource_name")
           end
  | None =>
      match self_resource_name with
      | Some s => ret s
      | None => raise (AttributeError "resource_name")
      end
  end.

Definition get (self_resource_name resource_name setting : option string)
  : M Value :=
  resource_name <- pick_resource_name self_resource_name resource_name ;;
  options <- read_options ;;
  resource <- get_resource resource_name (Some options) ;;
  match setting with
  | Some s =>
      if negb (String.eqb s "")
      then r <- lift (getitem resource resource_name) ;; lift (getitem r s)
      else lift (getitem resource resource_name)
  | None => lift (getitem resource resource_name)
  end.

(** With [as_update] the resource is fetched and [input_dict] merged into it
    before it is put. *)
Definition put (self_resource_name resource_name : option string)
    (input_dict : list (string * Value)) (silent as_update : bool) : M unit :=
  resource_name <- pick_resource_name self_resource_name resource_name ;;
  resource <-
    (if as_update
     then
       options <- read_options ;;
       resource <- get_resource resource_name (Some options) ;;
       r <- lift (getitem resource resource_name) ;;
       match r with
       | VDict fields =>
           lift (setitem_path [] resource_name
                   (VDict (dict_update fields input_dict)) resource)
       | _ => raise (AttributeError "update")
       end
     else ret (VDict [(resource_name, VDict input_dict)])) ;;
  options <- read_options ;;
  _ <- put_resource resource (Some options) None silent ;;
  ret tt.

Definition walk (resource_name : string) (wsman_filter : Value) : M Value :=
  options <- read_options ;;
  enumerate_resource resource_name wsman_filter (Some options).

End Methods.
End DeviceCapability.

Module AMTPower.
Section Methods.

Context {env : Environment}.

Definition resource_name : option string :=
  Some "CIM_AssociatedPowerManagementService".

(** The call passes [args_before=...], a keyword [invoke_method] does not
    have. *)
Definition request_power_state_change (power_state : Value) : M bool :=
  options <- read_options ;;
  _ <- lift (bind_keywords "invoke_method" invoke_method_params
               ["service_name"; "resource_name"; "affected_item"; "method_name";
                "options"; "client"; "selector"; "args_before"; "anonymous"]) ;;
  invoke_method "CIM_PowerManagementService" "CIM_ComputerSystem"
    "ManagedElement" "RequestPowerStateChange" options
    (VTuple [VStr "Name"; VStr "ManagedSystem";
             VStr "Intel(r) AMT Power Management Service"])
    [] true.

(** [AMT_POWER_STATE_MAP[response]] *)
Definition state : M Value :=
  response <- DeviceCapability.get resource_name None (Some "PowerState") ;;
  match as_index response with
  | Some i => lift (seq_index AMT_POWER_STATE_MAP i)
  | None => raise (TypeError "list indices must be integers")
  end.

Definition turn_on : M unit :=
  let sub_state := VNone in
  match list_index (VTuple [VStr "on"; sub_state]) AMT_POWER_STATE_MAP with
  | Some index => _ <- request_power_state_change (VInt index) ;; ret tt
  | None => raise (ValueError "tuple is not in list")
  end.

Definition turn_off : M bool := request_power_state_change (VInt 8).

Definition reset : M bool := request_power_state_change (VInt 5).

(** [SomeError] is bound nowhere: evaluating it is a [NameError]. *)
Definition toggle : M unit :=
  state <- state ;;
  if py_eq state (VStr "on")
  then _ <- turn_off ;; ret tt
  else if py_eq state (VStr "off")
  then turn_on
  else raise (NameError "SomeError").

End Methods.
End AMTPower.

Module AMTKVM.
Section Methods.

Context {env : Environment}.

(** [self.walk('AMT_TLSSettingData')['AMT_TLSSettingData'][0]['Enabled']] *)
Definition tls_enabled : M Value :=
  returned <- DeviceCapability.walk "AMT_TLSSettingData" VNone ;;
  instances <- lift (getitem returned "AMT_TLSSettingData") ;;
  first <- lift (getindex instances 0) ;;
  lift (getitem first "Enabled").

(** The [enabled_ports] property: each read queries the device and builds a
    new map.  (The [iadd]/[isub] callbacks handed to the map are not called
    by the code modelled here.) *)
Definition enabled_ports : M EnablementMap :=
  let ports := EnablementMap_new [VInt 5900; VInt 16994; VInt 16995] in
  is5900 <- DeviceCapability.get None (Some "IPS_KVMRedirectionSettingData")
              (Some "Is5900PortEnabled") ;;
  ports <- (if truthy is5900 then lift (toggle (VInt 5900) ports) else ret ports) ;;
  listener <- DeviceCapability.get None (Some "AMT_RedirectionService")
                (Some "ListenerEnabled") ;;
  if truthy listener
  then
    ports <- lift (toggle (VInt 16994) ports) ;;
    tls <- tls_enabled ;;
    if truthy tls then lift (toggle (VInt 16995) ports) else ret ports
  else ret ports.

(** [# Validation:] *)
Definition validate_ports (values0 ports enabled0 : list Value) : M unit :=
  vs <- lift (py_set values0) ;;
  ps <- lift (py_set ports) ;;
  let invalid := filter (fun v => negb (py_mem v ps)) vs in
  if truthy (VList invalid)
  then raise (ValueError "Invalid port(s) specified")
  else
    if py_mem (VInt 16995) values0 && negb (py_mem (VInt 16995) enabled0)
    then
      if negb (py_mem (VInt 16994) values0)
      then raise (ValueError
             "Port 16995 cannot be enabled unless port 16994 is enabled also.")
      else
        tls <- tls_enabled ;;
        if negb (truthy tls)
        then raise (ValueError
               "Port 16995 can only be set by enabling both TLS and port 16994.")
        else ret tt
    else ret tt.

(** [# Setter logic:] the loop over [(port, port in values)]; the trailing
    [self.enabled_ports.toggle(port)] reads the property again and toggles the
    map that read returns. *)
Fixpoint apply_ports (pairs : list (Value * bool)) (enabled0 : list Value)
  : M unit :=
  match pairs with
  | [] => ret tt
  | (port, enable) :: rest =>
      _ <- (if (enable && negb (py_mem port enabled0))
               || (negb enable && py_mem port enabled0)
            then
              _ <- (if py_eq port (VInt 5900)
                    then DeviceCapability.put None
                           (Some "IPS_KVMRedirectionSettingData")
                           [("Is5900PortEnabled", VBool enable)] false true
                    else if py_eq port (VInt 16994)
                    then DeviceCapability.put None
                           (Some "AMT_RedirectionService")
                           [("ListenerEnabled", VBool enable)] false true
                    else ret tt) ;;
              m <- enabled_ports ;;
              _ <- lift (toggle port m) ;;
              ret tt
            else ret tt) ;;
      apply_ports rest enabled0
  end.

(** The [enabled_ports] setter ([print] statements not modelled). *)
Definition set_enabled_ports (values0 : list Value) : M unit :=
  m1 <- enabled_ports ;;
  let ports := values m1 in
  m2 <- enabled_ports ;;
  let enabled0 := enabled m2 in
  _ <- validate_ports values0 ports enabled0 ;;
  apply_ports (map (fun port => (port, py_mem port values0)) ports) enabled0.

End Methods.
End AMTKVM.

(** [v >= n] for an int [n] under Python 2's ordering of mixed types: [None]
    is below every number, every non-number above. *)
Definition py2_ge_int (v : Value) (n : Z) : bool :=
  match v with
  | VNone => false
  | VInt z => n <=? z
  | VBool b => n <=? (if b then 1 else 0)
  | _ => true
  end.

Module AMTRedirection.
Section Methods.

Context {env : Environment}.

Definition _state_mapping : list (Z * string) :=
  [ (0, "Unknown"); (1, "Other"); (2, "Enabled"); (3, "Disabled");
    (4, "Shutting Down"); (5, "Not Applicable"); (6, "Enabled but Offline");
    (7, "In Test"); (8, "Deferred"); (9, "Quiesce"); (10, "Starting");
    (11, "DMTF Reserved");
    (32768, "IDER and SOL are disabled");
    (32769, "IDER is enabled and SOL is disabled");
    (32770, "SOL is enabled and IDER is disabled");
    (32771, "IDER and SOL are enabled") ].

(** The decoding the getter applies to the [EnabledState] it read. *)
Definition decode_state (state : Value) : Outcome EnablementMap :=
  let items := EnablementMap_new [VStr "SoL"; VStr "IDER"] in
  if py2_ge_int state 32768
  then
    obind (if py_mem state [VInt 32769; VInt 32771]
           then toggle (VStr "IDER") items else Ok items) (fun items =>
    if py_mem state [VInt 32770; VInt 32771]
    then toggle (VStr "SoL") items else Ok items)
  else
    if py_mem state (map (fun kv => VInt (fst kv)) _state_mapping)
    then Raise (LookupError "Unknown state discovered")
    else Raise (KeyError "Unknown state discovered").

Definition enabled_features : M EnablementMap :=
  state <- DeviceCapability.get None (Some "AMT_RedirectionService")
             (Some "EnabledState") ;;
  lift (decode_state state).

(** [set(features) == set(['SoL', 'IDER'])] *)
Definition is_sol_and_ider (features : list Value) : Outcome bool :=
  obind (py_set features) (fun fs =>
  Ok (forallb (fun f => py_mem f [VStr "SoL"; VStr "IDER"]) fs
      && py_mem (VStr "SoL") fs && py_mem (VStr "IDER") fs)).

(** The [enabled_features] setter, for a list [features].  The last branch
    builds its message from [self.enabled], an attribute the class does not
    have: the read raises before [ValueError] is constructed.  (The source
    line also lacks its closing parenthesis.) *)
Definition set_enabled_features (features : list Value) : M unit :=
  if negb (truthy (VList features))
  then DeviceCapability.put None (Some "AMT_RedirectionService")
         [("EnabledState", VInt 32768)] false true
  else
    both <- lift (is_sol_and_ider features) ;;
    if both
    then DeviceCapability.put None (Some "AMT_RedirectionService")
           [("EnabledState", VInt 32771)] false true
    else
      first <- lift (getindex (VList features) 0) ;;
      if py_eq first (VStr "SoL")
      then DeviceCapability.put None (Some "AMT_RedirectionService")
             [("EnabledState", VInt 32770)] false true
      else if py_eq first (VStr "IDER")
      then DeviceCapability.put None (Some "AMT_RedirectionService")
             [("EnabledState", VInt 32769)] false true
      else raise (AttributeError "enabled").

End Methods.
End AMTRedirection.

Module AMTOptIn.
Section Methods.

Context {env : Environment}.

(** The [code_ttl] setter: both assertions, and the [TypeError] raised in
    their place. *)
Definition set_code_ttl (value : Value) : M unit :=
  let checked :=
    match value with
    | VInt z => (60 <=? z) && (z <=? 900)
    | _ => false
    end in
  if checked
  then DeviceCapability.put None (Some "IPS_OptInService")
         [("OptInCodeTimeout", value)] false true
  else raise (TypeError "TTL (in seconds) must be an integer between 60 and 900.").

End Methods.
End AMTOptIn.

(** [l[i] = x] on a list, for an index already known to be in range. *)
Fixpoint list_set (l : list Value) (i : nat) (x : Value) : list Value :=
  match l, i with
  | [], _ => []
  | _ :: l', O => x :: l'
  | y :: l', S i' => y :: list_set l' i' x
  end.

(** The zeroing loop of the boot-medium setter over a sequence: the element
    at each position is used as an index into the sequence itself. *)
Fixpoint zero_sequence (steps : nat) (pos : nat) (mutable : bool)
    (l : list Value) : Outcome (list Value) :=
  match steps with
  | O => Ok l
  | S steps' =>
      match nth_error l pos with
      | None => Ok l
      | Some setting =>
          match as_index setting with
          | None => Raise (TypeError "indices must be integers")
          | Some i =>
              let n := Z.of_nat (length l) in
              let j := Z.to_nat (if i <? 0 then i + n else i) in
              obind (seq_index l i) (fun x =>
              match x with
              | VInt _ =>
                  if mutable
                  then zero_sequence steps' (S pos) mutable (list_set l j (VInt 0))
                  else Raise (TypeError "object does not support item assignment")
              | VBool _ =>
                  if mutable
                  then zero_sequence steps' (S pos) mutable (list_set l j (VBool false))
                  else Raise (TypeError "object does not support item assignment")
              | _ => zero_sequence steps' (S pos) mutable l
              end)
          end
      end
  end.

(** [for setting in settings: ...]: ints become 0 and bools [False]; the
    result is used for nothing afterwards. *)
Definition zero_settings (settings : Value) : Outcome Value :=
  match settings with
  | VDict d =>
      Ok (VDict (map (fun kv =>
                        match snd kv with
                        | VInt _ => (fst kv, VInt 0)
                        | VBool _ => (fst kv, VBool false)
                        | _ => kv
                        end) d))
  | VList l => obind (zero_sequence (length l) 0 true l) (fun l' => Ok (VList l'))
  | VTuple l => obind (zero_sequence (length l) 0 false l) (fun l' => Ok (VTuple l'))
  | VStr s =>
      if String.eqb s "" then Ok settings
      else Raise (TypeError "string indices must be integers")
  | _ => Raise (TypeError "object is not iterable")
  end.

(** [for source in sources: if value in source['StructuredBootString']: ...
    break / else: raise LookupError]: the [InstanceID] of the first source
    whose structured string contains [value]. *)
Fixpoint find_source (value : string) (sources : list Value) : Outcome Value :=
  match sources with
  | [] => Raise (LookupError "This medium is not supported by the device")
  | source :: rest =>
      obind (getitem source "StructuredBootString") (fun sbs =>
      obind (py_in value sbs) (fun found =>
      if found then getitem source "InstanceID" else find_source value rest))
  end.

(** Iterating [sources]: a list or tuple gives its elements, a dict its keys,
    a str its characters. *)
Definition py_iter (v : Value) : Outcome (list Value) :=
  match v with
  | VList l | VTuple l => Ok l
  | VDict d => Ok (map (fun kv => VStr (fst kv)) d)
  | VStr s => Ok (map (fun c => VStr (String c EmptyString)) (list_ascii_of_string s))
  | _ => Raise (TypeError "object is not iterable")
  end.

Module AMTBoot.
Section Methods.

Context {env : Environment}.

(** The call passes [args_after=...], a keyword [invoke_method] does not
    have. *)
Definition _set_boot_config_role (enabled_state : Value) : M bool :=
  role <- (if py_eq enabled_state (VBool true) then ret (VStr "1")
           else if py_eq enabled_state (VBool false) then ret (VStr "32768")
           else ret VNone) ;;
  svc <- DeviceCapability.get None (Some "CIM_BootService") None ;;
  name <- lift (getitem svc "ElementName") ;;
  if negb (py_eq name (VStr "Intel(r) AMT Boot Service"))
  then raise AssertionError
  else
    options <- read_options ;;
    match role with
    | VNone => raise (NameError "role")
    | _ =>
        _ <- lift (bind_keywords "invoke_method" invoke_method_params
                     ["service_name"; "resource_name"; "affected_item";
                      "method_name"; "options"; "client"; "selector";
                      "args_after"]) ;;
        invoke_method "CIM_BootService" "CIM_BootConfigSetting"
          "BootConfigSetting" "SetBootConfigRole" options
          (VTuple [VStr "InstanceID"; VStr "Intel(r) AMT: Boot Configuration 0"])
          [] false
    end.

(** The [medium] setter. *)
Definition set_medium (value : string) : M unit :=
  settings <- DeviceCapability.get None (Some "AMT_BootSettingData") None ;;
  _ <- lift (zero_settings settings) ;;
  returned <- DeviceCapability.walk "CIM_BootSourceSetting" VNone ;;
  sources <- lift (getitem returned "CIM_BootSourceSetting") ;;
  sources <- lift (py_iter sources) ;;
  instance_id <- lift (find_source value sources) ;;
  boot_config <- DeviceCapability.get None (Some "CIM_BootConfigSetting") None ;;
  config_instance <- lift (getitem boot_config "InstanceID") ;;
  let config_instance := VStr (py_str config_instance) in
  options <- read_options ;;
  _ <- invoke_method "CIM_BootConfigSetting" "CIM_BootSourceSetting" "Source"
         "ChangeBootOrder" options
         (VTuple [VStr "InstanceID"; instance_id; config_instance]) [] false ;;
  _ <- _set_boot_config_role (VBool true) ;;
  ret tt.

End Methods.
End AMTBoot.

(** ** Further methods of wry/common.py and wry/device.py *)

(** The keywords of a call, bound one after the other to the parameters a
    signature names: a keyword that names no parameter, or one already bound
    (by position or by an earlier keyword), is a [TypeError]. *)
Fixpoint bind_keyword_args (fname : string) (params bound given : list string)
  : Outcome (list string) :=
  match given with
  | [] => Ok bound
  | k :: rest =>
      if negb (existsb (String.eqb k) params)
      then Raise (TypeError (fname ++ "() got an unexpected keyword argument"))
      else if existsb (String.eqb k) bound
      then Raise (TypeError (fname ++ "() got multiple values for keyword argument"))
      else bind_keyword_args fname params (bound ++ [k])%list rest
  end.

(** A call with [npos] positional arguments and the keywords [given]: the
    positional arguments take the first parameters, then the keywords are
    bound, then every parameter without default must be bound. *)
Definition bind_call (fname : string) (params : list (string * bool))
    (npos : nat) (given : list string) : Outcome unit :=
  if (length params <? npos)%nat
  then Raise (TypeError (fname ++ "() takes fewer arguments"))
  else
    obind (bind_keyword_args fname (map fst params)
             (firstn npos (map fst params)) given) (fun bound =>
    if forallb (fun p => snd p || existsb (String.eqb (fst p)) bound) params
    then Ok tt
    else Raise (TypeError (fname ++ "() takes more arguments"))).

(** [def get_resource(client, resource_name, options=None)] *)
Definition get_resource_params : list (string * bool) :=
  [("client", false); ("resource_name", false); ("options", true)].

(** [def put_resource(client, indict, options=None, uri=None, silent=False)] *)
Definition put_resource_params : list (string * bool) :=
  [("client", false); ("indict", false); ("options", true); ("uri", true);
   ("silent", true)].

Module AMTDevice.
Section Methods.

Context {env : Environment}.

(** [common.get_resource(self.client, resource_name, options=self.options,
    as_xmldoc=as_xmldoc)]: two positional arguments and two keywords. *)
Definition get_resource (resource_name : string) (as_xmldoc : bool) : M Value :=
  options <- read_options ;;
  _ <- lift (bind_call "get_resource" get_resource_params 2
               ["options"; "as_xmldoc"]) ;;
  get_resource resource_name (Some options).

(** [common.put_resource(self.client, data, uri, options=self.options,
    silent=silent)]: three positional arguments, the third of which lands on
    the parameter [options], and two keywords. *)
Definition put_resource (data : Value) (uri : option string) (silent : bool)
  : M Value :=
  options <- read_options ;;
  _ <- lift (bind_call "put_resource" put_resource_params 3
               ["options"; "silent"]) ;;
  put_resource data (Some options) uri silent.

(** [common.enumerate_resource(self.client, resource_name)]: no options are
    passed on. *)
Definition enumerate_resource (resource_name : string) : M Value :=
  enumerate_resource resource_name VNone None.

End Methods.
End AMTDevice.

(** [AMT_KVM_ENABLEMENT_MAP], a dict keyed by the [EnabledState] code. *)
Definition AMT_KVM_ENABLEMENT_MAP : list (Z * Value) :=
  [ (2, StateMap (VBool true) (VStr "Enabled"));
    (6, StateMap (VBool true) (VStr "Enabled But Offline"));
    (3, StateMap (VBool false) (VStr "Disabled")) ].

(** [d[key]] on a dict with integer keys: the key must be hashable, and
    matches by [==]. *)
Definition int_dict_get (d : list (Z * Value)) (key : Value) : Outcome Value :=
  if hashable key
  then match find (fun kv => py_eq key (VInt (fst kv))) d with
       | Some kv => Ok (snd kv)
       | None => Raise (KeyError "<key>")
       end
  else Raise (TypeError "unhashable type").

Module AMTKVMSettings.
Section Methods.

Context {env : Environment}.

(** [request_state_change]: the call of [invoke_method] names neither
    [resource_name] nor [affected_item] and passes [args_before], so its
    arguments cannot be bound and the body of [invoke_method] is not
    entered. *)
Definition request_state_change (resource_name : string)
    (requested_state : Value) : M bool :=
  _ <- read_options ;;
  _ <- lift (bind_keywords "invoke_method" invoke_method_params
               ["service_name"; "method_name"; "options"; "client";
                "args_before"]) ;;
  raise (TypeError "invoke_method() takes more arguments").

(** The [enabled] property of [AMTKVM]: [.state] is the first field of the
    [StateMap]. *)
Definition enabled : M Value :=
  e_state <- DeviceCapability.get None (Some "CIM_KVMRedirectionSAP")
               (Some "EnabledState") ;;
  entry <- lift (int_dict_get AMT_KVM_ENABLEMENT_MAP e_state) ;;
  lift (getindex entry 0).

(** The [enabled] setter: [value is True], [value is False]. *)
Definition set_enabled (value : Value) : M unit :=
  match value with
  | VBool true =>
      _ <- request_state_change "CIM_KVMRedirectionSAP" (VInt 2) ;; ret tt
  | VBool false =>
      _ <- request_state_change "CIM_KVMRedirectionSAP" (VInt 3) ;; ret tt
  | _ => raise (TypeError "Please specify Either True or False.")
  end.

Definition default_screen : M Value :=
  DeviceCapability.get None (Some "IPS_KVMRedirectionSettingData")
    (Some "DefaultScreen").

Definition set_default_screen (value : Value) : M unit :=
  DeviceCapability.put None (Some "IPS_KVMRedirectionSettingData")
    [("DefaultScreen", value)] false true.

(** The [opt_in_timeout] property: [(not policy) or timeout] reads the
    timeout only when the policy is on; the value [True] stands for 0. *)
Definition opt_in_timeout : M Value :=
  policy <- DeviceCapability.get None (Some "IPS_KVMRedirectionSettingData")
              (Some "OptInPolicy") ;;
  timeout <- (if negb (truthy policy)
              then ret (VBool true)
              else DeviceCapability.get None
                     (Some "IPS_KVMRedirectionSettingData")
                     (Some "OptInPolicyTimeout")) ;;
  match timeout with
  | VBool true => ret (VInt 0)
  | _ => ret timeout
  end.

Definition set_opt_in_timeout (value : Value) : M unit :=
  if negb (truthy value)
  then DeviceCapability.put None (Some "IPS_KVMRedirectionSettingData")
         [("OptInPolicy", VBool false)] false true
  else DeviceCapability.put None (Some "IPS_KVMRedirectionSettingData")
         [("OptInPolicy", VBool true); ("OptInPolicyTimeout", value)] false true.

Definition session_timeout : M Value :=
  DeviceCapability.get None (Some "IPS_KVMRedirectionSettingData")
    (Some "SessionTimeout").

(** The [password] property cannot be read. *)
Definition password : M Value :=
  raise (AttributeError "This is a write-only attribute.").

(** The [password] setter.  The statement is
    [self.put('IPS_KVMRedirectionSettingData'), {'RFBPassword': value}]: the
    dict is outside the call, so [put] runs with [input_dict=None], and
    [resource[resource_name].update(None)] raises. *)
Definition set_password (value : Value) : M unit :=
  resource_name <- DeviceCapability.pick_resource_name None
                     (Some "IPS_KVMRedirectionSettingData") ;;
  options <- read_options ;;
  resource <- get_resource resource_name (Some options) ;;
  r <- lift (getitem resource resource_name) ;;
  match r with
  | VDict _ => raise (TypeError "'NoneType' object is not iterable")
  | _ => raise (AttributeError "update")
  end.

End Methods.
End AMTKVMSettings.

(** Modelled from the spec: [RadioButtons] (wry/data_structures.py) is not
    among the sources.  "A fixed universe of ... mutually-exclusive
    (single-select) named values with current selection state; mutation
    methods must validate against the fixed universe." *)
Record RadioButtons : Type := mkRadioButtons {
  choices : list Value;
  selected : Value
}.

Definition select (value : Value) (buttons : RadioButtons) : Outcome RadioButtons :=
  if py_mem value (choices buttons)
  then Ok (mkRadioButtons (choices buttons) value)
  else Raise (ValueError "value outside the fixed universe").

Module AMTOptInConsent.
Section Methods.

Context {env : Environment}.

Definition _consent_mapping : list (Z * Value) :=
  [(0, VNone); (1, VStr "KVM"); (4294967295, VStr "All")].

(** [for key, val in self._consent_mapping.items(): if value == val: break
    / else: raise KeyError] *)
Fixpoint consent_key (value : Value) (items : list (Z * Value)) : Outcome Z :=
  match items with
  | [] => Raise (KeyError "")
  | (key, val) :: rest =>
      if py_eq value val then Ok key else consent_key value rest
  end.

(** The [required] property; [self._consent_values] is threaded as an
    argument, its state after the call is the result. *)
Definition required (consent_values : RadioButtons) : M RadioButtons :=
  code <- DeviceCapability.get None (Some "IPS_OptInService")
            (Some "OptInRequired") ;;
  level <- lift (int_dict_get _consent_mapping code) ;;
  lift (select level consent_values).

Definition set_required (value : Value) (consent_values : RadioButtons)
  : M RadioButtons :=
  key <- lift (consent_key value _consent_mapping) ;;
  _ <- DeviceCapability.put None (Some "IPS_OptInService")
         [("OptInRequired", VInt key)] false true ;;
  lift (select value consent_values).

Definition code_ttl : M Value :=
  DeviceCapability.get None (Some "IPS_OptInService") (Some "OptInCodeTimeout").

(** The [state] property. *)
Definition state : M Value :=
  code <- DeviceCapability.get None (Some "IPS_OptInService")
            (Some "OptInState") ;;
  lift (int_dict_get
          [ (0, VStr "Not started"); (1, VStr "Requested");
            (2, VStr "Displayed"); (3, VStr "Received");
            (4, VStr "In Session") ] code).

End Methods.
End AMTOptInConsent.

(** [s.split(sep)] for a one-character separator. *)
Fixpoint split_on (sep : ascii) (s : string) : list string :=
  match s with
  | EmptyString => [EmptyString]
  | String c s' =>
      if Ascii.eqb c sep
      then EmptyString :: split_on sep s'
      else match split_on sep s' with
           | [] => [String c EmptyString]
           | h :: t => String c h :: t
           end
  end.

(** [source['StructuredBootString'].split(':')[-2]] *)
Definition medium_label (source : Value) : Outcome Value :=
  obind (getitem source "StructuredBootString") (fun sbs =>
  match sbs with
  | VStr s => seq_index (map VStr (split_on ":"%char s)) (-2)
  | _ => Raise (AttributeError "split")
  end).

(** The list comprehension of [supported_media]. *)
Fixpoint medium_labels (sources : list Value) : Outcome (list Value) :=
  match sources with
  | [] => Ok []
  | source :: rest =>
      obind (medium_label source) (fun label =>
      obind (medium_labels rest) (fun labels => Ok (label :: labels)))
  end.

Module AMTBootMedia.
Section Methods.

Context {env : Environment}.

Definition supported_media : M Value :=
  returned <- DeviceCapability.walk "CIM_BootSourceSetting" VNone ;;
  sources <- lift (getitem returned "CIM_BootSourceSetting") ;;
  sources <- lift (py_iter sources) ;;
  labels <- lift (medium_labels sources) ;;
  ret (VList labels).

(** The [config] property. *)
Definition config : M Value :=
  DeviceCapability.get None (Some "AMT_BootSettingData") None.

End Methods.
End AMTBootMedia.

(** * A concrete environment and device data

    Used to run the model on explicit inputs. *)

(** A small [ClientOptions]: two settings with getter and setter, and the
    selectors added so far. *)
Record SimpleOptions : Type := mkSimpleOptions {
  timeout : Z;
  max_elements : Z;
  selectors : list (Value * Value)
}.

Definition simple_getter (attr : string) (o : SimpleOptions) : Outcome Value :=
  if String.eqb attr "get_timeout" then Ok (VInt (timeout o))
  else if String.eqb attr "get_max_elements" then Ok (VInt (max_elements o))
  else Raise (AttributeError attr).

Definition simple_setter (attr : string) (v : Value) (o : SimpleOptions)
  : Outcome SimpleOptions :=
  match v with
  | VInt z =>
      if String.eqb attr "set_timeout"
      then Ok (mkSimpleOptions z (max_elements o) (selectors o))
      else if String.eqb attr "set_max_elements"
      then Ok (mkSimpleOptions (timeout o) z (selectors o))
      else Raise (AttributeError attr)
  | _ => Raise (TypeError "an integer is required")
  end.

Definition simple_api : ClientOptionsAPI SimpleOptions :=
  {| ClientOptions := mkSimpleOptions 0 0 [];
     dir := fun _ => ["add_selector"; "get_max_elements"; "get_timeout";
                      "set_max_elements"; "set_timeout"];
     call_getter := simple_getter;
     call_setter := simple_setter;
     add_selector := fun n v o =>
       mkSimpleOptions (timeout o) (max_elements o) (selectors o ++ [(n, v)])%list |}.

Definition sample_str (v : Value) : string :=
  match v with
  | VStr s => s
  | VNone => "None"
  | VBool true => "True"
  | VBool false => "False"
  | _ => "?"
  end.

Definition sample_env : Environment :=
  {| Options := SimpleOptions;
     options_api := simple_api;
     RESOURCE_URIs := fun name => "http://schemas.example/" ++ name;
     SCHEMAS := fun name => "http://schemas.example/ns/" ++ name;
     py_str := sample_str;
     RETRY_LIMIT := 3;
     add_client_options := fun o =>
       match o with
       | Some o => o
       | None => mkSimpleOptions 0 0 []
       end |}.

(** A [ClientOptions] that keeps a record of the calls of its setter: one
    setting, and the writes made so far. *)
Record LoggedOptions : Type := mkLoggedOptions {
  logged_timeout : Z;
  writes : list (string * Value)
}.

Definition logged_getter (attr : string) (o : LoggedOptions) : Outcome Value :=
  if String.eqb attr "get_timeout" then Ok (VInt (logged_timeout o))
  else Raise (AttributeError attr).

Definition logged_setter (attr : string) (v : Value) (o : LoggedOptions)
  : Outcome LoggedOptions :=
  match v with
  | VInt z =>
      if String.eqb attr "set_timeout"
      then Ok (mkLoggedOptions z (writes o ++ [(attr, v)])%list)
      else Raise (AttributeError attr)
  | _ => Raise (TypeError "an integer is required")
  end.

Definition logged_api : ClientOptionsAPI LoggedOptions :=
  {| ClientOptions := mkLoggedOptions 0 [];
     dir := fun _ => ["add_selector"; "get_timeout"; "set_timeout"];
     call_getter := logged_getter;
     call_setter := logged_setter;
     add_selector := fun _ _ o => o |}.

Definition logged_env : Environment :=
  {| Options := LoggedOptions;
     options_api := logged_api;
     RESOURCE_URIs := fun name => "http://schemas.example/" ++ name;
     SCHEMAS := fun name => "http://schemas.example/ns/" ++ name;
     py_str := sample_str;
     RETRY_LIMIT := 3;
     add_client_options := fun o =>
       match o with
       | Some o => o
       | None => mkLoggedOptions 0 []
       end |}.

(** The handle's options as a caller configured them. *)
Definition caller_options : SimpleOptions := mkSimpleOptions 30 5 [].

Definition sample_world (docs : list (option XmlDoc)) : @World sample_env :=
  @mkWorld sample_env docs [] caller_options.

(** A non-fault response holding one resource. *)
Definition resource_doc (name : string) (fields : list (string * Value)) : XmlDoc :=
  mkDoc false [(name, VDict fields)].

Definition fault_doc : XmlDoc :=
  mkDoc true [("Fault", VDict [("Code", VStr "Sender")])].

Definition enumerate_doc (context : string) : XmlDoc :=
  mkDoc false [("EnumerateResponse", VDict [("EnumerationContext", VStr context)])].

(** A pull response; [last] adds the (empty) [EndOfSequence] element. *)
Definition pull_doc (name : string) (item : Value) (last : bool) : XmlDoc :=
  mkDoc false
    [("PullResponse",
      VDict (("Items", VDict [(name, item)])
             :: (if last then [("EndOfSequence", VNone)] else [])))].

Definition invoke_doc (method : string) (return_value : Value) : XmlDoc :=
  mkDoc false [(method ++ "_OUTPUT", VDict [("ReturnValue", return_value)])].

(** An enumeration of TLS settings in two pages of one instance each. *)
Definition tls_pages_world : @World sample_env :=
  sample_world
    [ Some (enumerate_doc "ctx-1");
      Some (pull_doc "AMT_TLSSettingData" (VDict [("Enabled", VBool true)]) false);
      Some (pull_doc "AMT_TLSSettingData" (VDict [("Enabled", VBool false)]) true) ].

(** An enumeration whose single page carries two instances. *)
Definition two_instance_page_world : @World sample_env :=
  sample_world
    [ Some (enumerate_doc "ctx-1");
      Some (pull_doc "AMT_TLSSettingData"
              (VList [VDict [("Enabled", VBool true)];
                      VDict [("Enabled", VBool false)]]) true) ].

Definition kvm_settings_doc (is5900 : bool) : XmlDoc :=
  resource_doc "IPS_KVMRedirectionSettingData" [("Is5900PortEnabled", VBool is5900)].

Definition redirection_doc (listener : bool) : XmlDoc :=
  resource_doc "AMT_RedirectionService"
    [("ListenerEnabled", VBool listener); ("EnabledState", VInt 32768)].

(** The four answers to one read of [enabled_ports] on a device with the
    listener and TLS on. *)
Definition ports_read_tls_on : list (option XmlDoc) :=
  [ Some (kvm_settings_doc false);
    Some (redirection_doc true);
    Some (enumerate_doc "ctx-tls");
    Some (pull_doc "AMT_TLSSettingData" (VDict [("Enabled", VBool true)]) true) ].

(** The two answers to one read on a device with nothing enabled. *)
Definition ports_read_all_off : list (option XmlDoc) :=
  [ Some (kvm_settings_doc false); Some (redirection_doc false) ].

(** A device with 16994 and 16995 enabled, asked for the target {16994}:
    two reads, then the read the loop makes for port 16995. *)
Definition kvm_tls_world : @World sample_env :=
  sample_world (ports_read_tls_on ++ ports_read_tls_on ++ ports_read_tls_on).

(** A device with nothing enabled, asked for the target {5900, 16994}: two
    reads, then for each of the two ports the get and put of the update and
    the read that follows it. *)
Definition kvm_off_world : @World sample_env :=
  sample_world
    (ports_read_all_off ++ ports_read_all_off ++
     [ Some (kvm_settings_doc false); Some (kvm_settings_doc true);
       Some (kvm_settings_doc true); Some (redirection_doc false);
       Some (redirection_doc false); Some (redirection_doc true);
       Some (kvm_settings_doc true); Some (redirection_doc true);
       Some (enumerate_doc "ctx-tls");
       Some (pull_doc "AMT_TLSSettingData" (VDict [("Enabled", VBool false)]) true) ]).

(** A device with nothing enabled and TLS off, asked for {16994, 16995}. *)
Definition kvm_tls_off_world : @World sample_env :=
  sample_world
    (ports_read_all_off ++ ports_read_all_off ++
     [ Some (enumerate_doc "ctx-tls");
       Some (pull_doc "AMT_TLSSettingData" (VDict [("Enabled", VBool false)]) true) ]).

Definition boot_source (instance_id structured : string) : Value :=
  VDict [("InstanceID", VStr instance_id); ("StructuredBootString", VStr structured)].

(** The answers to a change of boot medium: boot settings, two boot sources,
    the boot configuration, the answer to [ChangeBootOrder], the boot
    service. *)
Definition boot_world : @World sample_env :=
  sample_world
    [ Some (resource_doc "AMT_BootSettingData"
              [("UseSOL", VBool true); ("BIOSPause", VBool false)]);
      Some (enumerate_doc "ctx-boot");
      Some (pull_doc "CIM_BootSourceSetting"
              (boot_source "Intel(r) AMT: Force CD/DVD Boot"
                 "CIM:CD/DVD:1") false);
      Some (pull_doc "CIM_BootSourceSetting"
              (boot_source "Intel(r) AMT: Force Hard-drive Boot"
                 "CIM:Hard-Disk:1") true);
      Some (resource_doc "CIM_BootConfigSetting"
              [("InstanceID", VStr "Intel(r) AMT: Boot Configuration 0")]);
      Some (invoke_doc "ChangeBootOrder" (VInt 0));
      Some (resource_doc "CIM_BootService"
              [("ElementName", VStr "Intel(r) AMT Boot Service")]) ].

Definition opt_in_doc : XmlDoc :=
  resource_doc "IPS_OptInService"
    [("OptInCodeTimeout", VInt 120); ("OptInRequired", VInt 1)].

(** The KVM redirection settings of a device. *)
Definition kvm_policy_doc (policy : bool) (timeout screen : Z) : XmlDoc :=
  resource_doc "IPS_KVMRedirectionSettingData"
    [("OptInPolicy", VBool policy); ("OptInPolicyTimeout", VInt timeout);
     ("DefaultScreen", VInt screen)].

(** An enumeration whose second pull is answered with a fault. *)
Definition faulty_pages_world : @World sample_env :=
  sample_world
    [ Some (enumerate_doc "ctx-1");
      Some (pull_doc "AMT_TLSSettingData" (VDict [("Enabled", VBool true)]) false);
      Some fault_doc ].

(** An answer to [enumerate] without enumeration context. *)
Definition contextless_doc : XmlDoc :=
  mkDoc false [("EnumerateResponse", VDict [])].

(** A device asked to store something: the answer to the get, and to the
    put. *)
Definition update_world (before after : XmlDoc) : @World sample_env :=
  sample_world [Some before; Some after].

(** The answers to an enumeration of three boot sources, the last with a
    string of two segments. *)
Definition boot_sources_world : @World sample_env :=
  sample_world
    [ Some (enumerate_doc "ctx-boot");
      Some (pull_doc "CIM_BootSourceSetting"
              (boot_source "Intel(r) AMT: Force CD/DVD Boot"
                 "CIM:CD/DVD:1") false);
      Some (pull_doc "CIM_BootSourceSetting"
              (boot_source "Intel(r) AMT: Force Hard-drive Boot"
                 "CIM:Hard-Disk:1") false);
      Some (pull_doc "CIM_BootSourceSetting"
              (boot_source "Intel(r) AMT: Force PXE Boot" "PXE:1") true) ].

(** The consent levels as [AMTOptIn] sets them up, with 'KVM' selected. *)
Definition consent_buttons : RadioButtons :=
  mkRadioButtons [VNone; VStr "KVM"; VStr "All"] (VStr "KVM").

(** * Vocabulary of the statements *)

Section Vocabulary.

Context {env : Environment}.

(** One attempt of a transaction-layer operation, and the operation: the
    common shape of the five [wsman_*] functions. *)
Definition attempt (req : Request) (silent : bool) : M XmlDoc :=
  doc <- client_call req ;; _validate doc silent.

Definition transaction (req : Request) (silent : bool) : M XmlDoc :=
  retry (attempt req silent).

(** The world after one transport call that consumed the head of the
    script. *)
Definition after_call (w : World) (req : Request) (rest : list (option XmlDoc))
  : World :=
  mkWorld rest (sent w ++ [req])%list (self_options w).

Definition is_put (r : Request) : bool :=
  match r with
  | ReqPut _ _ _ => true
  | _ => false
  end.

Definition is_invoke (r : Request) : bool :=
  match r with
  | ReqInvoke _ _ _ _ => true
  | _ => false
  end.

Definition is_query (r : Request) : bool :=
  match r with
  | ReqGet _ _ | ReqEnumerate _ _ _ | ReqPull _ _ _ _ => true
  | _ => false
  end.

(** [m] only adds requests that satisfy [P] to the record of calls. *)
Definition emits {A} (P : Request -> Prop) (m : M A) : Prop :=
  forall w, exists l, sent (snd (m w)) = (sent w ++ l)%list /\ Forall P l.

(** The item a page contributes to the pager's output. *)
Definition page_item (resource_name : string) (doc : XmlDoc) : Value :=
  match read_page resource_name doc with
  | Ok (_, item) => item
  | _ => VNone
  end.

(** The instances a page's [Items/<resource>] value stands for: the members
    of a sequence when the element repeats in the page, else the one
    instance. *)
Definition instances (item : Value) : list Value :=
  match item with
  | VList l => l
  | v => [v]
  end.

(** A page of the enumeration, as the pager reads it: delivered without
    fault, with its items and its end-of-sequence report. *)
Definition page_reports (resource_name : string) (ends : bool) (p : XmlDoc)
  : Prop :=
  is_fault p = false /\
  exists ended item,
    read_page resource_name p = Ok (ended, item) /\ is_False ended = negb ends.

(** [path] leads through nested dicts of [d] to a dict. *)
Fixpoint resolves (path : list string) (d : Value) : Prop :=
  match path with
  | [] => exists e, d = VDict e
  | p :: path' =>
      exists e sub, d = VDict e /\ assoc p e = Some sub /\ resolves path' sub
  end.

(** [d[p1]...[pn]] *)
Fixpoint get_path (path : list string) (d : Value) : Outcome Value :=
  match path with
  | [] => Ok d
  | p :: path' => obind (getitem d p) (get_path path')
  end.

(** A selector as the callers build it: absent, a (name, value) pair, or a
    pair with a third, qualifying value. *)
Definition selector_shape (selector : Value) : Prop :=
  selector = VNone \/
  (exists n x, selector = VTuple [n; x]) \/
  (exists n x y, selector = VTuple [n; x; y]).

(** The options the request goes out with: the copy, with the third
    component registered. *)
Definition outgoing_options (selector : Value) (options : Options) : Options :=
  match selector with
  | VTuple [n; _; y] => add_selector n y options
  | _ => options
  end.

(** How [invoke_method] reads the response. *)
Definition read_return_value (method_name : string) (doc : XmlDoc) : Outcome bool :=
  obind (getitem (WryDict doc) (method_name ++ "_OUTPUT")) (fun output =>
  obind (getitem output "ReturnValue") (fun return_value =>
  if negb (py_eq return_value (VInt 0))
  then Raise (NonZeroReturn return_value)
  else Ok (negb (truthy return_value)))).

(** The options an invoke request can go out with: built from a new
    [ClientOptions()], with at most a selector added. *)
Definition built_from_default (r : Request) : Prop :=
  forall o uri method data,
    r = ReqInvoke o uri method data ->
    o = add_client_options (Some ClientOptions) \/
    exists a b, o = add_client_options (Some (add_selector a b ClientOptions)).

(** A source whose structured boot string does not contain the medium. *)
Definition lacks_medium (value : string) (source : Value) : Prop :=
  exists sbs,
    getitem source "StructuredBootString" = Ok (VStr sbs) /\
    contains value sbs = false.

(** The device answers every call: no document of the script is absent. *)
Definition answered (w : World) : Prop :=
  Forall (fun d => d <> None) (script w).

Definition count_puts (l : list Request) : nat := length (filter is_put l).

(** Runs of [m] that return, on a device that answers, add exactly [n] put
    requests (and leave a device that answers). *)
Definition puts_exactly {A} (n : nat) (m : M A) : Prop :=
  forall w a w',
    answered w -> m w = (Ok a, w') ->
    answered w' /\
    exists l, sent w' = (sent w ++ l)%list /\ count_puts l = n.

(** Whether the membership of port [p] differs between the target set and
    the enablement read before the update. *)
Definition changed (target : list Z) (enabled0 : list Value) (p : Z) : bool :=
  xorb (existsb (Z.eqb p) target) (py_mem (VInt p) enabled0).

(** The puts the loop of the setter issues. *)
Fixpoint expected_puts (pairs : list (Value * bool)) (enabled0 : list Value)
  : nat :=
  match pairs with
  | [] => 0
  | (port, enable) :: rest =>
      ((if xorb enable (py_mem port enabled0)
        then if py_eq port (VInt 5900) || py_eq port (VInt 16994) then 1 else 0
        else 0)
       + expected_puts rest enabled0)%nat
  end.

(** The resource and the flag that switch a port: the KVM settings'
    [Is5900PortEnabled] for 5900, the redirection service's
    [ListenerEnabled] for 16994. *)
Definition port_setting (p : Z) : string * string :=
  if p =? 5900
  then ("IPS_KVMRedirectionSettingData", "Is5900PortEnabled")
  else ("AMT_RedirectionService", "ListenerEnabled").

(** [r] is a put whose payload holds [v] under [resource_name]/[flag]; it is
    addressed, as [put_resource] addresses it, to the URI of the payload's
    first key. *)
Definition setting_put (resource_name flag : string) (v : Value) (r : Request)
  : Prop :=
  match r with
  | ReqPut _ uri data =>
      get_path [resource_name; flag] data = Ok v /\
      exists k, first_key data = Ok k /\ uri = RESOURCE_URIs k
  | _ => False
  end.

(** [r] is the put that switches port [fst pe] to [snd pe]. *)
Definition port_put (pe : Z * bool) (r : Request) : Prop :=
  setting_put (fst (port_setting (fst pe))) (snd (port_setting (fst pe)))
    (VBool (snd pe)) r.

(** The ports an accepted update has to switch, in the order of the loop,
    each with its membership in the target set. *)
Definition changed_ports (target : list Z) (enabled0 : list Value)
  : list (Z * bool) :=
  ((if changed target enabled0 5900
    then [(5900, existsb (Z.eqb 5900) target)] else []) ++
   (if changed target enabled0 16994
    then [(16994, existsb (Z.eqb 16994) target)] else []))%list.

(** The port switches the loop of the setter issues, in order. *)
Fixpoint expected_port_puts (pairs : list (Value * bool))
    (enabled0 : list Value) : list (Z * bool) :=
  match pairs with
  | [] => []
  | (port, enable) :: rest =>
      ((if xorb enable (py_mem port enabled0)
        then if py_eq port (VInt 5900) then [(5900, enable)]
             else if py_eq port (VInt 16994) then [(16994, enable)]
             else []
        else [])
       ++ expected_port_puts rest enabled0)%list
  end.

(** Runs of [m] that return, on a device that answers, add requests whose
    puts, in the order sent, satisfy [Q] (and leave a device that
    answers). *)
Definition puts_are {A} (Q : list Request -> Prop) (m : M A) : Prop :=
  forall w a w',
    answered w -> m w = (Ok a, w') ->
    answered w' /\
    exists l, sent w' = (sent w ++ l)%list /\ Q (filter is_put l).

(** The claim's words for what the patched [__copy__] does to [o]: each
    [get_*] value is re-applied to [o] itself.  [reapplied_to_self getters o
    o']: going through [getters] in order, the value each getter returns on
    the object as it then is has been passed to the matching setter of the
    same object, and [o'] is the object after the last setter. *)
Inductive reapplied_to_self : list string -> Options -> Options -> Prop :=
| reapplied_none (o : Options) : reapplied_to_self [] o o
| reapplied_next (getter : string) (getters : list string)
    (o o1 o' : Options) (value : Value) :
    call_getter getter o = Ok value ->
    call_setter (str_replace "get_" "set_" getter) value o = Ok o1 ->
    reapplied_to_self getters o1 o' ->
    reapplied_to_self (getter :: getters) o o'.

(** What holds of the value a computation returns. *)
Definition returns {A} (Q : A -> Prop) (m : M A) : Prop :=
  forall w a w', m w = (Ok a, w') -> Q a.

(** Nothing sent between [w] and [w'] is a put. *)
Definition no_put_since (w w' : World) : Prop :=
  exists l, sent w' = (sent w ++ l)%list /\ Forall (fun r => is_put r = false) l.

(** Whether a computation ended with a value. *)
Definition is_ok {A} (r : Outcome A) : bool :=
  match r with
  | Ok _ => true
  | _ => false
  end.

(** The options a request goes out with. *)
Definition request_options (r : Request) : Options :=
  match r with
  | ReqGet o _ | ReqPut o _ _ | ReqEnumerate o _ _ | ReqPull o _ _ _
  | ReqInvoke o _ _ _ => o
  end.

(** [m] never returns a value: every run ends in an exception (or does not
    end). *)
Definition never_returns {A} (m : M A) : Prop :=
  forall w, is_ok (fst (m w)) = false.

(** A request that is no put, and invokes no method other than [method]. *)
Definition invokes_only (method : string) (r : Request) : Prop :=
  match r with
  | ReqInvoke _ _ m _ => m = method
  | ReqPut _ _ _ => False
  | _ => True
  end.

(** The string holds no colon. *)
Definition colon_free (s : string) : bool :=
  forallb (fun c => negb (Ascii.eqb c ":"%char)) (list_ascii_of_string s).

(** A boot source whose structured string has [label] as its last segment
    but one: the string ends in [<label>:<last>], and [label] starts the
    string or follows a colon ([Hard-Disk] in [CIM:Hard-Disk:1], [PXE] in
    [PXE:1]). *)
Definition labelled (source : Value) (label : string) : Prop :=
  exists head last,
    getitem source "StructuredBootString" =
      Ok (VStr (head ++ label ++ ":" ++ last)) /\
    colon_free label = true /\ colon_free last = true /\
    (head = "" \/ exists pre, head = pre ++ ":").

(** The filter an enumeration request carries. *)
Definition request_filter (r : Request) : Value :=
  match r with
  | ReqEnumerate _ f _ | ReqPull _ f _ _ => f
  | _ => VNone
  end.

End Vocabulary.

(** * Properties *)

Section TransactionLayer.

Context {env : Environment}.

Lemma attempt_delivered (req : Request) (silent : bool) (w : World)
    (d : XmlDoc) (rest : list (option XmlDoc)) :
  script w = Some d :: rest ->
  attempt req silent w =
    (if negb silent && is_fault d then Raise (WSManFault d) else Ok d,
     after_call w req rest).
Proof.
  intros Hs. unfold attempt, bind, client_call. rewrite Hs. cbn.
  destruct silent, (is_fault d); reflexivity.
Qed.

Lemma attempt_absent (req : Request) (silent : bool) (w : World) :
  hd None (script w) = None ->
  attempt req silent w = (Raise AMTConnectFailure, after_call w req (tl (script w))).
Proof.
  intros Hs. unfold attempt, bind, client_call.
  destruct (script w) as [|[d|] rest]; cbn in *; try discriminate; reflexivity.
Qed.

(** A delivered document ends the operation at the first attempt. *)
Lemma transaction_delivered (req : Request) (silent : bool) (w : World)
    (d : XmlDoc) (rest : list (option XmlDoc)) :
  (0 < RETRY_LIMIT)%nat ->
  script w = Some d :: rest ->
  transaction req silent w =
    (if negb silent && is_fault d then Raise (WSManFault d) else Ok d,
     after_call w req rest).
Proof.
  intros Hpos Hs. unfold transaction, retry.
  destruct RETRY_LIMIT as [|k]; [lia|]. cbn [retry_from].
  rewrite (attempt_delivered req silent w d rest Hs).
  destruct (negb silent && is_fault d); reflexivity.
Qed.

(** A document delivered after [k] failed attempts, with attempts to spare,
    ends the operation at attempt [k + 1]. *)
Lemma retry_delivered_after (req : Request) (silent : bool) (d : XmlDoc)
    (rest : list (option XmlDoc)) (k : nat) :
  forall n w,
    (k < n)%nat ->
    script w = (repeat None k ++ Some d :: rest)%list ->
    retry_from n (attempt req silent) w =
      (if negb silent && is_fault d then Raise (WSManFault d) else Ok d,
       mkWorld rest (sent w ++ repeat req (S k))%list (self_options w)).
Proof.
  induction k as [|k IH]; intros n w Hk Hs;
    (destruct n as [|n]; [lia|]); cbn [retry_from].
  - rewrite (attempt_delivered req silent w d rest Hs).
    destruct (negb silent && is_fault d); reflexivity.
  - rewrite attempt_absent by (rewrite Hs; reflexivity).
    rewrite (IH n (after_call w req (tl (script w))) ltac:(lia)
               ltac:(rewrite Hs; reflexivity)).
    cbn [after_call sent self_options]. rewrite <- app_assoc. reflexivity.
Qed.

Lemma retry_absent (req : Request) (silent : bool) (n : nat) :
  forall w,
    (forall i, (i < n)%nat -> nth i (script w) None = None) ->
    fst (retry_from n (attempt req silent) w) = Raise AMTConnectFailure.
Proof.
  induction n as [|n IH]; intros w Hnone; [reflexivity|].
  cbn [retry_from]. rewrite attempt_absent.
  - apply IH. intros i Hi. cbn [after_call script].
    specialize (Hnone (S i) ltac:(lia)).
    destruct (script w); [destruct i|]; cbn in *; auto.
  - specialize (Hnone O ltac:(lia)). destruct (script w); cbn in *; auto.
Qed.

(** [transaction] is what each of the five operations is. *)
Lemma wsman_operations (resource_uri method context : string)
    (data wsman_filter : Value) (options : option Options) (silent : bool) :
  wsman_get resource_uri options silent =
    transaction (ReqGet (add_client_options options) resource_uri) silent /\
  wsman_put resource_uri data options silent =
    transaction (ReqPut (add_client_options options) resource_uri data) silent /\
  wsman_enumerate resource_uri options wsman_filter silent =
    transaction (ReqEnumerate (add_client_options options) wsman_filter resource_uri)
      silent /\
  wsman_pull resource_uri options wsman_filter context silent =
    transaction (ReqPull (add_client_options options) wsman_filter resource_uri context)
      silent /\
  wsman_invoke resource_uri method data options silent =
    transaction (ReqInvoke (add_client_options options) resource_uri method data)
      silent.
Proof. repeat split; reflexivity. Qed.

(** C1.  Each of [wsman_get], [wsman_put], [wsman_enumerate], [wsman_pull]
    and [wsman_invoke]: when the transport yields no document (at any of the
    attempts the retry policy makes) the operation fails with
    [AMTConnectFailure]; when it delivers a document (at the first attempt,
    or at a later one the policy still makes) and that document is a fault
    and [silent] is false, the operation fails with [WSManFault] carrying
    that document; with [silent] true the delivered document, fault or not,
    is returned as it is; a delivered non-fault document is returned as it
    is. *)
Theorem transaction_layer_validation (resource_uri method context : string)
    (data wsman_filter : Value) (options : option Options)
    (op : bool -> M XmlDoc) :
  In op [ wsman_get resource_uri options;
          wsman_put resource_uri data options;
          wsman_enumerate resource_uri options wsman_filter;
          wsman_pull resource_uri options wsman_filter context;
          wsman_invoke resource_uri method data options ] ->
  forall (w : World) (silent : bool),
    ((forall i, (i < RETRY_LIMIT)%nat -> nth i (script w) None = None) ->
     fst (op silent w) = Raise AMTConnectFailure) /\
    (forall k doc rest,
       (k < RETRY_LIMIT)%nat ->
       script w = (repeat None k ++ Some doc :: rest)%list ->
       (is_fault doc = true -> silent = false ->
        fst (op silent w) = Raise (WSManFault doc)) /\
       (silent = true -> fst (op silent w) = Ok doc) /\
       (is_fault doc = false -> fst (op silent w) = Ok doc)).
Proof.
  intros Hop w silent.
  destruct (wsman_operations resource_uri method context data wsman_filter
              options silent) as (Hg & Hp & He & Hl & Hi).
  assert (exists req, op silent = transaction req silent) as [req Hreq].
  { cbn in Hop.
    destruct Hop as [<-|[<-|[<-|[<-|[<-|[]]]]]]; eexists; eassumption. }
  rewrite Hreq. split.
  - intros Hnone. apply retry_absent, Hnone.
  - intros k doc rest Hk Hs. unfold transaction, retry.
    rewrite (retry_delivered_after req silent doc rest k _ w Hk Hs). cbn [fst].
    repeat split.
    + intros -> ->. reflexivity.
    + intros ->. reflexivity.
    + intros ->. rewrite andb_false_r. reflexivity.
Qed.

(** What each operation does when the device delivers a non-fault document
    at the first attempt. *)
Lemma wsman_get_run (resource_uri : string) (options : option Options)
    (w : World) (d : XmlDoc) (rest : list (option XmlDoc)) :
  (0 < RETRY_LIMIT)%nat -> script w = Some d :: rest -> is_fault d = false ->
  wsman_get resource_uri options false w =
    (Ok d, after_call w (ReqGet (add_client_options options) resource_uri) rest).
Proof.
  intros Hpos Hs Hd.
  change (wsman_get resource_uri options false)
    with (transaction (ReqGet (add_client_options options) resource_uri) false).
  rewrite (transaction_delivered _ _ _ _ _ Hpos Hs), Hd. reflexivity.
Qed.

Lemma wsman_put_run (resource_uri : string) (data : Value)
    (options : option Options) (w : World) (d : XmlDoc)
    (rest : list (option XmlDoc)) :
  (0 < RETRY_LIMIT)%nat -> script w = Some d :: rest -> is_fault d = false ->
  wsman_put resource_uri data options false w =
    (Ok d, after_call w (ReqPut (add_client_options options) resource_uri data) rest).
Proof.
  intros Hpos Hs Hd.
  change (wsman_put resource_uri data options false)
    with (transaction (ReqPut (add_client_options options) resource_uri data) false).
  rewrite (transaction_delivered _ _ _ _ _ Hpos Hs), Hd. reflexivity.
Qed.

Lemma wsman_invoke_run (resource_uri method : string) (data : Value)
    (options : option Options) (w : World) (d : XmlDoc)
    (rest : list (option XmlDoc)) (k : nat) :
  (k < RETRY_LIMIT)%nat ->
  script w = (repeat None k ++ Some d :: rest)%list ->
  is_fault d = false ->
  wsman_invoke resource_uri method data options false w =
    (Ok d,
     mkWorld rest
       (sent w ++
        repeat (ReqInvoke (add_client_options options) resource_uri method data)
          (S k))%list
       (self_options w)).
Proof.
  intros Hk Hs Hd.
  change (wsman_invoke resource_uri method data options false)
    with (retry_from RETRY_LIMIT
            (attempt (ReqInvoke (add_client_options options) resource_uri method
                        data) false)).
  rewrite (retry_delivered_after _ _ d rest k _ w Hk Hs), Hd. reflexivity.
Qed.

End TransactionLayer.

Section Traces.

Context {env : Environment}.

Lemma emits_ret {A} (P : Request -> Prop) (a : A) : emits P (ret a).
Proof. intros w. exists []. cbn. rewrite app_nil_r. auto. Qed.

Lemma emits_raise {A} (P : Request -> Prop) (e : Exn) : emits P (@raise _ A e).
Proof. intros w. exists []. cbn. rewrite app_nil_r. auto. Qed.

Lemma emits_lift {A} (P : Request -> Prop) (r : Outcome A) : emits P (lift r).
Proof. intros w. exists []. cbn. rewrite app_nil_r. auto. Qed.

Lemma emits_read_options (P : Request -> Prop) : emits P read_options.
Proof. intros w. exists []. cbn. rewrite app_nil_r. auto. Qed.

Lemma emits_bind {A B} (P : Request -> Prop) (m : M A) (k : A -> M B) :
  emits P m -> (forall a, emits P (k a)) -> emits P (bind m k).
Proof.
  intros Hm Hk w. unfold bind. destruct (Hm w) as (l & Hl & HP).
  destruct (m w) as [[a|e|] w1]; cbn in *.
  - destruct (Hk a w1) as (l' & Hl' & HP'). exists (l ++ l')%list.
    rewrite Hl', Hl, app_assoc. split; [reflexivity|]. apply Forall_app; auto.
  - exists l; auto.
  - exists l; auto.
Qed.

(** A computation that first inspects the world it starts from. *)
Lemma emits_inspect {A} (P : Request -> Prop) (F : World -> M A) :
  (forall w0, emits P (F w0)) -> emits P (fun w => F w w).
Proof. intros H w. apply (H w w). Qed.

Lemma emits_weaken {A} (P Q : Request -> Prop) (m : M A) :
  (forall r, P r -> Q r) -> emits P m -> emits Q m.
Proof.
  intros HPQ Hm w. destruct (Hm w) as (l & Hl & HP). exists l. split; auto.
  eapply Forall_impl; eauto.
Qed.

Lemma emits_client_call (P : Request -> Prop) (req : Request) :
  P req -> emits P (client_call req).
Proof.
  intros HP w. exists [req]. unfold client_call.
  destruct (script w); cbn; auto.
Qed.

Lemma emits_validate (P : Request -> Prop) (doc : option XmlDoc) (silent : bool) :
  emits P (_validate doc silent).
Proof.
  unfold _validate. destruct doc as [d|]; [|apply emits_raise].
  destruct (negb silent), (is_fault d);
    first [apply emits_raise | apply emits_ret].
Qed.

Lemma emits_retry_from {A} (P : Request -> Prop) (f : M A) (n : nat) :
  emits P f -> emits P (retry_from n f).
Proof.
  intros Hf. induction n as [|n IH]; [apply emits_raise|].
  intros w. cbn [retry_from]. destruct (Hf w) as (l & Hl & HP).
  destruct (f w) as [[a|e|] w1]; cbn in *; try (exists l; auto; fail).
  destruct e; try (exists l; auto; fail).
  destruct (IH w1) as (l' & Hl' & HP'). exists (l ++ l')%list.
  rewrite Hl', Hl, app_assoc. split; [reflexivity|]. apply Forall_app; auto.
Qed.

Lemma emits_transaction (P : Request -> Prop) (req : Request) (silent : bool) :
  P req -> emits P (transaction req silent).
Proof.
  intros HP. apply emits_retry_from, emits_bind.
  - apply emits_client_call, HP.
  - intros doc. apply emits_validate.
Qed.

(** An operation that returns a document took it off the script. *)
Lemma retry_consumes (req : Request) (silent : bool) (n : nat) :
  forall w d w',
    retry_from n (attempt req silent) w = (Ok d, w') ->
    (length (script w') < length (script w))%nat.
Proof.
  induction n as [|n IH]; intros w d w' H; [discriminate|].
  cbn [retry_from] in H.
  destruct (script w) as [|[d0|] rest] eqn:Hs.
  - rewrite attempt_absent in H by (rewrite Hs; reflexivity).
    apply IH in H. cbn in H. rewrite Hs in H. cbn in H. lia.
  - rewrite (attempt_delivered req silent w d0 rest Hs) in H.
    destruct (negb silent && is_fault d0); inversion H; subst. cbn. lia.
  - rewrite attempt_absent in H by (rewrite Hs; reflexivity).
    apply IH in H. cbn in *. rewrite Hs in H. cbn in H. lia.
Qed.

Lemma retry_no_fuel_exhaustion (req : Request) (silent : bool) (n : nat) :
  forall w, fst (retry_from n (attempt req silent) w) <> OutOfFuel.
Proof.
  induction n as [|n IH]; intros w; [discriminate|].
  cbn [retry_from].
  destruct (script w) as [|[d0|] rest] eqn:Hs.
  - rewrite attempt_absent by (rewrite Hs; reflexivity). apply IH.
  - rewrite (attempt_delivered req silent w d0 rest Hs).
    destruct (negb silent && is_fault d0); discriminate.
  - rewrite attempt_absent by (rewrite Hs; reflexivity). apply IH.
Qed.

End Traces.

(** Structural steps of an [emits] goal. *)
Ltac emits_step :=
  lazymatch goal with
  | |- emits _ (bind _ _) => apply emits_bind; [|intros ?]
  | |- emits _ (ret _) => apply emits_ret
  | |- emits _ (raise _) => apply emits_raise
  | |- emits _ (lift _) => apply emits_lift
  | |- emits _ read_options => apply emits_read_options
  | |- emits _ (if ?b then _ else _) => destruct b
  | |- emits _ (match ?x with _ => _ end) => destruct x
  end.

Section Pager.

Context {env : Environment}.

Lemma emits_pull_loop (P : Request -> Prop) (uri context : string)
    (options : option Options) (resource_name : string) (fuel : nat) :
  P (ReqPull (add_client_options options) VNone uri context) ->
  forall output,
    emits P (pull_loop fuel uri context options resource_name output).
Proof.
  intros HP. induction fuel as [|fuel IH]; intros output.
  - intros w. exists []. cbn. rewrite app_nil_r. auto.
  - cbn [pull_loop]. emits_step.
    + apply emits_transaction, HP.
    + emits_step; [emits_step|]. destruct a0 as [ended item].
      emits_step; [apply IH | emits_step].
Qed.

Lemma emits_enumerate_resource (resource_name : string) (wsman_filter : Value)
    (options : option Options) :
  emits (fun r => is_query r = true)
    (enumerate_resource resource_name wsman_filter options).
Proof.
  unfold enumerate_resource. emits_step.
  - apply emits_transaction. reflexivity.
  - do 2 (emits_step; [emits_step|]).
    apply (emits_inspect _ (fun w0 => bind (pull_loop _ _ _ _ _ _) _)).
    intros w0. emits_step; [|emits_step].
    apply emits_pull_loop. reflexivity.
Qed.

Lemma read_page_not_out_of_fuel (resource_name : string) (d : XmlDoc) :
  read_page resource_name d <> OutOfFuel.
Proof.
  unfold read_page, obind, getitem, WryDict.
  destruct (assoc "PullResponse" (parsed d)) as [[]|]; try discriminate.
  destruct (dict_pop _ _ _) as [ended r'].
  destruct (assoc "Items" r') as [[]|]; try discriminate.
  destruct (assoc resource_name _); discriminate.
Qed.

(** The loop ends within its budget whenever the budget exceeds the number
    of documents left on the script. *)
Lemma pull_loop_within_budget (uri context : string) (options : option Options)
    (resource_name : string) (fuel : nat) :
  forall output w,
    (length (script w) < fuel)%nat ->
    fst (pull_loop fuel uri context options resource_name output w) <> OutOfFuel.
Proof.
  induction fuel as [|fuel IH]; intros output w Hlen; [lia|].
  cbn [pull_loop]. unfold bind at 1.
  destruct (wsman_pull uri options VNone context false w) as [[d|e|] w1] eqn:Hpull.
  - apply retry_consumes in Hpull.
    unfold bind, lift.
    pose proof (read_page_not_out_of_fuel resource_name d) as Hrp.
    destruct (read_page resource_name d) as [[ended item]|e|]; cbn;
      try discriminate; try congruence.
    destruct (is_False ended); [apply IH; lia | discriminate].
  - cbn. discriminate.
  - exfalso.
    apply (retry_no_fuel_exhaustion
             (ReqPull (add_client_options options) VNone uri context) false
             RETRY_LIMIT w).
    unfold wsman_pull, retry in Hpull.
    change (bind (client_call ?r) _) with (attempt r false) in Hpull.
    rewrite Hpull. reflexivity.
Qed.

(** [enumerate_resource] never runs out of its iteration budget: on every
    script the loop ends, with a result or an exception. *)
Lemma enumerate_resource_terminates (resource_name : string)
    (wsman_filter : Value) (options : option Options) (w : World) :
  fst (enumerate_resource resource_name wsman_filter options w) <> OutOfFuel.
Proof.
  unfold enumerate_resource. unfold bind at 1.
  destruct (wsman_enumerate _ _ _ _ w) as [[d|e|] w1] eqn:Henum.
  - unfold bind at 1, lift.
    destruct (getitem (WryDict d) "EnumerateResponse") as [resp|e|] eqn:Hresp;
      try discriminate.
    + unfold bind at 1.
      destruct (getitem resp "EnumerationContext") as [ctx|e|] eqn:Hctx;
        try discriminate.
      * unfold bind.
        pose proof (pull_loop_within_budget (RESOURCE_URIs resource_name)
                      (py_str ctx) options resource_name
                      (S (length (script w1))) [] w1 ltac:(lia)) as Hloop.
        destruct (pull_loop _ _ _ _ _ _ w1) as [[out|e|] w2]; cbn in *;
          try discriminate; congruence.
      * unfold getitem in Hctx. destruct resp; try discriminate.
        destruct (assoc _ _); discriminate.
    + unfold getitem, WryDict in Hresp. destruct (assoc _ _); discriminate.
  - discriminate.
  - exfalso.
    apply (retry_no_fuel_exhaustion
             (ReqEnumerate (add_client_options options) VNone
                (RESOURCE_URIs resource_name)) false RETRY_LIMIT w).
    unfold wsman_enumerate, retry in Henum.
    change (bind (client_call ?r) _) with (attempt r false) in Henum.
    rewrite Henum. reflexivity.
Qed.

Lemma pull_loop_pages (uri context : string) (options : option Options)
    (resource_name : string) (fin : XmlDoc) (rest : list (option XmlDoc)) :
  (0 < RETRY_LIMIT)%nat ->
  page_reports resource_name true fin ->
  forall (mid : list XmlDoc) (output : list Value) (fuel : nat) (w : World),
    script w = (map Some (mid ++ [fin]) ++ rest)%list ->
    (length mid < fuel)%nat ->
    Forall (page_reports resource_name false) mid ->
    pull_loop fuel uri context options resource_name output w =
      (Ok (output ++ map (page_item resource_name) (mid ++ [fin]))%list,
       mkWorld rest
         (sent w ++ repeat (ReqPull (add_client_options options) VNone uri context)
                      (S (length mid)))%list
         (self_options w)).
Proof.
  intros Hpos (Hfin & efin & ifin & Hrfin & Hefin).
  induction mid as [|p mid IH]; intros output fuel w Hs Hfuel Hmid;
    (destruct fuel as [|fuel]; [lia|]); cbn [pull_loop]; unfold bind at 1;
    unfold wsman_pull, retry;
    change (bind (client_call ?r) _) with (attempt r false);
    change (retry_from RETRY_LIMIT (attempt ?r false)) with (transaction r false).
  - cbn in Hs. rewrite (transaction_delivered _ _ _ _ _ Hpos Hs).
    rewrite Hfin. cbn [negb andb]. unfold bind, lift. rewrite Hrfin.
    cbn in Hefin. rewrite Hefin. cbn [app map length repeat].
    unfold page_item. rewrite Hrfin. reflexivity.
  - cbn in Hs. rewrite (transaction_delivered _ _ _ _ _ Hpos Hs).
    inversion Hmid as [|? ? (Hp & ep & ip & Hrp & Hep) Hmid']; subst.
    rewrite Hp. cbn [negb andb]. unfold bind, lift. rewrite Hrp.
    cbn in Hep. rewrite Hep.
    rewrite (IH (output ++ [ip])%list fuel (after_call w _ _) eq_refl
               ltac:(cbn in Hfuel; lia) Hmid').
    cbn [after_call sent self_options map app length].
    unfold page_item at 2. rewrite Hrp.
    rewrite <- !app_assoc. reflexivity.
Qed.

(** A complete enumeration: the documents delivered are the answer to
    [enumerate] and then the pages [mid ++ [fin]]. *)
Lemma enumerate_resource_run (resource_name : string) (wsman_filter : Value)
    (options : option Options) (w : World) (d0 : XmlDoc)
    (response context : Value) (mid : list XmlDoc) (fin : XmlDoc)
    (rest : list (option XmlDoc)) :
  (0 < RETRY_LIMIT)%nat ->
  script w = (Some d0 :: map Some (mid ++ [fin]) ++ rest)%list ->
  is_fault d0 = false ->
  getitem (WryDict d0) "EnumerateResponse" = Ok response ->
  getitem response "EnumerationContext" = Ok context ->
  Forall (page_reports resource_name false) mid ->
  page_reports resource_name true fin ->
  enumerate_resource resource_name wsman_filter options w =
    (Ok (VDict [(resource_name,
                 VList (map (page_item resource_name) (mid ++ [fin])))]),
     mkWorld rest
       (sent w ++
        ReqEnumerate (add_client_options options) VNone (RESOURCE_URIs resource_name)
        :: repeat (ReqPull (add_client_options options) VNone
                     (RESOURCE_URIs resource_name) (py_str context))
                  (S (length mid)))%list
       (self_options w)).
Proof.
  intros Hpos Hs Hd0 Hresp Hctx Hmid Hfin.
  unfold enumerate_resource. unfold bind at 1.
  unfold wsman_enumerate, retry.
  change (bind (client_call ?r) _) with (attempt r false).
  change (retry_from RETRY_LIMIT (attempt ?r false)) with (transaction r false).
  rewrite (transaction_delivered _ _ _ _ _ Hpos Hs). rewrite Hd0.
  cbn [negb andb]. unfold bind at 1, lift. rewrite Hresp.
  unfold bind at 1. rewrite Hctx. unfold bind.
  erewrite (pull_loop_pages _ _ _ _ fin rest Hpos Hfin mid []).
  - cbn [after_call sent self_options app ret]. rewrite <- app_assoc. reflexivity.
  - reflexivity.
  - cbn [after_call script]. rewrite length_app, length_map, length_app. lia.
  - exact Hmid.
Qed.

(** C2 (as amended).  For an enumeration of N pages, of which the first N-1
    do not report end-of-sequence and the last does, [enumerate_resource]
    makes one enumerate call and then exactly N pull calls, all with the
    context the enumerate call returned, and stops there; the value it
    returns holds, under the resource name, one entry per page in page order,
    the entry of a page being its [Items/<resource>] value as received, the
    last page's included.  When every page carries a single instance this
    sequence is the concatenation of the pages' instances. *)
Theorem enumerate_resource_pages (resource_name : string) (wsman_filter : Value)
    (options : option Options) (w : World) (d0 : XmlDoc)
    (response context : Value) (mid : list XmlDoc) (fin : XmlDoc)
    (rest : list (option XmlDoc)) :
  (0 < RETRY_LIMIT)%nat ->
  script w = (Some d0 :: map Some (mid ++ [fin]) ++ rest)%list ->
  is_fault d0 = false ->
  getitem (WryDict d0) "EnumerateResponse" = Ok response ->
  getitem response "EnumerationContext" = Ok context ->
  Forall (page_reports resource_name false) mid ->
  page_reports resource_name true fin ->
  let pages := (mid ++ [fin])%list in
  let output := map (page_item resource_name) pages in
  enumerate_resource resource_name wsman_filter options w =
    (Ok (VDict [(resource_name, VList output)]),
     mkWorld rest
       (sent w ++
        ReqEnumerate (add_client_options options) VNone (RESOURCE_URIs resource_name)
        :: repeat (ReqPull (add_client_options options) VNone
                     (RESOURCE_URIs resource_name) (py_str context))
                  (length pages))%list
       (self_options w))
  /\ length output = length pages
  /\ ((forall p, In p pages ->
         instances (page_item resource_name p) = [page_item resource_name p]) ->
      output = flat_map (fun p => instances (page_item resource_name p)) pages).
Proof.
  intros Hpos Hs Hd0 Hresp Hctx Hmid Hfin pages output.
  split; [|split].
  - subst pages output. rewrite length_app. cbn [length].
    replace (length mid + 1)%nat with (S (length mid)) by lia.
    eapply enumerate_resource_run; eauto.
  - subst output. apply length_map.
  - subst output. generalize pages. intros l Hl.
    induction l as [|p l IH]; [reflexivity|]. cbn [map flat_map].
    rewrite (Hl p (or_introl eq_refl)). cbn [app]. f_equal.
    apply IH. intros q Hq. apply Hl. right. exact Hq.
Qed.

End Pager.

Section Capabilities.

Context {env : Environment}.

Lemma get_resource_run (resource_name : string) (options : option Options)
    (w : World) (d : XmlDoc) (rest : list (option XmlDoc)) :
  (0 < RETRY_LIMIT)%nat ->
  script w = Some d :: rest ->
  is_fault d = false ->
  get_resource resource_name options w =
    (Ok (WryDict d),
     after_call w (ReqGet (add_client_options options) (RESOURCE_URIs resource_name))
       rest).
Proof.
  intros Hpos Hs Hd. unfold get_resource, bind.
  rewrite (wsman_get_run _ _ _ _ _ Hpos Hs Hd). reflexivity.
Qed.

(** Reading one setting of a resource the device delivers. *)
Lemma get_setting_run (self_name : option string) (resource_name setting : string)
    (w : World) (d : XmlDoc) (rest : list (option XmlDoc)) (r v : Value) :
  (0 < RETRY_LIMIT)%nat ->
  String.eqb resource_name "" = false ->
  String.eqb setting "" = false ->
  script w = Some d :: rest ->
  is_fault d = false ->
  getitem (WryDict d) resource_name = Ok r ->
  getitem r setting = Ok v ->
  DeviceCapability.get self_name (Some resource_name) (Some setting) w =
    (Ok v,
     after_call w (ReqGet (add_client_options (Some (self_options w)))
                     (RESOURCE_URIs resource_name)) rest).
Proof.
  intros Hpos Hn Hset Hs Hd Hr Hv.
  unfold DeviceCapability.get, DeviceCapability.pick_resource_name.
  rewrite Hn, Hset. cbn [negb]. unfold bind at 1. cbn [ret].
  unfold bind at 1. cbn [read_options]. unfold bind at 1.
  rewrite (get_resource_run _ _ _ _ _ Hpos Hs Hd).
  unfold bind, lift. rewrite Hr, Hv. reflexivity.
Qed.

Lemma first_key_dict_set (name k : string) (v x : Value)
    (d : list (string * Value)) :
  assoc name d = Some x ->
  first_key (VDict d) = Ok k ->
  first_key (VDict (dict_set name v d)) = Ok k.
Proof.
  destruct d as [|[k0 x0] d']; cbn; [discriminate|].
  intros _ Hk. destruct (String.eqb name k0) eqn:E; cbn; [|exact Hk].
  apply String.eqb_eq in E. subst. exact Hk.
Qed.

(** An update of a resource the device delivers: one [get], then one [put]
    of the resource with [input_dict] merged in. *)
Lemma put_update_run (self_name : option string) (resource_name k : string)
    (input_dict fields : list (string * Value)) (w : World) (dg dp : XmlDoc)
    (rest : list (option XmlDoc)) :
  (0 < RETRY_LIMIT)%nat ->
  String.eqb resource_name "" = false ->
  script w = Some dg :: Some dp :: rest ->
  is_fault dg = false ->
  is_fault dp = false ->
  getitem (WryDict dg) resource_name = Ok (VDict fields) ->
  first_key (WryDict dg) = Ok k ->
  DeviceCapability.put self_name (Some resource_name) input_dict false true w =
    (Ok tt,
     mkWorld rest
       (sent w ++
        [ReqGet (add_client_options (Some (self_options w)))
           (RESOURCE_URIs resource_name);
         ReqPut (add_client_options (Some (self_options w))) (RESOURCE_URIs k)
           (VDict (dict_set resource_name
                     (VDict (dict_update fields input_dict)) (parsed dg)))])%list
       (self_options w)).
Proof.
  intros Hpos Hn Hs Hdg Hdp Hr Hk.
  unfold DeviceCapability.put, DeviceCapability.pick_resource_name.
  rewrite Hn. cbn [negb]. unfold bind at 1. cbn [ret].
  unfold bind at 1. unfold bind at 1. cbn [read_options]. unfold bind at 1.
  rewrite (get_resource_run _ _ _ _ _ Hpos Hs Hdg).
  unfold bind at 1. unfold lift at 1. rewrite Hr.
  cbn [setitem_path WryDict lift].
  unfold bind at 1. cbn [read_options]. unfold bind at 1.
  unfold put_resource. unfold bind at 1. unfold bind at 1.
  assert (Hk' : first_key (VDict (dict_set resource_name
                   (VDict (dict_update fields input_dict)) (parsed dg))) = Ok k).
  { unfold getitem, WryDict in Hr.
    destruct (assoc resource_name (parsed dg)) eqn:Ha; [|discriminate].
    eapply first_key_dict_set; eauto. }
  unfold lift at 1. rewrite Hk'. cbn [ret].
  unfold bind at 1.
  erewrite wsman_put_run; [|exact Hpos|reflexivity|exact Hdp].
  unfold ret, after_call. cbn [sent self_options script].
  rewrite <- app_assoc. reflexivity.
Qed.

(** C8.  The [code_ttl] setter: a value that is not an integer, or an
    integer outside [60, 900], raises the [TypeError] with its message and
    leaves the world as it was, so no request is sent; an integer in
    [60, 900] passes and the update is issued: the resource is fetched and
    put back with [OptInCodeTimeout] set to the value. *)
Theorem code_ttl_bounds (value : Value) (w : World) :
  (0 < RETRY_LIMIT)%nat ->
  ((forall z, value = VInt z -> z < 60 \/ 900 < z) ->
   AMTOptIn.set_code_ttl value w =
     (Raise (TypeError "TTL (in seconds) must be an integer between 60 and 900."),
      w)) /\
  (forall z dg dp rest fields k,
     value = VInt z -> 60 <= z <= 900 ->
     script w = Some dg :: Some dp :: rest ->
     is_fault dg = false -> is_fault dp = false ->
     getitem (WryDict dg) "IPS_OptInService" = Ok (VDict fields) ->
     first_key (WryDict dg) = Ok k ->
     AMTOptIn.set_code_ttl value w =
       (Ok tt,
        mkWorld rest
          (sent w ++
           [ReqGet (add_client_options (Some (self_options w)))
              (RESOURCE_URIs "IPS_OptInService");
            ReqPut (add_client_options (Some (self_options w))) (RESOURCE_URIs k)
              (VDict (dict_set "IPS_OptInService"
                        (VDict (dict_update fields [("OptInCodeTimeout", VInt z)]))
                        (parsed dg)))])%list
          (self_options w))).
Proof.
  intros Hpos. split.
  - intros Hbad. unfold AMTOptIn.set_code_ttl.
    destruct value; try reflexivity.
    destruct (Hbad z eq_refl) as [H|H].
    + replace (60 <=? z) with false by (symmetry; apply Z.leb_gt; lia).
      reflexivity.
    + replace (z <=? 900) with false by (symmetry; apply Z.leb_gt; lia).
      rewrite andb_false_r. reflexivity.
  - intros z dg dp rest fields k -> Hz Hs Hdg Hdp Hr Hk.
    unfold AMTOptIn.set_code_ttl.
    replace (60 <=? z) with true by (symmetry; apply Z.leb_le; lia).
    replace (z <=? 900) with true by (symmetry; apply Z.leb_le; lia).
    cbn [andb].
    apply (put_update_run None "IPS_OptInService" k _ fields w dg dp rest);
      auto.
Qed.

(** C6 (the code at the input where it departs from the claim).  A feature
    list that starts with ['SoL'] and goes on with a name [x] outside the
    universe is not rejected: the setter fetches the resource and puts it
    back with [EnabledState] 32770, the code of the set {SoL}. *)
Theorem enabled_features_accepts_foreign_feature (x : Value) (w : World)
    (dg dp : XmlDoc) (rest : list (option XmlDoc))
    (fields : list (string * Value)) (k : string) :
  (0 < RETRY_LIMIT)%nat ->
  hashable x = true ->
  py_mem x [VStr "SoL"; VStr "IDER"] = false ->
  script w = Some dg :: Some dp :: rest ->
  is_fault dg = false -> is_fault dp = false ->
  getitem (WryDict dg) "AMT_RedirectionService" = Ok (VDict fields) ->
  first_key (WryDict dg) = Ok k ->
  AMTRedirection.set_enabled_features [VStr "SoL"; x] w =
    (Ok tt,
     mkWorld rest
       (sent w ++
        [ReqGet (add_client_options (Some (self_options w)))
           (RESOURCE_URIs "AMT_RedirectionService");
         ReqPut (add_client_options (Some (self_options w))) (RESOURCE_URIs k)
           (VDict (dict_set "AMT_RedirectionService"
                     (VDict (dict_update fields [("EnabledState", VInt 32770)]))
                     (parsed dg)))])%list
       (self_options w)).
Proof.
  intros Hpos Hh Hx Hs Hdg Hdp Hr Hk.
  unfold AMTRedirection.set_enabled_features. cbn [truthy negb].
  unfold bind at 1, lift at 1.
  unfold AMTRedirection.is_sol_and_ider, py_set.
  cbn [forallb hashable]. rewrite Hh. cbn [andb obind forallb].
  rewrite Hx. cbn [andb]. rewrite andb_false_r. cbn [andb].
  unfold bind at 1, lift at 1. cbn [getindex seq_index].
  cbn -[DeviceCapability.put dict_update].
  apply (put_update_run None "AMT_RedirectionService" k _ fields w dg dp rest);
    auto.
Qed.

(** C7 (the code at the inputs where it departs from the claim).  For every
    [EnabledState] code above 32771 the getter raises nothing: it returns the
    feature map with neither feature enabled, as it does for 32768. *)
Theorem enabled_features_unknown_high_code (z : Z) (w : World) (d : XmlDoc)
    (rest : list (option XmlDoc)) (r : Value) :
  (0 < RETRY_LIMIT)%nat ->
  32771 < z ->
  script w = Some d :: rest ->
  is_fault d = false ->
  getitem (WryDict d) "AMT_RedirectionService" = Ok r ->
  getitem r "EnabledState" = Ok (VInt z) ->
  AMTRedirection.enabled_features w =
    (Ok (mkEnablementMap [VStr "SoL"; VStr "IDER"] []),
     after_call w (ReqGet (add_client_options (Some (self_options w)))
                     (RESOURCE_URIs "AMT_RedirectionService")) rest).
Proof.
  intros Hpos Hz Hs Hd Hr Hv. unfold AMTRedirection.enabled_features.
  unfold bind.
  rewrite (get_setting_run None "AMT_RedirectionService" "EnabledState" w d
             rest r (VInt z) Hpos eq_refl eq_refl Hs Hd Hr Hv).
  unfold lift, AMTRedirection.decode_state, py2_ge_int.
  replace (32768 <=? z) with true by (symmetry; apply Z.leb_le; lia).
  cbn [py_mem existsb py_eq].
  replace (z =? 32769) with false by (symmetry; apply Z.eqb_neq; lia).
  replace (z =? 32770) with false by (symmetry; apply Z.eqb_neq; lia).
  replace (z =? 32771) with false by (symmetry; apply Z.eqb_neq; lia).
  reflexivity.
Qed.

(** Below 32768 the getter always raises: [LookupError] for the codes 0 to
    11 of the generic table, [KeyError] for every other code. *)
Lemma enabled_features_low_codes (z : Z) :
  z < 32768 ->
  AMTRedirection.decode_state (VInt z) =
    if (0 <=? z) && (z <=? 11)
    then Raise (LookupError "Unknown state discovered")
    else Raise (KeyError "Unknown state discovered").
Proof.
  intros Hz. unfold AMTRedirection.decode_state, py2_ge_int.
  replace (32768 <=? z) with false by (symmetry; apply Z.leb_gt; lia).
  unfold py_mem, AMTRedirection._state_mapping.
  cbn [map fst existsb py_eq].
  destruct ((0 <=? z) && (z <=? 11)) eqn:E.
  - apply andb_true_iff in E. destruct E as [E1 E2].
    apply Z.leb_le in E1. apply Z.leb_le in E2.
    assert (H : z = 0 \/ z = 1 \/ z = 2 \/ z = 3 \/ z = 4 \/ z = 5 \/ z = 6 \/
                z = 7 \/ z = 8 \/ z = 9 \/ z = 10 \/ z = 11) by lia.
    repeat (destruct H as [->|H]; [reflexivity|]). subst. reflexivity.
  - assert (H : z < 0 \/ 11 < z).
    { apply andb_false_iff in E. destruct E as [E|E]; apply Z.leb_gt in E; lia. }
    repeat match goal with
           | |- context [z =? ?c] =>
               replace (z =? c) with false by (symmetry; apply Z.eqb_neq; lia)
           end.
    reflexivity.
Qed.

(** The four valid feature lists: the code the setter puts, and the getter's
    decoding of that code back to the list. *)
Lemma features_round_trip (features : list Value) (code : Z) (w : World)
    (dg dp : XmlDoc) (rest : list (option XmlDoc))
    (fields : list (string * Value)) (k : string) :
  In (features, code)
    [ ([], 32768); ([VStr "SoL"], 32770); ([VStr "IDER"], 32769);
      ([VStr "SoL"; VStr "IDER"], 32771) ] ->
  (0 < RETRY_LIMIT)%nat ->
  script w = Some dg :: Some dp :: rest ->
  is_fault dg = false -> is_fault dp = false ->
  getitem (WryDict dg) "AMT_RedirectionService" = Ok (VDict fields) ->
  first_key (WryDict dg) = Ok k ->
  AMTRedirection.set_enabled_features features w =
    (Ok tt,
     mkWorld rest
       (sent w ++
        [ReqGet (add_client_options (Some (self_options w)))
           (RESOURCE_URIs "AMT_RedirectionService");
         ReqPut (add_client_options (Some (self_options w))) (RESOURCE_URIs k)
           (VDict (dict_set "AMT_RedirectionService"
                     (VDict (dict_update fields [("EnabledState", VInt code)]))
                     (parsed dg)))])%list
       (self_options w)) /\
  AMTRedirection.decode_state (VInt code) =
    Ok (mkEnablementMap [VStr "SoL"; VStr "IDER"] features).
Proof.
  intros Hin Hpos Hs Hdg Hdp Hr Hk.
  assert (Hput : forall c,
            DeviceCapability.put None (Some "AMT_RedirectionService")
              [("EnabledState", VInt c)] false true w =
            (Ok tt,
             mkWorld rest
               (sent w ++
                [ReqGet (add_client_options (Some (self_options w)))
                   (RESOURCE_URIs "AMT_RedirectionService");
                 ReqPut (add_client_options (Some (self_options w)))
                   (RESOURCE_URIs k)
                   (VDict (dict_set "AMT_RedirectionService"
                             (VDict (dict_update fields [("EnabledState", VInt c)]))
                             (parsed dg)))])%list
               (self_options w))).
  { intros c.
    apply (put_update_run None "AMT_RedirectionService" k _ fields w dg dp rest);
      auto. }
  cbn [In] in Hin.
  destruct Hin as [E|[E|[E|[E|[]]]]]; inversion E; subst; clear E;
    (split; [|reflexivity]); apply Hput.
Qed.

Lemma power_state_is_no_label (st : Value) (label : string) :
  In st AMT_POWER_STATE_MAP -> py_eq st (VStr label) = false.
Proof.
  intros H. cbn in H.
  repeat (destruct H as [<-|H]; [reflexivity|]). destruct H.
Qed.

Lemma seq_index_In (l : list Value) (i : Z) (x : Value) :
  seq_index l i = Ok x -> In x l.
Proof.
  unfold seq_index. destruct (_ && _); [|discriminate].
  destruct (nth_error l _) eqn:E; [|discriminate].
  intros H. inversion H; subst. eapply nth_error_In; eauto.
Qed.

(** C4 (the code at the inputs where it departs from the claim).  Whatever
    power state the device reports -- 'on' (code 2) and 'off' (codes 6, 8,
    12, 13) included -- [toggle] compares the decoded [StateMap] tuple with a
    string, finds neither 'on' nor 'off', and ends in the [NameError] of the
    unbound [SomeError]: the read of the state is the only request sent, no
    transition is issued. *)
Theorem toggle_issues_no_transition (i : Z) (st : Value) (w : World) (d : XmlDoc)
    (rest : list (option XmlDoc)) (r : Value) :
  (0 < RETRY_LIMIT)%nat ->
  script w = Some d :: rest ->
  is_fault d = false ->
  getitem (WryDict d) "CIM_AssociatedPowerManagementService" = Ok r ->
  getitem r "PowerState" = Ok (VInt i) ->
  seq_index AMT_POWER_STATE_MAP i = Ok st ->
  AMTPower.toggle w =
    (Raise (NameError "SomeError"),
     after_call w (ReqGet (add_client_options (Some (self_options w)))
                     (RESOURCE_URIs "CIM_AssociatedPowerManagementService")) rest).
Proof.
  intros Hpos Hs Hd Hr Hv Hst. unfold AMTPower.toggle, AMTPower.state.
  unfold bind at 1. unfold bind at 1.
  unfold DeviceCapability.get, DeviceCapability.pick_resource_name,
    AMTPower.resource_name.
  unfold bind at 1. cbn [ret]. unfold bind at 1. cbn [read_options].
  unfold bind at 1.
  rewrite (get_resource_run _ _ _ _ _ Hpos Hs Hd).
  cbn [String.eqb negb Ascii.eqb Bool.eqb]. unfold bind at 1, lift at 1.
  rewrite Hr. unfold lift at 1. rewrite Hv. cbn [as_index]. unfold lift.
  rewrite Hst.
  pose proof (seq_index_In _ _ _ Hst) as Hin.
  rewrite !(power_state_is_no_label st _ Hin). reflexivity.
Qed.

End Capabilities.

Section Invocation.

Context {env : Environment}.

Lemma assoc_dict_set_same (k : string) (v : Value) (d : list (string * Value)) :
  assoc k (dict_set k v d) = Some v.
Proof.
  induction d as [|[k' v'] d IH]; cbn.
  - rewrite String.eqb_refl. reflexivity.
  - destruct (String.eqb k k') eqn:E; cbn; rewrite ?E, ?String.eqb_refl; auto.
Qed.

Lemma OrderedDict_last (l : list (string * Value)) (k : string) (v : Value) :
  assoc k (OrderedDict (l ++ [(k, v)])) = Some v.
Proof.
  unfold OrderedDict. rewrite fold_left_app. cbn. apply assoc_dict_set_same.
Qed.

Lemma assoc_dict_set_other (k k' : string) (v : Value)
    (d : list (string * Value)) :
  k <> k' -> assoc k (dict_set k' v d) = assoc k d.
Proof.
  intros Hne. induction d as [|[k0 v0] d IH]; cbn.
  - destruct (String.eqb k k') eqn:E; [apply String.eqb_eq in E; contradiction|].
    reflexivity.
  - destruct (String.eqb k' k0) eqn:E0; cbn.
    + apply String.eqb_eq in E0. subst k0.
      destruct (String.eqb k k') eqn:E; [apply String.eqb_eq in E; contradiction|].
      reflexivity.
    + destruct (String.eqb k k0); auto.
Qed.

Lemma assoc_dict_update_notin (k : string) (other : list (string * Value)) :
  forall d, ~ In k (map fst other) -> assoc k (dict_update d other) = assoc k d.
Proof.
  unfold dict_update.
  induction other as [|[k0 v0] other IH]; intros d Hnot; cbn [fold_left];
    [reflexivity|].
  cbn in Hnot. rewrite IH by tauto. cbn [fst snd].
  apply assoc_dict_set_other. intros ->. tauto.
Qed.

Lemma assoc_dict_update_in (k : string) (v : Value)
    (other : list (string * Value)) :
  forall d,
    NoDup (map fst other) -> In (k, v) other ->
    assoc k (dict_update d other) = Some v.
Proof.
  induction other as [|[k0 v0] other IH]; intros d Hnd Hin; [destruct Hin|].
  cbn in Hnd. inversion Hnd as [|? ? Hnotin Hnd']; subst.
  change (dict_update d ((k0, v0) :: other))
    with (dict_update (dict_set k0 v0 d) other).
  destruct Hin as [E|Hin].
  - inversion E; subst. rewrite assoc_dict_update_notin by exact Hnotin.
    apply assoc_dict_set_same.
  - apply IH; assumption.
Qed.

Lemma setitem_path_resolved (path : list string) (k : string) (v : Value) :
  forall d,
    resolves path d ->
    exists e',
      setitem_path path k v d = Ok (VDict e') /\
      get_path (path ++ [k]) (VDict e') = Ok v /\
      resolves path (VDict e').
Proof.
  induction path as [|p path IH]; intros d Hres.
  - destruct Hres as [e ->]. exists (dict_set k v e). cbn.
    rewrite assoc_dict_set_same. repeat split; eauto.
  - destruct Hres as (e & sub & -> & Hsub & Hres).
    destruct (IH sub Hres) as (e' & Hset & Hget & Hres').
    exists (dict_set p (VDict e') e). cbn [setitem_path getitem].
    rewrite Hsub. cbn [obind]. rewrite Hset. cbn [obind].
    split; [reflexivity|]. split.
    + cbn [app get_path getitem]. rewrite assoc_dict_set_same. exact Hget.
    + cbn [resolves]. exists (dict_set p (VDict e') e), (VDict e').
      rewrite assoc_dict_set_same. auto.
Qed.

Lemma method_input_resolves (service_uri resource_name affected_item
    method_name address_schema : string) :
  resolves [method_name ++ "_INPUT"; affected_item; "ReferenceParameters"]
    (method_input service_uri resource_name affected_item method_name
       address_schema).
Proof.
  unfold method_input. cbn [resolves].
  eexists _, _. split; [reflexivity|]. split.
  { apply (OrderedDict_last []). }
  eexists _, _. split; [reflexivity|]. split.
  { apply (OrderedDict_last [_]). }
  eexists _, _. split; [reflexivity|]. split.
  { apply (OrderedDict_last [_; _]). }
  eexists. reflexivity.
Qed.

Lemma add_method_args_succeeds (service_uri method_name : string)
    (method_args : list (string * Value)) :
  forall data,
    resolves [method_name ++ "_INPUT"] data ->
    exists data', add_method_args service_uri method_name method_args data = Ok data'.
Proof.
  induction method_args as [|[a v] rest IH]; intros data Hres;
    cbn [add_method_args].
  - eauto.
  - destruct (setitem_path_resolved [method_name ++ "_INPUT"] a
                (VDict (OrderedDict [("#text", v); ("@xmlns", VStr service_uri)]))
                data Hres) as (e' & Hset & _ & Hres').
    rewrite Hset. cbn [obind]. apply IH, Hres'.
Qed.

Lemma resolves_prefix (p : string) (path : list string) (d : Value) :
  resolves (p :: path) d -> resolves [p] d.
Proof.
  intros (e & sub & -> & Hsub & Hres). cbn.
  destruct path; cbn in Hres.
  - destruct Hres as [e' ->]. eauto 6.
  - destruct Hres as (e' & sub' & -> & _). eauto 6.
Qed.

Lemma get_path_app (p1 p2 : list string) :
  forall d, get_path (p1 ++ p2) d = obind (get_path p1 d) (get_path p2).
Proof.
  induction p1 as [|p p1 IH]; intros d; cbn [app get_path obind]; [reflexivity|].
  destruct (getitem d p); cbn [obind]; auto.
Qed.

Lemma selector_text_stored (path : list string) (n x s d : Value) :
  get_path (path ++ ["SelectorSet"]) d =
    Ok (VDict (OrderedDict [
          ("Selector", VDict (OrderedDict [("#text", x); ("@Name", n)]));
          ("@xmlns", s)])) ->
  get_path (path ++ ["SelectorSet"; "Selector"; "#text"]) d = Ok x.
Proof.
  intros H.
  replace (path ++ ["SelectorSet"; "Selector"; "#text"])%list
    with ((path ++ ["SelectorSet"]) ++ ["Selector"; "#text"])%list
    by (rewrite <- app_assoc; reflexivity).
  rewrite get_path_app, H. reflexivity.
Qed.

Lemma add_selector_set_succeeds (affected_item method_name : string)
    (selector data : Value) (options : Options) :
  selector_shape selector ->
  resolves [method_name ++ "_INPUT"; affected_item; "ReferenceParameters"] data ->
  exists data',
    add_selector_set affected_item method_name selector data options =
      Ok (data', outgoing_options selector options) /\
    resolves [method_name ++ "_INPUT"] data' /\
    (forall n x rest, selector = VTuple (n :: x :: rest) ->
       get_path [method_name ++ "_INPUT"; affected_item; "ReferenceParameters";
                 "SelectorSet"; "Selector"; "#text"] data' = Ok x).
Proof.
  intros Hshape Hres. unfold add_selector_set.
  destruct Hshape as [->|[(n & x & ->)|(n & x & y & ->)]].
  - exists data. cbn [truthy outgoing_options]. split; [reflexivity|]. split.
    + eapply resolves_prefix; eauto.
    + intros; discriminate.
  - cbn [truthy getindex].
    change (seq_index [n; x] 1) with (@Ok Value x).
    change (seq_index [n; x] 0) with (@Ok Value n).
    change (py_len (VTuple [n; x])) with (@Ok Z 2).
    cbn [obind].
    match goal with
    | |- context [setitem_path ?p ?k ?v data] =>
        destruct (setitem_path_resolved p k v data Hres)
          as (e' & Hset & Hget & Hres')
    end.
    exists (VDict e'). rewrite Hset. cbn [obind].
    change (2 <? 2) with false. cbn [outgoing_options].
    split; [reflexivity|].
    split; [eapply resolves_prefix; eauto|].
    intros n' x' rest' Heq. inversion Heq; subst.
    eapply (selector_text_stored
              [method_name ++ "_INPUT"; affected_item; "ReferenceParameters"]).
    exact Hget.
  - cbn [truthy getindex].
    change (seq_index [n; x; y] 1) with (@Ok Value x).
    change (seq_index [n; x; y] 0) with (@Ok Value n).
    change (seq_index [n; x; y] (-1)) with (@Ok Value y).
    change (py_len (VTuple [n; x; y])) with (@Ok Z 3).
    cbn [obind].
    match goal with
    | |- context [setitem_path ?p ?k ?v data] =>
        destruct (setitem_path_resolved p k v data Hres)
          as (e' & Hset & Hget & Hres')
    end.
    exists (VDict e'). rewrite Hset. cbn [obind].
    change (2 <? 3) with true. change (3 =? 3) with true.
    cbn [outgoing_options].
    split; [reflexivity|].
    split; [eapply resolves_prefix; eauto|].
    intros n' x' rest' Heq. inversion Heq; subst.
    eapply (selector_text_stored
              [method_name ++ "_INPUT"; affected_item; "ReferenceParameters"]).
    exact Hget.
Qed.

(** An invocation the device answers, at once or after [k] attempts without
    answer: the request that goes out, and the outcome read off the answer. *)
Lemma invoke_method_run (service_name resource_name affected_item
    method_name : string) (options new_options self' : Options)
    (selector : Value) (method_args : list (string * Value)) (anonymous : bool)
    (w : World) (doc : XmlDoc) (rest : list (option XmlDoc)) (k : nat) :
  (k < RETRY_LIMIT)%nat ->
  copy_client_options options = (Ok new_options, self') ->
  selector_shape selector ->
  script w = (repeat None k ++ Some doc :: rest)%list ->
  is_fault doc = false ->
  exists data0 data,
    add_selector_set affected_item method_name selector
      (method_input (RESOURCE_URIs service_name) resource_name affected_item
         method_name (if anonymous then "addressing_anonymous" else "addressing"))
      new_options = Ok (data0, outgoing_options selector new_options) /\
    add_method_args (RESOURCE_URIs service_name) method_name method_args data0 =
      Ok data /\
    invoke_method service_name resource_name affected_item method_name options
      selector method_args anonymous w =
      (read_return_value method_name doc,
       mkWorld rest
         (sent w ++
          repeat (ReqInvoke (add_client_options
                               (Some (outgoing_options selector new_options)))
                    (RESOURCE_URIs service_name) method_name data) (S k))%list
         self').
Proof.
  intros Hk Hcopy Hshape Hs Hd.
  destruct (add_selector_set_succeeds affected_item method_name selector _
              new_options Hshape
              (method_input_resolves (RESOURCE_URIs service_name) resource_name
                 affected_item method_name
                 (if anonymous then "addressing_anonymous" else "addressing")))
    as (data0 & Hsel & Hres0 & _).
  destruct (add_method_args_succeeds (RESOURCE_URIs service_name) method_name
              method_args data0 Hres0) as (data & Hargs).
  exists data0, data. split; [exact Hsel|]. split; [exact Hargs|].
  unfold invoke_method. unfold bind at 1. rewrite Hcopy.
  unfold bind at 1, lift at 1. rewrite Hsel.
  unfold bind at 1, lift at 1. rewrite Hargs.
  unfold bind at 1.
  erewrite wsman_invoke_run; [|exact Hk|exact Hs|exact Hd].
  unfold read_return_value, bind, lift, obind.
  cbn [script sent self_options].
  destruct (getitem (WryDict doc) _) as [output| |]; try reflexivity.
  destruct (getitem output "ReturnValue") as [rv| |]; try reflexivity.
  destruct (negb (py_eq rv (VInt 0))); reflexivity.
Qed.

Lemma zero_is_falsy (v : Value) : py_eq v (VInt 0) = true -> truthy v = false.
Proof.
  destruct v as [|b|z|s|l|l|d]; cbn; try discriminate.
  - destruct b; [discriminate|reflexivity].
  - intros ->. reflexivity.
Qed.

(** C3.  For a method invocation the device answers (at once, or at a later
    attempt the retry policy still makes), [invoke_method] reads
    [<MethodName>_OUTPUT/ReturnValue] of the response: when the value equals
    0 the invocation returns (with [True]) and raises nothing; for every
    other value [v] it raises [NonZeroReturn] carrying [v].  The service,
    method, selector and arguments are arbitrary: the rule is the same for
    every method every capability invokes. *)
Theorem invoke_method_return_value (service_name resource_name affected_item
    method_name : string) (options new_options self' : Options)
    (selector : Value) (method_args : list (string * Value)) (anonymous : bool)
    (w : World) (doc : XmlDoc) (rest : list (option XmlDoc)) (k : nat)
    (output v : Value) :
  (k < RETRY_LIMIT)%nat ->
  copy_client_options options = (Ok new_options, self') ->
  selector_shape selector ->
  script w = (repeat None k ++ Some doc :: rest)%list ->
  is_fault doc = false ->
  getitem (WryDict doc) (method_name ++ "_OUTPUT") = Ok output ->
  getitem output "ReturnValue" = Ok v ->
  fst (invoke_method service_name resource_name affected_item method_name
         options selector method_args anonymous w) =
    if py_eq v (VInt 0) then Ok true else Raise (NonZeroReturn v).
Proof.
  intros Hk Hcopy Hshape Hs Hd Hout Hv.
  destruct (invoke_method_run service_name resource_name affected_item
              method_name options new_options self' selector method_args
              anonymous w doc rest k Hk Hcopy Hshape Hs Hd)
    as (data0 & data & _ & _ & Hrun).
  rewrite Hrun. cbn [fst]. unfold read_return_value.
  rewrite Hout. cbn [obind]. rewrite Hv. cbn [obind].
  destruct (py_eq v (VInt 0)) eqn:E; cbn [negb]; [|reflexivity].
  rewrite (zero_is_falsy v E). reflexivity.
Qed.

End Invocation.

Section OptionsCopy.

Context {env : Environment}.

Lemma emits_bind_post {A B} (P : Request -> Prop) (Q : A -> Prop)
    (m : M A) (k : A -> M B) :
  (forall w a w', m w = (Ok a, w') -> Q a) ->
  emits P m -> (forall a, Q a -> emits P (k a)) -> emits P (bind m k).
Proof.
  intros HQ Hm Hk w. unfold bind. destruct (Hm w) as (l & Hl & HP).
  destruct (m w) as [[a|e|] w1] eqn:E; cbn in *.
  - destruct (Hk a (HQ w a w1 E) w1) as (l' & Hl' & HP'). exists (l ++ l')%list.
    rewrite Hl', Hl, app_assoc. split; [reflexivity|]. apply Forall_app; auto.
  - exists l; auto.
  - exists l; auto.
Qed.

Lemma copy_returns_new (o new o' : Options) :
  copy_client_options o = (Ok new, o') ->
  new = ClientOptions /\ o' = snd (reapply_settings (dir o) o).
Proof.
  unfold copy_client_options.
  destruct (reapply_settings (dir o) o) as [[[]|e|] self']; intros H;
    inversion H; subst; auto.
Qed.

Lemma add_selector_set_options (affected_item method_name : string)
    (selector data data' : Value) (options options' : Options) :
  add_selector_set affected_item method_name selector data options =
    Ok (data', options') ->
  options' = options \/ exists a b, options' = add_selector a b options.
Proof.
  unfold add_selector_set. destruct (truthy selector).
  - destruct (getindex selector 1) as [x| |]; cbn [obind]; try discriminate.
    destruct (getindex selector 0) as [n| |]; cbn [obind]; try discriminate.
    destruct (setitem_path _ _ _ _) as [d| |]; cbn [obind]; try discriminate.
    destruct (py_len selector) as [len| |]; cbn [obind]; try discriminate.
    destruct (2 <? len).
    + destruct (len =? 3); [|discriminate].
      destruct (getindex selector (-1)) as [y| |]; cbn [obind]; try discriminate.
      intros H. inversion H; subst. right. eauto.
    + intros H. inversion H; subst. left. reflexivity.
  - intros H. inversion H; subst. left. reflexivity.
Qed.

Lemma invoke_method_options (service_name resource_name affected_item
    method_name : string) (options : Options) (selector : Value)
    (method_args : list (string * Value)) (anonymous : bool) :
  emits built_from_default
    (invoke_method service_name resource_name affected_item method_name options
       selector method_args anonymous).
Proof.
  unfold invoke_method.
  apply (emits_bind_post _ (fun o => o = ClientOptions)).
  - intros w a w' H.
    destruct (copy_client_options options) as [r self'] eqn:E.
    inversion H; subst. apply copy_returns_new in E. tauto.
  - intros w. exists []. destruct (copy_client_options options).
    cbn. rewrite app_nil_r. auto.
  - intros o ->.
    apply (emits_bind_post _ (fun p => snd p = ClientOptions \/
                                exists a b, snd p = add_selector a b ClientOptions)).
    + intros w [d o] w' H. unfold lift in H. inversion H as [[H1 H2]].
      cbn [snd]. eapply add_selector_set_options; eauto.
    + apply emits_lift.
    + intros [d o] Ho. cbn [snd] in Ho.
      emits_step; [apply emits_lift|].
      emits_step.
      * apply emits_transaction. intros o' uri m dd Heq. inversion Heq; subst.
        destruct Ho as [->|(a' & b & ->)]; eauto.
      * emits_step; [apply emits_lift|]. emits_step; [apply emits_lift|].
        emits_step; [apply emits_raise | apply emits_ret].
Qed.

(** The loop, as far as it got through, has done what the claim says. *)
Lemma reapply_settings_reapplies (attrs : list string) :
  forall o o',
    reapply_settings attrs o = (Ok tt, o') ->
    reapplied_to_self (filter (String.prefix "get_") attrs) o o'.
Proof.
  induction attrs as [|attr attrs IH]; intros o o' H; cbn [reapply_settings] in H.
  - inversion H; subst. constructor.
  - cbn [filter]. destruct (String.prefix "get_" attr).
    + destruct (call_getter attr o) as [value|e|] eqn:Hget; try discriminate.
      destruct (call_setter _ value o) as [o1|e|] eqn:Hset; try discriminate.
      econstructor; [exact Hget|exact Hset|]. apply IH. exact H.
    + apply IH. exact H.
Qed.

(** C10.  The patched [__copy__]: whenever it returns, the object returned
    is a newly constructed [ClientOptions()], whatever [o] held; what was
    read through [o]'s getters has gone to [o] itself -- for each [get_*]
    attribute of [dir(o)], in order, the value the getter returned was
    passed to the matching [set_*] of [o], and [o'] is [o] after the last of
    these calls.  So the requests [invoke_method] sends after
    [options.__copy__()] go out with options built from the default object
    (plus at most the added selector), not with the caller's settings. *)
Theorem copy_client_options_returns_default (o new o' : Options) :
  copy_client_options o = (Ok new, o') ->
  new = ClientOptions /\
  reapplied_to_self (filter (String.prefix "get_") (dir o)) o o' /\
  forall service_name resource_name affected_item method_name selector
         method_args anonymous,
    emits built_from_default
      (invoke_method service_name resource_name affected_item method_name o
         selector method_args anonymous).
Proof.
  intros H. split; [|split].
  - exact (proj1 (copy_returns_new o new o' H)).
  - apply reapply_settings_reapplies. unfold copy_client_options in H.
    destruct (reapply_settings (dir o) o) as [[[]|e|] self']; inversion H; subst.
    reflexivity.
  - intros. apply invoke_method_options.
Qed.

End OptionsCopy.

Section BootMedium.

Context {env : Environment}.

Lemma emits_get_resource (resource_name : string) (options : option Options) :
  emits (fun r => is_query r = true) (get_resource resource_name options).
Proof.
  unfold get_resource. emits_step; [|emits_step].
  apply emits_transaction. reflexivity.
Qed.

Lemma emits_capability_get (self_name resource_name setting : option string) :
  emits (fun r => is_query r = true)
    (DeviceCapability.get self_name resource_name setting).
Proof.
  unfold DeviceCapability.get, DeviceCapability.pick_resource_name.
  emits_step.
  - repeat emits_step.
  - emits_step; [emits_step|]. emits_step; [apply emits_get_resource|].
    repeat emits_step.
Qed.

Lemma emits_capability_walk (resource_name : string) (wsman_filter : Value) :
  emits (fun r => is_query r = true)
    (DeviceCapability.walk resource_name wsman_filter).
Proof.
  unfold DeviceCapability.walk. emits_step; [emits_step|].
  apply emits_enumerate_resource.
Qed.

Lemma query_is_no_invoke (r : Request) : is_query r = true -> is_invoke r = false.
Proof. destruct r; cbn; congruence. Qed.

Lemma query_is_no_put (r : Request) : is_query r = true -> is_put r = false.
Proof. destruct r; cbn; congruence. Qed.

(** With a positive retry limit an operation makes its call at least once. *)
Lemma transaction_sends_first (req : Request) (silent : bool) (w : World) :
  (0 < RETRY_LIMIT)%nat ->
  exists l, sent (snd (transaction req silent w)) = (sent w ++ req :: l)%list.
Proof.
  intros Hpos. unfold transaction, retry.
  destruct RETRY_LIMIT as [|k]; [lia|]. cbn [retry_from].
  assert (Hsent : sent (snd (attempt req silent w)) = (sent w ++ [req])%list).
  { unfold attempt, bind, client_call.
    destruct (script w) as [|[d|] rest]; cbn; try reflexivity.
    destruct (negb silent), (is_fault d); reflexivity. }
  destruct (attempt req silent w) as [[d|e|] w1]; cbn [snd] in *;
    try (exists []; exact Hsent).
  destruct e; try (exists []; exact Hsent).
  destruct (emits_retry_from (fun _ => True) (attempt req silent) k
              (emits_bind _ _ _ (emits_client_call _ req I)
                 (fun doc => emits_validate _ doc silent)) w1)
    as (l & Hl & _).
  exists l. rewrite Hl, Hsent, <- app_assoc. reflexivity.
Qed.

Lemma emits_invoke_method_any (service_name resource_name affected_item
    method_name : string) (options : Options) (selector : Value)
    (method_args : list (string * Value)) (anonymous : bool) :
  emits (fun _ => True)
    (invoke_method service_name resource_name affected_item method_name options
       selector method_args anonymous).
Proof.
  eapply emits_weaken; [|apply invoke_method_options]. auto.
Qed.

(** An invocation sends its request whatever the device then answers. *)
Lemma invoke_method_sends (service_name resource_name affected_item
    method_name : string) (options new_options self' : Options)
    (selector : Value) (method_args : list (string * Value)) (anonymous : bool)
    (w : World) :
  (0 < RETRY_LIMIT)%nat ->
  copy_client_options options = (Ok new_options, self') ->
  selector_shape selector ->
  exists data0 data l,
    add_selector_set affected_item method_name selector
      (method_input (RESOURCE_URIs service_name) resource_name affected_item
         method_name (if anonymous then "addressing_anonymous" else "addressing"))
      new_options = Ok (data0, outgoing_options selector new_options) /\
    add_method_args (RESOURCE_URIs service_name) method_name method_args data0 =
      Ok data /\
    sent (snd (invoke_method service_name resource_name affected_item method_name
                 options selector method_args anonymous w)) =
      (sent w ++
       ReqInvoke (add_client_options (Some (outgoing_options selector new_options)))
         (RESOURCE_URIs service_name) method_name data :: l)%list.
Proof.
  intros Hpos Hcopy Hshape.
  destruct (add_selector_set_succeeds affected_item method_name selector _
              new_options Hshape
              (method_input_resolves (RESOURCE_URIs service_name) resource_name
                 affected_item method_name
                 (if anonymous then "addressing_anonymous" else "addressing")))
    as (data0 & Hsel & Hres0 & _).
  destruct (add_method_args_succeeds (RESOURCE_URIs service_name) method_name
              method_args data0 Hres0) as (data & Hargs).
  exists data0, data.
  enough (Hsent : exists l,
            sent (snd (invoke_method service_name resource_name affected_item
                         method_name options selector method_args anonymous w)) =
            (sent w ++
             ReqInvoke (add_client_options
                          (Some (outgoing_options selector new_options)))
               (RESOURCE_URIs service_name) method_name data :: l)%list)
    by (destruct Hsent as [l Hl]; exists l; auto).
  unfold invoke_method. unfold bind at 1. rewrite Hcopy.
  unfold bind at 1, lift at 1. rewrite Hsel.
  unfold bind at 1, lift at 1. rewrite Hargs.
  unfold bind at 1.
  match goal with
  | |- context [wsman_invoke ?u ?m ?d ?o false ?w0] =>
      destruct (transaction_sends_first
                  (ReqInvoke (add_client_options o) u m d) false w0 Hpos)
        as (l & Hl);
      change (transaction (ReqInvoke (add_client_options o) u m d) false)
        with (wsman_invoke u m d o false) in Hl;
      destruct (wsman_invoke u m d o false w0) as [[doc|e|] w1]
  end; cbn [snd sent] in Hl.
  - match goal with
    | |- context [sent (snd (?k w1))] =>
        assert (Hk : emits (fun _ => True) k)
    end.
    { repeat emits_step. }
    destruct (Hk w1) as (l' & Hl' & _).
    exists (l ++ l')%list.
    rewrite Hl', Hl, <- app_assoc. reflexivity.
  - exists l. auto.
  - exists l. auto.
Qed.

Lemma find_source_none (value : string) (sources : list Value) :
  Forall (lacks_medium value) sources ->
  find_source value sources =
    Raise (LookupError "This medium is not supported by the device").
Proof.
  induction 1 as [|s l (sbs & Hs & Hc) _ IH]; [reflexivity|].
  cbn [find_source]. rewrite Hs. cbn [obind py_in]. rewrite Hc. exact IH.
Qed.

Lemma find_source_first (value sbs : string) (before after : list Value)
    (source iid : Value) :
  Forall (lacks_medium value) before ->
  getitem source "StructuredBootString" = Ok (VStr sbs) ->
  contains value sbs = true ->
  getitem source "InstanceID" = Ok iid ->
  find_source value (before ++ source :: after) = Ok iid.
Proof.
  intros Hb Hs Hc Hi. induction Hb as [|s l (sb & Hs' & Hc') _ IH].
  - cbn [app find_source]. rewrite Hs. cbn [obind py_in]. rewrite Hc. exact Hi.
  - cbn [app find_source]. rewrite Hs'. cbn [obind py_in]. rewrite Hc'. exact IH.
Qed.

Lemma emits_set_boot_config_role (enabled_state : Value) :
  emits (fun _ => True) (AMTBoot._set_boot_config_role enabled_state).
Proof.
  unfold AMTBoot._set_boot_config_role.
  emits_step; [repeat emits_step|].
  emits_step.
  { eapply emits_weaken; [|apply emits_capability_get]. auto. }
  emits_step; [emits_step|]. emits_step; [emits_step|].
  emits_step; [emits_step|]. destruct a;
    first [ apply emits_raise
          | emits_step; [emits_step|]; apply emits_invoke_method_any ].
Qed.

(** C9.  The [medium] setter, once the boot settings and the boot sources
    have been read.  If no source's [StructuredBootString] contains the
    requested medium, the setter raises [LookupError] right after the
    enumeration: everything sent up to there is a query, no method has been
    invoked.  If some source's string contains it, the [InstanceID] of the
    first such source is the selector value of the [ChangeBootOrder]
    invocation, which is the first request sent after the boot configuration
    has been read. *)
Theorem medium_lookup (value : string) (w w1 w2 : World)
    (settings zeroed returned : Value) (sources : list Value) :
  (0 < RETRY_LIMIT)%nat ->
  DeviceCapability.get None (Some "AMT_BootSettingData") None w = (Ok settings, w1) ->
  zero_settings settings = Ok zeroed ->
  DeviceCapability.walk "CIM_BootSourceSetting" VNone w1 = (Ok returned, w2) ->
  getitem returned "CIM_BootSourceSetting" = Ok (VList sources) ->
  (Forall (lacks_medium value) sources ->
   AMTBoot.set_medium value w =
     (Raise (LookupError "This medium is not supported by the device"), w2) /\
   exists l, sent w2 = (sent w ++ l)%list /\ Forall (fun r => is_invoke r = false) l)
  /\
  (forall before source after sbs iid boot_config config_instance w3
          new_options self',
     sources = (before ++ source :: after)%list ->
     Forall (lacks_medium value) before ->
     getitem source "StructuredBootString" = Ok (VStr sbs) ->
     contains value sbs = true ->
     getitem source "InstanceID" = Ok iid ->
     DeviceCapability.get None (Some "CIM_BootConfigSetting") None w2 =
       (Ok boot_config, w3) ->
     getitem boot_config "InstanceID" = Ok config_instance ->
     copy_client_options (self_options w3) = (Ok new_options, self') ->
     exists data l0 l,
       sent w3 = (sent w ++ l0)%list /\
       Forall (fun r => is_invoke r = false) l0 /\
       get_path ["ChangeBootOrder_INPUT"; "Source"; "ReferenceParameters";
                 "SelectorSet"; "Selector"; "#text"] data = Ok iid /\
       sent (snd (AMTBoot.set_medium value w)) =
         (sent w3 ++
          ReqInvoke
            (add_client_options
               (Some (add_selector (VStr "InstanceID")
                        (VStr (py_str config_instance)) new_options)))
            (RESOURCE_URIs "CIM_BootConfigSetting") "ChangeBootOrder" data
          :: l)%list).
Proof.
  intros Hpos Hget Hzero Hwalk Hsrc.
  assert (Hq1 : exists l, sent w1 = (sent w ++ l)%list /\
                          Forall (fun r => is_query r = true) l).
  { pose proof (emits_capability_get None (Some "AMT_BootSettingData") None w) as H.
    rewrite Hget in H. exact H. }
  assert (Hq2 : exists l, sent w2 = (sent w1 ++ l)%list /\
                          Forall (fun r => is_query r = true) l).
  { pose proof (emits_capability_walk "CIM_BootSourceSetting" VNone w1) as H.
    rewrite Hwalk in H. exact H. }
  destruct Hq1 as (l1 & Hl1 & HF1). destruct Hq2 as (l2 & Hl2 & HF2).
  assert (Hprefix :
            AMTBoot.set_medium value w =
            (instance_id <- lift (find_source value sources) ;;
             boot_config <- DeviceCapability.get None
                              (Some "CIM_BootConfigSetting") None ;;
             config_instance <- lift (getitem boot_config "InstanceID") ;;
             let config_instance := VStr (py_str config_instance) in
             options <- read_options ;;
             _ <- invoke_method "CIM_BootConfigSetting" "CIM_BootSourceSetting"
                    "Source" "ChangeBootOrder" options
                    (VTuple [VStr "InstanceID"; instance_id; config_instance])
                    [] false ;;
             _ <- AMTBoot._set_boot_config_role (VBool true) ;;
             ret tt) w2).
  { unfold AMTBoot.set_medium. unfold bind at 1. rewrite Hget.
    unfold bind at 1, lift at 1. rewrite Hzero.
    unfold bind at 1. rewrite Hwalk.
    unfold bind at 1, lift at 1. rewrite Hsrc.
    unfold bind at 1, lift at 1. cbn [py_iter]. reflexivity. }
  split.
  - intros Hnone. split.
    + rewrite Hprefix. unfold bind at 1, lift at 1.
      rewrite (find_source_none value sources Hnone). reflexivity.
    + exists (l1 ++ l2)%list. rewrite Hl2, Hl1, app_assoc. split; [reflexivity|].
      apply Forall_app. split;
        (eapply Forall_impl; [|eassumption]); apply query_is_no_invoke.
  - intros before source after sbs iid boot_config config_instance w3
      new_options self' -> Hbefore Hsbs Hc Hiid Hcfg Hci Hcopy.
    assert (Hq3 : exists l, sent w3 = (sent w2 ++ l)%list /\
                            Forall (fun r => is_query r = true) l).
    { pose proof (emits_capability_get None (Some "CIM_BootConfigSetting") None w2)
        as H.
      rewrite Hcfg in H. exact H. }
    destruct Hq3 as (l3 & Hl3 & HF3).
    rewrite Hprefix. unfold bind at 1, lift at 1.
    rewrite (find_source_first value sbs before after source iid
               Hbefore Hsbs Hc Hiid).
    unfold bind at 1. rewrite Hcfg.
    unfold bind at 1, lift at 1. rewrite Hci.
    unfold bind at 1. cbn [read_options].
    set (selector := VTuple [VStr "InstanceID"; iid;
                             VStr (py_str config_instance)]).
    assert (Hshape : selector_shape selector).
    { right. right. subst selector. eauto. }
    destruct (invoke_method_sends "CIM_BootConfigSetting" "CIM_BootSourceSetting"
                "Source" "ChangeBootOrder" (self_options w3) new_options self'
                selector [] false w3 Hpos Hcopy Hshape)
      as (data0 & data & l & Hsel & Hargs & Hsent).
    cbn [add_method_args] in Hargs. inversion Hargs; subst data0.
    destruct (add_selector_set_succeeds "Source" "ChangeBootOrder" selector
                (method_input (RESOURCE_URIs "CIM_BootConfigSetting")
                   "CIM_BootSourceSetting" "Source" "ChangeBootOrder" "addressing")
                new_options Hshape
                (method_input_resolves _ _ _ _ _))
      as (data' & Hsel' & _ & Htext).
    rewrite Hsel in Hsel'. inversion Hsel'; subst data'.
    specialize (Htext (VStr "InstanceID") iid [VStr (py_str config_instance)]
                  eq_refl).
    cbn [outgoing_options selector] in Hsent.
    unfold bind at 1.
    destruct (invoke_method _ _ _ _ _ selector [] false w3) as [[b|e|] w4];
      cbn [snd] in Hsent.
    + destruct (emits_bind _ _ (fun _ : bool => ret tt)
                  (emits_set_boot_config_role (VBool true))
                  (fun _ => emits_ret _ tt) w4) as (l' & Hl' & _).
      exists data, (l1 ++ l2 ++ l3)%list, (l ++ l')%list.
      split; [rewrite Hl3, Hl2, Hl1, <- !app_assoc; reflexivity|].
      split.
      { repeat (apply Forall_app; split);
          (eapply Forall_impl; [|eassumption]); apply query_is_no_invoke. }
      split; [exact Htext|].
      rewrite Hl', Hsent, <- app_assoc. reflexivity.
    + exists data, (l1 ++ l2 ++ l3)%list, l.
      split; [rewrite Hl3, Hl2, Hl1, <- !app_assoc; reflexivity|].
      split.
      { repeat (apply Forall_app; split);
          (eapply Forall_impl; [|eassumption]); apply query_is_no_invoke. }
      split; [exact Htext|exact Hsent].
    + exists data, (l1 ++ l2 ++ l3)%list, l.
      split; [rewrite Hl3, Hl2, Hl1, <- !app_assoc; reflexivity|].
      split.
      { repeat (apply Forall_app; split);
          (eapply Forall_impl; [|eassumption]); apply query_is_no_invoke. }
      split; [exact Htext|exact Hsent].
Qed.

End BootMedium.

Section Ports.

Context {env : Environment}.

Lemma count_puts_app (l1 l2 : list Request) :
  count_puts (l1 ++ l2) = (count_puts l1 + count_puts l2)%nat.
Proof. unfold count_puts. rewrite filter_app, length_app. reflexivity. Qed.

Lemma pe_ret {A} (a : A) : puts_exactly 0 (ret a).
Proof.
  intros w a' w' Hw H. inversion H; subst. split; [exact Hw|].
  exists []. rewrite app_nil_r. auto.
Qed.

Lemma pe_raise {A} (n : nat) (e : Exn) : puts_exactly n (@raise _ A e).
Proof. intros w a w' _ H. discriminate. Qed.

Lemma pe_lift {A} (r : Outcome A) : puts_exactly 0 (lift r).
Proof.
  intros w a w' Hw H. unfold lift in H. inversion H; subst. split; [exact Hw|].
  exists []. rewrite app_nil_r. auto.
Qed.

Lemma pe_read_options : puts_exactly 0 read_options.
Proof.
  intros w a w' Hw H. inversion H; subst. split; [exact Hw|].
  exists []. rewrite app_nil_r. auto.
Qed.

Lemma pe_bind {A B} (n1 n2 : nat) (m : M A) (k : A -> M B) :
  puts_exactly n1 m -> (forall a, puts_exactly n2 (k a)) ->
  puts_exactly (n1 + n2) (bind m k).
Proof.
  intros Hm Hk w b w' Hw H. unfold bind in H.
  destruct (m w) as [[a|e|] w1] eqn:E; try discriminate.
  destruct (Hm w a w1 Hw E) as (Hw1 & l1 & Hl1 & Hc1).
  destruct (Hk a w1 b w' Hw1 H) as (Hw' & l2 & Hl2 & Hc2).
  split; [exact Hw'|]. exists (l1 ++ l2)%list.
  rewrite Hl2, Hl1, app_assoc, count_puts_app, Hc1, Hc2. auto.
Qed.

Lemma pe_inspect {A} (n : nat) (F : World -> M A) :
  (forall w0, puts_exactly n (F w0)) -> puts_exactly n (fun w => F w w).
Proof. intros H w. apply (H w w). Qed.

Lemma retry_unanswered (req : Request) (silent : bool) (n : nat) (w : World) :
  script w = [] ->
  fst (retry_from n (attempt req silent) w) = Raise AMTConnectFailure.
Proof.
  intros Hs. apply retry_absent. intros i _. rewrite Hs. destruct i; reflexivity.
Qed.

Lemma pe_transaction (req : Request) (silent : bool) :
  puts_exactly (if is_put req then 1 else 0) (transaction req silent).
Proof.
  intros w d w' Hw H. unfold transaction, retry in H.
  destruct RETRY_LIMIT as [|k]; [discriminate|].
  destruct (script w) as [|[d0|] rest] eqn:Hs.
  - pose proof (retry_unanswered req silent (S k) w Hs) as Hr.
    rewrite H in Hr. discriminate.
  - cbn [retry_from] in H.
    rewrite (attempt_delivered req silent w d0 rest Hs) in H.
    assert (Hw' : w' = after_call w req rest).
    { destruct (negb silent && is_fault d0); inversion H; reflexivity. }
    subst w'. split.
    + unfold answered in *. rewrite Hs in Hw. inversion Hw; assumption.
    + exists [req]. split; [reflexivity|].
      unfold count_puts. cbn. destruct (is_put req); reflexivity.
  - unfold answered in Hw. rewrite Hs in Hw. inversion Hw; congruence.
Qed.

End Ports.

(** Structural steps of a [puts_exactly 0] goal. *)
Ltac pe_step :=
  lazymatch goal with
  | |- puts_exactly 0 (bind _ _) => apply (pe_bind 0 0); [|intros ?]
  | |- puts_exactly 0 (ret _) => apply pe_ret
  | |- puts_exactly _ (raise _) => apply pe_raise
  | |- puts_exactly 0 (lift _) => apply pe_lift
  | |- puts_exactly 0 read_options => apply pe_read_options
  | |- puts_exactly _ (if ?b then _ else _) => destruct b
  | |- puts_exactly _ (match ?x with _ => _ end) => destruct x
  end.

Section PortsSetter.

Context {env : Environment}.

Lemma pe_get_resource (resource_name : string) (options : option Options) :
  puts_exactly 0 (get_resource resource_name options).
Proof.
  unfold get_resource. pe_step; [|pe_step].
  apply (pe_transaction (ReqGet _ _)).
Qed.

Lemma pe_capability_get (self_name resource_name setting : option string) :
  puts_exactly 0 (DeviceCapability.get self_name resource_name setting).
Proof.
  unfold DeviceCapability.get, DeviceCapability.pick_resource_name.
  pe_step.
  - repeat pe_step.
  - pe_step; [pe_step|]. pe_step; [apply pe_get_resource|]. repeat pe_step.
Qed.

Lemma pe_pull_loop (uri context : string) (options : option Options)
    (resource_name : string) (fuel : nat) :
  forall output,
    puts_exactly 0 (pull_loop fuel uri context options resource_name output).
Proof.
  induction fuel as [|fuel IH]; intros output.
  - intros w a w' _ H. discriminate.
  - cbn [pull_loop]. pe_step.
    + apply (pe_transaction (ReqPull _ _ _ _)).
    + pe_step; [pe_step|]. destruct a0 as [ended item].
      pe_step; [apply IH | pe_step].
Qed.

Lemma pe_enumerate_resource (resource_name : string) (wsman_filter : Value)
    (options : option Options) :
  puts_exactly 0 (enumerate_resource resource_name wsman_filter options).
Proof.
  unfold enumerate_resource. pe_step.
  - apply (pe_transaction (ReqEnumerate _ _ _)).
  - do 2 (pe_step; [pe_step|]).
    apply (pe_inspect 0 (fun w0 => bind (pull_loop _ _ _ _ _ _) _)).
    intros w0. pe_step; [|pe_step]. apply pe_pull_loop.
Qed.

Lemma pe_tls_enabled : puts_exactly 0 AMTKVM.tls_enabled.
Proof.
  unfold AMTKVM.tls_enabled, DeviceCapability.walk.
  pe_step.
  - pe_step; [pe_step|]. apply pe_enumerate_resource.
  - repeat pe_step.
Qed.

Lemma pe_enabled_ports : puts_exactly 0 AMTKVM.enabled_ports.
Proof.
  unfold AMTKVM.enabled_ports.
  pe_step; [apply pe_capability_get|].
  pe_step; [repeat pe_step|].
  pe_step; [apply pe_capability_get|].
  pe_step; [|pe_step].
  pe_step; [pe_step|]. pe_step; [apply pe_tls_enabled|]. repeat pe_step.
Qed.

Lemma pe_put_resource (indict : Value) (options : option Options)
    (uri : option string) (silent : bool) :
  puts_exactly 1 (put_resource indict options uri silent).
Proof.
  unfold put_resource. apply (pe_bind 0 1).
  - destruct uri as [u|]; [destruct (String.eqb u "")|]; repeat pe_step.
  - intros u. apply (pe_bind 1 0); [|intros ?; pe_step].
    apply (pe_transaction (ReqPut _ _ _)).
Qed.

Lemma pe_capability_put (self_name resource_name : option string)
    (input_dict : list (string * Value)) (silent as_update : bool) :
  puts_exactly 1
    (DeviceCapability.put self_name resource_name input_dict silent as_update).
Proof.
  unfold DeviceCapability.put, DeviceCapability.pick_resource_name.
  apply (pe_bind 0 1).
  - repeat pe_step.
  - intros name. apply (pe_bind 0 1).
    + destruct as_update; [|pe_step].
      pe_step; [pe_step|]. pe_step; [apply pe_get_resource|].
      pe_step; [pe_step|]. repeat pe_step.
    + intros resource. apply (pe_bind 0 1); [pe_step|]. intros o.
      apply (pe_bind 1 0); [apply pe_put_resource | intros ?; pe_step].
Qed.

End PortsSetter.

Section PortsContract.

Context {env : Environment}.

Lemma py_mem_ints (p : Z) (target : list Z) :
  py_mem (VInt p) (map VInt target) = existsb (Z.eqb p) target.
Proof.
  unfold py_mem. induction target as [|t l IH]; cbn [map existsb];
    [reflexivity|].
  rewrite IH. reflexivity.
Qed.

Lemma py_set_ints (target : list Z) :
  py_set (map VInt target) = Ok (map VInt target).
Proof.
  unfold py_set. replace (forallb hashable (map VInt target)) with true; auto.
  induction target; cbn; auto.
Qed.

Lemma change_condition (enable mem : bool) :
  (enable && negb mem) || (negb enable && mem) = xorb enable mem.
Proof. destruct enable, mem; reflexivity. Qed.

Lemma emits_tls_enabled : emits (fun r => is_query r = true) AMTKVM.tls_enabled.
Proof.
  unfold AMTKVM.tls_enabled. emits_step; [apply emits_capability_walk|].
  repeat emits_step.
Qed.

Lemma emits_enabled_ports :
  emits (fun r => is_query r = true) AMTKVM.enabled_ports.
Proof.
  unfold AMTKVM.enabled_ports.
  emits_step; [apply emits_capability_get|].
  emits_step; [repeat emits_step|].
  emits_step; [apply emits_capability_get|].
  emits_step; [|emits_step].
  emits_step; [emits_step|]. emits_step; [apply emits_tls_enabled|].
  repeat emits_step.
Qed.

Lemma emits_validate_ports (values0 ports enabled0 : list Value) :
  emits (fun r => is_query r = true)
    (AMTKVM.validate_ports values0 ports enabled0).
Proof.
  unfold AMTKVM.validate_ports.
  do 2 (emits_step; [emits_step|]).
  emits_step; [emits_step|]. emits_step; [|emits_step].
  emits_step; [emits_step|].
  emits_step; [apply emits_tls_enabled|]. repeat emits_step.
Qed.

Lemma pe_validate_ports (values0 ports enabled0 : list Value) :
  puts_exactly 0 (AMTKVM.validate_ports values0 ports enabled0).
Proof.
  unfold AMTKVM.validate_ports.
  do 2 (pe_step; [pe_step|]).
  pe_step; [pe_step|]. pe_step; [|pe_step].
  pe_step; [pe_step|].
  pe_step; [apply pe_tls_enabled|]. repeat pe_step.
Qed.

Lemma pe_apply_ports (enabled0 : list Value) (pairs : list (Value * bool)) :
  puts_exactly (expected_puts pairs enabled0)
    (AMTKVM.apply_ports pairs enabled0).
Proof.
  induction pairs as [|[port enable] rest IH]; cbn [AMTKVM.apply_ports expected_puts].
  - apply pe_ret.
  - apply pe_bind; [|intros _; exact IH].
    rewrite change_condition.
    destruct (xorb enable (py_mem port enabled0)); [|apply pe_ret].
    assert (Htail : forall n (m : M unit),
              puts_exactly n m ->
              puts_exactly n
                (_ <- m ;; m0 <- AMTKVM.enabled_ports ;;
                 _ <- lift (toggle port m0) ;; ret tt)).
    { intros n m Hm. replace n with (n + 0)%nat by lia.
      apply pe_bind; [exact Hm|]. intros _.
      pe_step; [apply pe_enabled_ports|]. repeat pe_step. }
    apply Htail.
    destruct (py_eq port (VInt 5900)); cbn [orb];
      [apply pe_capability_put|].
    destruct (py_eq port (VInt 16994)); [apply pe_capability_put | apply pe_ret].
Qed.

Lemma returns_bind {A B} (Q1 : A -> Prop) (Q2 : B -> Prop) (m : M A)
    (k : A -> M B) :
  returns Q1 m -> (forall a, Q1 a -> returns Q2 (k a)) -> returns Q2 (bind m k).
Proof.
  intros Hm Hk w b w' H. unfold bind in H.
  destruct (m w) as [[a|e|] w1] eqn:E; try discriminate.
  eapply Hk; eauto.
Qed.

Lemma returns_any {A} (m : M A) : returns (fun _ => True) m.
Proof. intros w a w' _. exact I. Qed.

Lemma toggle_keeps_universe (x : Value) (m m' : EnablementMap) :
  toggle x m = Ok m' -> values m' = values m.
Proof.
  unfold toggle. destruct (py_mem x (values m)); [|discriminate].
  intros H. inversion H. reflexivity.
Qed.

Lemma returns_toggled (u : list Value) (x : Value) (m : EnablementMap) :
  values m = u -> returns (fun m' => values m' = u) (lift (toggle x m)).
Proof.
  intros Hm w m' w' H. unfold lift in H. inversion H as [[H1 H2]].
  rewrite (toggle_keeps_universe x m m' H1). exact Hm.
Qed.

Lemma returns_ret {A} (Q : A -> Prop) (a : A) : Q a -> returns Q (ret a).
Proof. intros H w a' w' E. inversion E; subst. exact H. Qed.

(** The map the getter returns always has the three ports as universe. *)
Lemma enabled_ports_universe :
  returns (fun m => values m = [VInt 5900; VInt 16994; VInt 16995])
    AMTKVM.enabled_ports.
Proof.
  unfold AMTKVM.enabled_ports.
  eapply returns_bind; [apply returns_any|]. intros is5900 _.
  eapply (returns_bind (fun m => values m = [VInt 5900; VInt 16994; VInt 16995])).
  { destruct (truthy is5900);
      [apply returns_toggled | apply returns_ret]; reflexivity. }
  intros ports Hp.
  eapply returns_bind; [apply returns_any|]. intros listener _.
  destruct (truthy listener); [|apply returns_ret; exact Hp].
  eapply (returns_bind (fun m => values m = [VInt 5900; VInt 16994; VInt 16995])).
  { apply returns_toggled. exact Hp. }
  intros ports' Hp'.
  eapply returns_bind; [apply returns_any|]. intros tls _.
  destruct (truthy tls); [apply returns_toggled | apply returns_ret]; exact Hp'.
Qed.

End PortsContract.

Section PortsPuts.

Context {env : Environment}.

Lemma bind_inv {A B} (m : M A) (k : A -> M B) (w w' : World) (b : B) :
  bind m k w = (Ok b, w') ->
  exists a w1, m w = (Ok a, w1) /\ k a w1 = (Ok b, w').
Proof.
  unfold bind. destruct (m w) as [[a|e|] w1]; intros H; try discriminate.
  eauto.
Qed.

(** On a device that answers, an operation that returns a document took the
    head of the script at its first attempt. *)
Lemma transaction_answered (req : Request) (silent : bool) (w w' : World)
    (d : XmlDoc) :
  answered w ->
  transaction req silent w = (Ok d, w') ->
  exists rest, script w = Some d :: rest /\ w' = after_call w req rest.
Proof.
  intros Hw H. unfold transaction, retry in H.
  destruct RETRY_LIMIT as [|k]; [discriminate|].
  destruct (script w) as [|[d0|] rest] eqn:Hs.
  - pose proof (retry_unanswered req silent (S k) w Hs) as Hr.
    rewrite H in Hr. discriminate.
  - cbn [retry_from] in H.
    rewrite (attempt_delivered req silent w d0 rest Hs) in H.
    exists rest. destruct (negb silent && is_fault d0); inversion H; subst.
    split; reflexivity.
  - unfold answered in Hw. rewrite Hs in Hw. inversion Hw; congruence.
Qed.

Lemma answered_after_call (w : World) (req : Request) (d : option XmlDoc)
    (rest : list (option XmlDoc)) :
  answered w -> script w = d :: rest -> answered (after_call w req rest).
Proof.
  unfold answered. intros Hw Hs. rewrite Hs in Hw. inversion Hw; assumption.
Qed.

Lemma pa_weaken {A} (Q Q' : list Request -> Prop) (m : M A) :
  (forall l, Q l -> Q' l) -> puts_are Q m -> puts_are Q' m.
Proof.
  intros HQ Hm w a w' Hw H. destruct (Hm w a w' Hw H) as (Hw' & l & Hl & Hq).
  split; [exact Hw'|]. exists l. auto.
Qed.

Lemma pa_no_put {A} (m : M A) :
  puts_exactly 0 m -> puts_are (fun l => l = []) m.
Proof.
  intros Hm w a w' Hw H. destruct (Hm w a w' Hw H) as (Hw' & l & Hl & Hc).
  split; [exact Hw'|]. exists l. split; [exact Hl|].
  apply length_zero_iff_nil. exact Hc.
Qed.

Lemma pa_bind {A B} (Q1 Q2 : list Request -> Prop) (m : M A) (k : A -> M B) :
  puts_are Q1 m -> (forall a, puts_are Q2 (k a)) ->
  puts_are (fun l => exists l1 l2, l = (l1 ++ l2)%list /\ Q1 l1 /\ Q2 l2)
    (bind m k).
Proof.
  intros Hm Hk w b w' Hw H.
  apply bind_inv in H as (a & w1 & E & H).
  destruct (Hm w a w1 Hw E) as (Hw1 & l1 & Hl1 & Hq1).
  destruct (Hk a w1 b w' Hw1 H) as (Hw' & l2 & Hl2 & Hq2).
  split; [exact Hw'|]. exists (l1 ++ l2)%list. split.
  - rewrite Hl2, Hl1, app_assoc. reflexivity.
  - rewrite filter_app. eauto.
Qed.

(** An update put of one setting: its one put carries the setting. *)
Lemma pa_capability_put (resource_name flag : string) (v : Value) :
  String.eqb resource_name "" = false ->
  puts_are (fun l => exists r, l = [r] /\ setting_put resource_name flag v r)
    (DeviceCapability.put None (Some resource_name) [(flag, v)] false true).
Proof.
  intros Hn w u w' Hw H.
  unfold DeviceCapability.put, DeviceCapability.pick_resource_name in H.
  rewrite Hn in H. cbn [negb] in H.
  apply bind_inv in H as (name & w0 & Hname & H).
  inversion Hname; subst name w0. clear Hname.
  apply bind_inv in H as (resource & w1 & Hres & H).
  apply bind_inv in Hres as (o & w0 & Ho & Hres).
  inversion Ho; subst o w0. clear Ho.
  apply bind_inv in Hres as (fetched & w2 & Hget & Hres).
  unfold get_resource in Hget.
  apply bind_inv in Hget as (dg & w3 & Htr & Hret).
  inversion Hret; subst fetched w3. clear Hret.
  change (wsman_get ?u ?o false)
    with (transaction (ReqGet (add_client_options o) u) false) in Htr.
  destruct (transaction_answered _ _ _ _ _ Hw Htr) as (rest & Hs & ->).
  pose proof (answered_after_call w (ReqGet (add_client_options
                 (Some (self_options w))) (RESOURCE_URIs resource_name))
                _ rest Hw Hs) as Hw2.
  apply bind_inv in Hres as (r & w4 & Hr & Hres).
  unfold lift in Hr. inversion Hr as [[Hitem Hw4]]. subst w4. clear Hr.
  destruct r as [| | | | | |fields]; try discriminate Hres.
  unfold lift in Hres. cbn [setitem_path WryDict] in Hres.
  inversion Hres; subst resource w1. clear Hres.
  apply bind_inv in H as (o2 & w5 & Ho2 & H).
  inversion Ho2; subst o2 w5. clear Ho2.
  apply bind_inv in H as (res & w6 & Hput & Hret).
  inversion Hret; subst. clear Hret.
  unfold put_resource in Hput.
  apply bind_inv in Hput as (uri & w7 & Huri & Hput).
  apply bind_inv in Huri as (k & w8 & Hk & Huri).
  unfold lift in Hk. inversion Hk as [[Hkey Hw8]]. subst w8. clear Hk.
  inversion Huri; subst uri w7. clear Huri.
  apply bind_inv in Hput as (dp & w9 & Htr2 & Hret).
  inversion Hret; subst. clear Hret.
  change (wsman_put ?u ?d ?o false)
    with (transaction (ReqPut (add_client_options o) u d) false) in Htr2.
  destruct (transaction_answered _ _ _ _ _ Hw2 Htr2) as (rest2 & Hs2 & ->).
  split.
  - eapply answered_after_call; [exact Hw2|exact Hs2].
  - eexists [_; _]. split.
    + cbn [after_call sent]. rewrite <- app_assoc. reflexivity.
    + cbn [filter is_put]. eexists. split; [reflexivity|].
      cbn [setting_put]. split.
      * cbn [get_path getitem]. rewrite assoc_dict_set_same.
        cbn [obind getitem]. rewrite assoc_dict_set_same. reflexivity.
      * exists k. split; [exact Hkey|reflexivity].
Qed.

Lemma pa_apply_ports (enabled0 : list Value) (pairs : list (Value * bool)) :
  puts_are (Forall2 port_put (expected_port_puts pairs enabled0))
    (AMTKVM.apply_ports pairs enabled0).
Proof.
  induction pairs as [|[port enable] rest IH];
    cbn [AMTKVM.apply_ports expected_port_puts].
  - eapply pa_weaken; [|apply pa_no_put, pe_ret].
    intros l ->. constructor.
  - eapply pa_weaken; [|apply pa_bind; [|intros _; exact IH]].
    { intros l (l1 & l2 & -> & H1 & H2). apply Forall2_app; [exact H1|exact H2]. }
    rewrite change_condition.
    destruct (xorb enable (py_mem port enabled0)).
    2:{ eapply pa_weaken; [|apply pa_no_put, pe_ret]. intros l ->. constructor. }
    assert (Htail : forall (Q : list Request -> Prop) (m : M unit),
              puts_are Q m ->
              puts_are Q
                (_ <- m ;; m0 <- AMTKVM.enabled_ports ;;
                 _ <- lift (toggle port m0) ;; ret tt)).
    { intros Q m Hm.
      eapply pa_weaken;
        [|apply (pa_bind Q (fun l => l = [])); [exact Hm|intros _]].
      - intros l (l1 & l2 & -> & H1 & ->). rewrite app_nil_r. exact H1.
      - apply pa_no_put. pe_step; [apply pe_enabled_ports|]. repeat pe_step. }
    apply Htail.
    destruct (py_eq port (VInt 5900)).
    { eapply pa_weaken; [|apply (pa_capability_put
                                   "IPS_KVMRedirectionSettingData"
                                   "Is5900PortEnabled" (VBool enable) eq_refl)].
      intros l (r & -> & Hr). constructor; [exact Hr|constructor]. }
    destruct (py_eq port (VInt 16994)).
    { eapply pa_weaken; [|apply (pa_capability_put "AMT_RedirectionService"
                                   "ListenerEnabled" (VBool enable) eq_refl)].
      intros l (r & -> & Hr). constructor; [exact Hr|constructor]. }
    eapply pa_weaken; [|apply pa_no_put, pe_ret]. intros l ->. constructor.
Qed.

End PortsPuts.

Section PortsTheorem.

Context {env : Environment}.

Lemma bind_ok {A B} (m : M A) (k : A -> M B) (w w1 : World) (a : A) :
  m w = (Ok a, w1) -> bind m k w = k a w1.
Proof. intros H. unfold bind. rewrite H. reflexivity. Qed.

Lemma no_put_since_query {A} (m : M A) (w : World) :
  emits (fun r => is_query r = true) m -> no_put_since w (snd (m w)).
Proof.
  intros Hm. destruct (Hm w) as (l & Hl & HF). exists l. split; [exact Hl|].
  eapply Forall_impl; [|exact HF]. apply query_is_no_put.
Qed.

Lemma no_put_since_trans (w w1 w2 : World) :
  no_put_since w w1 -> no_put_since w1 w2 -> no_put_since w w2.
Proof.
  intros (l1 & H1 & F1) (l2 & H2 & F2). exists (l1 ++ l2)%list.
  rewrite H2, H1, app_assoc. split; [reflexivity|]. apply Forall_app; auto.
Qed.

Lemma existsb_In (p : Z) (target : list Z) :
  existsb (Z.eqb p) target = true <-> In p target.
Proof.
  rewrite existsb_exists. split.
  - intros (x & Hx & E). apply Z.eqb_eq in E. subst. exact Hx.
  - intros H. exists p. split; [exact H|apply Z.eqb_refl].
Qed.

(** C5 (as amended).  The [enabled_ports] setter, for a target set of port
    numbers, with [m2] the enablement it reads before the update.  If 16995
    is in the target set and not enabled, the update is rejected with a
    [ValueError] and no put when 16994 is not in the target set, and also
    when TLS is reported disabled.  For every accepted update on a device
    that answers every call, the puts issued are, in this order, one for
    port 5900 if its membership differs between the target set and that
    enablement, and one for port 16994 if its membership differs: the put
    for 5900 carries [Is5900PortEnabled] of [IPS_KVMRedirectionSettingData],
    the put for 16994 [ListenerEnabled] of [AMT_RedirectionService], each set
    to the port's membership in the target set and addressed to the URI of
    the payload's first key.  There is no other put: none for port 16995,
    none for a port that is unchanged. *)
Theorem enabled_ports_setter_contract (target : list Z) (w w1 w2 : World)
    (m1 m2 : EnablementMap) :
  AMTKVM.enabled_ports w = (Ok m1, w1) ->
  AMTKVM.enabled_ports w1 = (Ok m2, w2) ->
  (In 16995 target -> py_mem (VInt 16995) (enabled m2) = false ->
   (~ In 16994 target ->
    exists msg,
      AMTKVM.set_enabled_ports (map VInt target) w = (Raise (ValueError msg), w2) /\
      no_put_since w w2) /\
   (forall tls w3,
      AMTKVM.tls_enabled w2 = (Ok tls, w3) -> truthy tls = false ->
      exists msg w',
        AMTKVM.set_enabled_ports (map VInt target) w = (Raise (ValueError msg), w') /\
        no_put_since w w')) /\
  (forall w',
     answered w ->
     AMTKVM.set_enabled_ports (map VInt target) w = (Ok tt, w') ->
     exists l,
       sent w' = (sent w ++ l)%list /\
       Forall2 port_put (changed_ports target (enabled m2)) (filter is_put l) /\
       count_puts l =
         ((if changed target (enabled m2) 5900 then 1 else 0) +
          (if changed target (enabled m2) 16994 then 1 else 0))%nat).
Proof.
  intros H1 H2.
  pose proof (enabled_ports_universe w m1 w1 H1) as Hu. cbn beta in Hu.
  assert (Hq1 : no_put_since w w1).
  { pose proof (no_put_since_query _ w emits_enabled_ports) as H.
    rewrite H1 in H. exact H. }
  assert (Hq2 : no_put_since w1 w2).
  { pose proof (no_put_since_query _ w1 emits_enabled_ports) as H.
    rewrite H2 in H. exact H. }
  pose proof (no_put_since_trans _ _ _ Hq1 Hq2) as Hq.
  assert (Hset : AMTKVM.set_enabled_ports (map VInt target) w =
                 (_ <- AMTKVM.validate_ports (map VInt target)
                         [VInt 5900; VInt 16994; VInt 16995] (enabled m2) ;;
                  AMTKVM.apply_ports
                    (map (fun port => (port, py_mem port (map VInt target)))
                       [VInt 5900; VInt 16994; VInt 16995]) (enabled m2)) w2).
  { unfold AMTKVM.set_enabled_ports.
    rewrite (bind_ok _ _ w w1 m1 H1), (bind_ok _ _ w1 w2 m2 H2), Hu.
    reflexivity. }
  split.
  - intros H95 Hoff.
    apply existsb_In in H95. rewrite <- py_mem_ints in H95.
    split.
    + intros H94.
      assert (H94' : py_mem (VInt 16994) (map VInt target) = false).
      { rewrite py_mem_ints. destruct (existsb _ target) eqn:E; [|reflexivity].
        apply existsb_In in E. contradiction. }
      rewrite Hset. unfold bind at 1, AMTKVM.validate_ports.
      unfold bind at 1, lift at 1. rewrite py_set_ints.
      unfold bind at 1, lift at 1. cbn [py_set forallb hashable andb].
      destruct (truthy (VList _)).
      * eexists. split; [reflexivity|exact Hq].
      * rewrite H95, Hoff, H94'. cbn [negb andb].
        eexists. split; [reflexivity|exact Hq].
    + intros tls w3 Htls Hfalse.
      rewrite Hset. unfold bind at 1, AMTKVM.validate_ports.
      unfold bind at 1, lift at 1. rewrite py_set_ints.
      unfold bind at 1, lift at 1. cbn [py_set forallb hashable andb].
      destruct (truthy (VList _)).
      * eexists _, _. split; [reflexivity|exact Hq].
      * rewrite H95, Hoff. cbn [negb andb].
        destruct (py_mem (VInt 16994) (map VInt target)); cbn [negb].
        -- unfold bind at 1. rewrite Htls, Hfalse. cbn [negb].
           eexists _, _. split; [reflexivity|].
           eapply no_put_since_trans; [exact Hq|].
           pose proof (no_put_since_query _ w2 emits_tls_enabled) as H.
           rewrite Htls in H. exact H.
        -- eexists _, _. split; [reflexivity|exact Hq].
  - intros w' Hw Hok. rewrite Hset in Hok.
    destruct (pa_no_put _ pe_enabled_ports w m1 w1 Hw H1)
      as (Hw1 & la & Hla & Hca).
    destruct (pa_no_put _ pe_enabled_ports w1 m2 w2 Hw1 H2)
      as (Hw2 & lb & Hlb & Hcb).
    destruct (pa_bind _ _ _ _
                (pa_no_put _ (pe_validate_ports (map VInt target)
                   [VInt 5900; VInt 16994; VInt 16995] (enabled m2)))
                (fun _ => pa_apply_ports (enabled m2)
                   (map (fun port => (port, py_mem port (map VInt target)))
                      [VInt 5900; VInt 16994; VInt 16995]))
                w2 tt w' Hw2 Hok) as (_ & lc & Hlc & l1 & l2 & Hsplit & -> & Hcc).
    cbn [app] in Hsplit.
    assert (Hputs : Forall2 port_put (changed_ports target (enabled m2))
                      (filter is_put (la ++ lb ++ lc))).
    { rewrite !filter_app, Hca, Hcb, Hsplit. cbn [app].
      cbn [map expected_port_puts] in Hcc. rewrite !py_mem_ints in Hcc.
      change (py_eq (VInt 5900) (VInt 5900)) with true in Hcc.
      change (py_eq (VInt 16994) (VInt 5900)) with false in Hcc.
      change (py_eq (VInt 16994) (VInt 16994)) with true in Hcc.
      change (py_eq (VInt 16995) (VInt 5900)) with false in Hcc.
      change (py_eq (VInt 16995) (VInt 16994)) with false in Hcc.
      cbv beta iota in Hcc. unfold changed_ports, changed.
      set (c1 := xorb (existsb (Z.eqb 5900) target) _) in *.
      set (c2 := xorb (existsb (Z.eqb 16994) target) _) in *.
      set (c3 := xorb (existsb (Z.eqb 16995) target) _) in *.
      destruct c1, c2, c3; exact Hcc. }
    exists (la ++ lb ++ lc)%list. split; [|split].
    + rewrite Hlc, Hlb, Hla, <- !app_assoc. reflexivity.
    + exact Hputs.
    + unfold count_puts. rewrite <- (Forall2_length Hputs).
      unfold changed_ports. rewrite length_app.
      destruct (changed target (enabled m2) 5900),
        (changed target (enabled m2) 16994); reflexivity.
Qed.

End PortsTheorem.

(** * Further properties of the code *)

Section PagerErrors.

Context {env : Environment}.

Lemma pull_loop_fault (uri context : string) (options : option Options)
    (resource_name : string) (fdoc : XmlDoc) (rest : list (option XmlDoc)) :
  (0 < RETRY_LIMIT)%nat ->
  is_fault fdoc = true ->
  forall (mid : list XmlDoc) (output : list Value) (fuel : nat) (w : World),
    script w = (map Some mid ++ Some fdoc :: rest)%list ->
    (length mid < fuel)%nat ->
    Forall (page_reports resource_name false) mid ->
    pull_loop fuel uri context options resource_name output w =
      (Raise (WSManFault fdoc),
       mkWorld rest
         (sent w ++ repeat (ReqPull (add_client_options options) VNone uri context)
                      (S (length mid)))%list
         (self_options w)).
Proof.
  intros Hpos Hf.
  induction mid as [|p mid IH]; intros output fuel w Hs Hfuel Hmid;
    (destruct fuel as [|fuel]; [lia|]); cbn [pull_loop]; unfold bind at 1;
    change (wsman_pull uri options VNone context false)
      with (transaction (ReqPull (add_client_options options) VNone uri context)
              false).
  - cbn in Hs. rewrite (transaction_delivered _ _ _ _ _ Hpos Hs), Hf.
    reflexivity.
  - cbn in Hs. rewrite (transaction_delivered _ _ _ _ _ Hpos Hs).
    inversion Hmid as [|? ? (Hp & ep & ip & Hrp & Hep) Hmid']; subst.
    rewrite Hp. cbn [negb andb]. unfold bind, lift. rewrite Hrp.
    cbn in Hep. rewrite Hep.
    rewrite (IH (output ++ [ip])%list fuel (after_call w _ _) eq_refl
               ltac:(cbn in Hfuel; lia) Hmid').
    cbn [after_call sent self_options length].
    rewrite <- !app_assoc. reflexivity.
Qed.

(** X1.  A fault delivered in answer to a pull ends the enumeration with
    [WSManFault] carrying that document: the pages collected before it are
    not returned, and no further pull is made. *)
Theorem enumerate_resource_fault_discards (resource_name : string)
    (wsman_filter : Value) (options : option Options) (w : World) (d0 : XmlDoc)
    (response context : Value) (mid : list XmlDoc) (fdoc : XmlDoc)
    (rest : list (option XmlDoc)) :
  (0 < RETRY_LIMIT)%nat ->
  script w = (Some d0 :: map Some mid ++ Some fdoc :: rest)%list ->
  is_fault d0 = false ->
  getitem (WryDict d0) "EnumerateResponse" = Ok response ->
  getitem response "EnumerationContext" = Ok context ->
  Forall (page_reports resource_name false) mid ->
  is_fault fdoc = true ->
  enumerate_resource resource_name wsman_filter options w =
    (Raise (WSManFault fdoc),
     mkWorld rest
       (sent w ++
        ReqEnumerate (add_client_options options) VNone (RESOURCE_URIs resource_name)
        :: repeat (ReqPull (add_client_options options) VNone
                     (RESOURCE_URIs resource_name) (py_str context))
                  (S (length mid)))%list
       (self_options w)).
Proof.
  intros Hpos Hs Hd0 Hresp Hctx Hmid Hf.
  unfold enumerate_resource. unfold bind at 1.
  change (wsman_enumerate (RESOURCE_URIs resource_name) options VNone false)
    with (transaction (ReqEnumerate (add_client_options options) VNone
                         (RESOURCE_URIs resource_name)) false).
  rewrite (transaction_delivered _ _ _ _ _ Hpos Hs). rewrite Hd0.
  cbn [negb andb]. unfold bind at 1, lift. rewrite Hresp.
  unfold bind at 1. rewrite Hctx. unfold bind.
  erewrite (pull_loop_fault _ _ _ _ fdoc rest Hpos Hf mid []).
  - cbn [after_call sent self_options]. rewrite <- app_assoc. reflexivity.
  - reflexivity.
  - cbn [after_call script]. rewrite length_app, length_map. cbn [length]. lia.
  - exact Hmid.
Qed.

(** X2.  When the answer to [enumerate] lacks [EnumerateResponse] or its
    [EnumerationContext], the lookup error is raised at once: the enumerate
    call is the only request, no pull is made. *)
Theorem enumerate_resource_without_context (resource_name : string)
    (wsman_filter : Value) (options : option Options) (w : World) (d0 : XmlDoc)
    (rest : list (option XmlDoc)) (e : Exn) :
  (0 < RETRY_LIMIT)%nat ->
  script w = Some d0 :: rest ->
  is_fault d0 = false ->
  (getitem (WryDict d0) "EnumerateResponse" = Raise e \/
   exists response,
     getitem (WryDict d0) "EnumerateResponse" = Ok response /\
     getitem response "EnumerationContext" = Raise e) ->
  enumerate_resource resource_name wsman_filter options w =
    (Raise e,
     after_call w
       (ReqEnumerate (add_client_options options) VNone (RESOURCE_URIs resource_name))
       rest).
Proof.
  intros Hpos Hs Hd0 Hmiss.
  unfold enumerate_resource. unfold bind at 1.
  change (wsman_enumerate (RESOURCE_URIs resource_name) options VNone false)
    with (transaction (ReqEnumerate (add_client_options options) VNone
                         (RESOURCE_URIs resource_name)) false).
  rewrite (transaction_delivered _ _ _ _ _ Hpos Hs). rewrite Hd0.
  cbn [negb andb]. unfold bind at 1, lift.
  destruct Hmiss as [Hresp|(response & Hresp & Hctx)]; rewrite Hresp.
  - reflexivity.
  - unfold bind at 1. rewrite Hctx. reflexivity.
Qed.

End PagerErrors.

Section PutPayload.

Context {env : Environment}.

(** X3.  An update put ([as_update]) merges into what the device holds: the
    payload of the put carries every field of [input_dict] with its new
    value, every other field of the resource as it was fetched, and every
    other top-level entry of the fetched document unchanged. *)
Theorem put_update_merges (self_name : option string) (resource_name k : string)
    (input_dict fields : list (string * Value)) (w : World) (dg dp : XmlDoc)
    (rest : list (option XmlDoc)) :
  (0 < RETRY_LIMIT)%nat ->
  String.eqb resource_name "" = false ->
  script w = Some dg :: Some dp :: rest ->
  is_fault dg = false ->
  is_fault dp = false ->
  getitem (WryDict dg) resource_name = Ok (VDict fields) ->
  first_key (WryDict dg) = Ok k ->
  NoDup (map fst input_dict) ->
  exists payload,
    DeviceCapability.put self_name (Some resource_name) input_dict false true w =
      (Ok tt,
       mkWorld rest
         (sent w ++
          [ReqGet (add_client_options (Some (self_options w)))
             (RESOURCE_URIs resource_name);
           ReqPut (add_client_options (Some (self_options w))) (RESOURCE_URIs k)
             payload])%list
         (self_options w)) /\
    (forall f v, In (f, v) input_dict ->
       get_path [resource_name; f] payload = Ok v) /\
    (forall f, ~ In f (map fst input_dict) ->
       get_path [resource_name; f] payload = getitem (VDict fields) f) /\
    (forall other, other <> resource_name ->
       getitem payload other = getitem (WryDict dg) other).
Proof.
  intros Hpos Hn Hs Hdg Hdp Hr Hk Hnd.
  eexists. split.
  { apply (put_update_run self_name resource_name k input_dict fields w dg dp
             rest); assumption. }
  split; [|split].
  - intros f v Hin. cbn [get_path getitem]. rewrite assoc_dict_set_same.
    cbn [obind getitem]. rewrite (assoc_dict_update_in f v input_dict fields Hnd Hin).
    reflexivity.
  - intros f Hnot. cbn [get_path getitem]. rewrite assoc_dict_set_same.
    cbn [obind getitem]. rewrite (assoc_dict_update_notin f input_dict fields Hnot).
    destruct (assoc f fields); reflexivity.
  - intros other Hne. unfold WryDict. cbn [getitem].
    rewrite assoc_dict_set_other by exact Hne. reflexivity.
Qed.

(** X4.  A replacing put ([as_update=False]) fetches nothing: its only request is
    the put of exactly [{resource_name: input_dict}]. *)
Theorem put_replace_sends_input (self_name : option string)
    (resource_name : string) (input_dict : list (string * Value)) (w : World)
    (dp : XmlDoc) (rest : list (option XmlDoc)) :
  (0 < RETRY_LIMIT)%nat ->
  String.eqb resource_name "" = false ->
  script w = Some dp :: rest ->
  is_fault dp = false ->
  DeviceCapability.put self_name (Some resource_name) input_dict false false w =
    (Ok tt,
     after_call w
       (ReqPut (add_client_options (Some (self_options w)))
          (RESOURCE_URIs resource_name)
          (VDict [(resource_name, VDict input_dict)])) rest).
Proof.
  intros Hpos Hn Hs Hdp.
  unfold DeviceCapability.put, DeviceCapability.pick_resource_name.
  rewrite Hn. cbn [negb]. unfold bind at 1. cbn [ret].
  unfold bind at 1. unfold bind at 1. cbn [read_options].
  unfold bind at 1. unfold put_resource. unfold bind at 1. unfold bind at 1.
  cbn [lift first_key ret]. unfold bind at 1.
  rewrite (wsman_put_run _ _ _ _ _ _ Hpos Hs Hdp). reflexivity.
Qed.

(** X5.  [put_resource]: a non-empty [uri] is the target whatever the mapping
    holds; without one the target is looked up under the mapping's first key;
    and an empty mapping without [uri] raises [IndexError] before anything is
    sent. *)
Theorem put_resource_target (indict : Value) (options : option Options)
    (silent : bool) (w : World) (d : XmlDoc) (rest : list (option XmlDoc)) :
  (0 < RETRY_LIMIT)%nat ->
  script w = Some d :: rest ->
  is_fault d = false ->
  (forall u, String.eqb u "" = false ->
     put_resource indict options (Some u) silent w =
       (Ok (WryDict d),
        after_call w (ReqPut (add_client_options options) u indict) rest)) /\
  (forall uri key, uri = None \/ uri = Some "" ->
     first_key indict = Ok key ->
     put_resource indict options uri silent w =
       (Ok (WryDict d),
        after_call w
          (ReqPut (add_client_options options) (RESOURCE_URIs key) indict) rest)) /\
  (forall uri, uri = None \/ uri = Some "" ->
     put_resource (VDict []) options uri silent w = (Raise IndexError, w)).
Proof.
  intros Hpos Hs Hd.
  assert (Hput : forall u,
            wsman_put u indict options silent w =
            (Ok d, after_call w (ReqPut (add_client_options options) u indict) rest)).
  { intros u.
    change (wsman_put u indict options silent)
      with (transaction (ReqPut (add_client_options options) u indict) silent).
    rewrite (transaction_delivered _ _ _ _ _ Hpos Hs), Hd, andb_false_r.
    reflexivity. }
  split; [|split].
  - intros u Hu. unfold put_resource. rewrite Hu. unfold bind at 1. cbn [ret].
    unfold bind at 1. rewrite Hput. reflexivity.
  - intros uri key Huri Hkey. unfold put_resource.
    destruct Huri as [->| ->]; cbn [String.eqb];
      unfold bind at 1; unfold bind at 1; unfold lift at 1; rewrite Hkey;
      cbn [ret]; unfold bind at 1; rewrite Hput; reflexivity.
  - intros uri [->| ->]; reflexivity.
Qed.

End PutPayload.

Section PowerControl.

Context {env : Environment}.

(** X6.  The power transitions never reach the device.  Every call of
    [request_power_state_change] -- so [turn_on], [turn_off] and [reset] --
    hands [invoke_method] the keyword [args_before], which it does not have:
    the call raises [TypeError] with nothing sent and nothing changed. *)
Theorem power_transitions_raise_type_error (w : World) :
  let e := TypeError "invoke_method() got an unexpected keyword argument" in
  (forall power_state,
     AMTPower.request_power_state_change power_state w = (Raise e, w)) /\
  AMTPower.turn_on w = (Raise e, w) /\
  AMTPower.turn_off w = (Raise e, w) /\
  AMTPower.reset w = (Raise e, w).
Proof.
  cbv zeta. split; [intros power_state; reflexivity|].
  split; [reflexivity|]. split; reflexivity.
Qed.

(** X7.  The [state] property indexes [AMT_POWER_STATE_MAP] with the
    [PowerState] the device reports: codes 0 to 17 select by position, codes
    -18 to -1 count from the end of the list, and every other code raises
    [IndexError]; the get of the resource is the only request. *)
Theorem power_state_decode (w : World) (d : XmlDoc)
    (rest : list (option XmlDoc)) (r : Value) (c : Z) :
  (0 < RETRY_LIMIT)%nat ->
  script w = Some d :: rest ->
  is_fault d = false ->
  getitem (WryDict d) "CIM_AssociatedPowerManagementService" = Ok r ->
  getitem r "PowerState" = Ok (VInt c) ->
  AMTPower.state w =
    ((if (-18 <=? c) && (c <? 18)
      then Ok (nth (Z.to_nat (c mod 18)) AMT_POWER_STATE_MAP VNone)
      else Raise IndexError),
     after_call w (ReqGet (add_client_options (Some (self_options w)))
                     (RESOURCE_URIs "CIM_AssociatedPowerManagementService")) rest).
Proof.
  intros Hpos Hs Hd Hr Hv. unfold AMTPower.state.
  unfold bind at 1.
  unfold DeviceCapability.get, DeviceCapability.pick_resource_name,
    AMTPower.resource_name.
  unfold bind at 1. cbn [ret]. unfold bind at 1. cbn [read_options].
  unfold bind at 1.
  rewrite (get_resource_run _ _ _ _ _ Hpos Hs Hd).
  cbn [String.eqb negb Ascii.eqb Bool.eqb]. unfold bind at 1, lift at 1.
  rewrite Hr. unfold lift at 1. rewrite Hv. cbn [as_index]. unfold lift.
  f_equal. unfold seq_index.
  change (Z.of_nat (length AMT_POWER_STATE_MAP)) with 18. cbv zeta.
  destruct (c <? 0) eqn:Hneg.
  - apply Z.ltb_lt in Hneg.
    destruct (-18 <=? c) eqn:Hlo.
    + apply Z.leb_le in Hlo.
      replace (c <? 18) with true by (symmetry; apply Z.ltb_lt; lia).
      replace ((0 <=? c + 18) && (c + 18 <? 18)) with true
        by (symmetry; apply andb_true_iff; split;
            [apply Z.leb_le | apply Z.ltb_lt]; lia).
      cbn [andb].
      replace (c mod 18) with (c + 18)
        by (apply (Z.mod_unique c 18 (-1)); lia).
      rewrite (nth_error_nth' AMT_POWER_STATE_MAP VNone)
        by (change (length AMT_POWER_STATE_MAP) with 18%nat; lia).
      reflexivity.
    + apply Z.leb_gt in Hlo.
      replace (0 <=? c + 18) with false by (symmetry; apply Z.leb_gt; lia).
      reflexivity.
  - apply Z.ltb_ge in Hneg.
    replace (-18 <=? c) with true by (symmetry; apply Z.leb_le; lia).
    replace (0 <=? c) with true by (symmetry; apply Z.leb_le; lia).
    cbn [andb]. destruct (c <? 18) eqn:Hhi; [|reflexivity].
    apply Z.ltb_lt in Hhi. rewrite Z.mod_small by lia.
    rewrite (nth_error_nth' AMT_POWER_STATE_MAP VNone)
      by (change (length AMT_POWER_STATE_MAP) with 18%nat; lia).
    reflexivity.
Qed.

End PowerControl.

Section DeviceHandle.

Context {env : Environment}.

(** X8.  [AMTDevice.get_resource] and [AMTDevice.put_resource] never reach
    the device.  The first passes [as_xmldoc] on to [common.get_resource],
    which has no such parameter; the second passes [uri] in the position of
    [options] and [options] again by keyword.  Every call of either raises
    [TypeError] with nothing sent. *)
Theorem device_resource_calls_type_error (w : World) :
  (forall resource_name as_xmldoc,
     AMTDevice.get_resource resource_name as_xmldoc w =
       (Raise (TypeError "get_resource() got an unexpected keyword argument"),
        w)) /\
  (forall data uri silent,
     AMTDevice.put_resource data uri silent w =
       (Raise (TypeError
                 "put_resource() got multiple values for keyword argument"),
        w)).
Proof. split; intros; reflexivity. Qed.

(** X9.  [AMTDevice.enumerate_resource] does not hand the device's options
    to the pager: every request it sends goes out with the options
    [add_client_options] supplies when none are given, and is a query. *)
Theorem device_enumerate_resource_default_options (resource_name : string) :
  emits (fun r => request_options r = add_client_options None /\
                  is_query r = true)
    (AMTDevice.enumerate_resource resource_name).
Proof.
  unfold AMTDevice.enumerate_resource, enumerate_resource. emits_step.
  - apply emits_transaction. split; reflexivity.
  - do 2 (emits_step; [emits_step|]).
    apply (emits_inspect _ (fun w0 => bind (pull_loop _ _ _ _ _ _) _)).
    intros w0. emits_step; [|emits_step].
    apply emits_pull_loop. split; reflexivity.
Qed.

End DeviceHandle.

Section NeverReturns.

Context {env : Environment}.

Lemma never_returns_raise {A} (e : Exn) : never_returns (@raise env A e).
Proof. intros w. reflexivity. Qed.

Lemma never_returns_bind_l {A B} (m : M A) (k : A -> M B) :
  never_returns m -> never_returns (bind m k).
Proof.
  intros Hm w. specialize (Hm w). unfold bind.
  destruct (m w) as [[a|e|] w']; cbn in *; congruence.
Qed.

Lemma never_returns_bind_r {A B} (m : M A) (k : A -> M B) :
  (forall a, never_returns (k a)) -> never_returns (bind m k).
Proof.
  intros Hk w. unfold bind.
  destruct (m w) as [[a|e|] w']; cbn; auto. apply Hk.
Qed.

End NeverReturns.

Section KVMSettings.

Context {env : Environment}.

(** X10.  The [enabled] property of [AMTKVM] reads [EnabledState] once and
    looks it up in [AMT_KVM_ENABLEMENT_MAP]: codes 2 and 6 (enabled but
    offline) give [True], code 3 gives [False], and every other integer code
    raises [KeyError]. *)
Theorem kvm_enabled_decode (w : World) (d : XmlDoc)
    (rest : list (option XmlDoc)) (r : Value) (c : Z) :
  (0 < RETRY_LIMIT)%nat ->
  script w = Some d :: rest ->
  is_fault d = false ->
  getitem (WryDict d) "CIM_KVMRedirectionSAP" = Ok r ->
  getitem r "EnabledState" = Ok (VInt c) ->
  AMTKVMSettings.enabled w =
    ((if (c =? 2) || (c =? 6) then Ok (VBool true)
      else if c =? 3 then Ok (VBool false)
      else Raise (KeyError "<key>")),
     after_call w (ReqGet (add_client_options (Some (self_options w)))
                     (RESOURCE_URIs "CIM_KVMRedirectionSAP")) rest).
Proof.
  intros Hpos Hs Hd Hr Hv. unfold AMTKVMSettings.enabled. unfold bind at 1.
  rewrite (get_setting_run None "CIM_KVMRedirectionSAP" "EnabledState" w d rest
             r (VInt c) Hpos eq_refl eq_refl Hs Hd Hr Hv).
  unfold bind, lift, int_dict_get, AMT_KVM_ENABLEMENT_MAP.
  cbn [hashable find fst snd py_eq].
  destruct (c =? 2); [reflexivity|].
  destruct (c =? 6); [reflexivity|].
  destruct (c =? 3); reflexivity.
Qed.

(** X11.  The [opt_in_timeout] setter and getter agree.  The setter merges
    its fields into the settings it fetched and puts them; on a device that
    then reports what was put, the getter returns the value that was set --
    or 0 when the value was falsy (opt-in switched off, the stored timeout
    left as it was) or was [True]. *)
Theorem opt_in_timeout_round_trip (value : Value) (w : World) (dg dp : XmlDoc)
    (rest : list (option XmlDoc)) (fields : list (string * Value)) (k : string) :
  (0 < RETRY_LIMIT)%nat ->
  script w = Some dg :: Some dp :: rest ->
  is_fault dg = false ->
  is_fault dp = false ->
  getitem (WryDict dg) "IPS_KVMRedirectionSettingData" = Ok (VDict fields) ->
  first_key (WryDict dg) = Ok k ->
  exists payload,
    AMTKVMSettings.set_opt_in_timeout value w =
      (Ok tt,
       mkWorld rest
         (sent w ++
          [ReqGet (add_client_options (Some (self_options w)))
             (RESOURCE_URIs "IPS_KVMRedirectionSettingData");
           ReqPut (add_client_options (Some (self_options w))) (RESOURCE_URIs k)
             payload])%list
         (self_options w)) /\
    (truthy value = false ->
       get_path ["IPS_KVMRedirectionSettingData"; "OptInPolicyTimeout"] payload =
       getitem (VDict fields) "OptInPolicyTimeout") /\
    forall (w' : World) (stored : XmlDoc) (rest' : list (option XmlDoc)),
      script w' = Some stored :: Some stored :: rest' ->
      is_fault stored = false ->
      WryDict stored = payload ->
      fst (AMTKVMSettings.opt_in_timeout w') =
        Ok (if truthy value
            then match value with
                 | VBool true => VInt 0
                 | _ => value
                 end
            else VInt 0).
Proof.
  intros Hpos Hs Hdg Hdp Hr Hk.
  unfold AMTKVMSettings.set_opt_in_timeout.
  destruct (truthy value) eqn:Htruthy; cbn [negb].
  - eexists. split.
    { apply (put_update_run None "IPS_KVMRedirectionSettingData" k _ fields w dg
               dp rest Hpos eq_refl Hs Hdg Hdp Hr Hk). }
    split; [discriminate|].
    intros w' stored rest' Hs' Hf Hstored.
    assert (Hres : getitem (WryDict stored) "IPS_KVMRedirectionSettingData" =
                   Ok (VDict (dict_update fields
                                [("OptInPolicy", VBool true);
                                 ("OptInPolicyTimeout", value)]))).
    { rewrite Hstored. cbn [getitem]. rewrite assoc_dict_set_same. reflexivity. }
    assert (Hpol : getitem (VDict (dict_update fields
                                [("OptInPolicy", VBool true);
                                 ("OptInPolicyTimeout", value)])) "OptInPolicy" =
                   Ok (VBool true)).
    { cbn [getitem].
      rewrite (assoc_dict_update_in "OptInPolicy" (VBool true)); [reflexivity| |].
      - repeat constructor; cbn; intuition discriminate.
      - left. reflexivity. }
    assert (Hto : getitem (VDict (dict_update fields
                                [("OptInPolicy", VBool true);
                                 ("OptInPolicyTimeout", value)]))
                    "OptInPolicyTimeout" = Ok value).
    { cbn [getitem].
      rewrite (assoc_dict_update_in "OptInPolicyTimeout" value); [reflexivity| |].
      - repeat constructor; cbn; intuition discriminate.
      - right. left. reflexivity. }
    unfold AMTKVMSettings.opt_in_timeout. unfold bind at 1.
    rewrite (get_setting_run None "IPS_KVMRedirectionSettingData" "OptInPolicy"
               w' stored _ _ _ Hpos eq_refl eq_refl Hs' Hf Hres Hpol).
    cbn [truthy negb]. unfold bind at 1.
    rewrite (get_setting_run None "IPS_KVMRedirectionSettingData"
               "OptInPolicyTimeout"
               (after_call w'
                  (ReqGet (add_client_options (Some (self_options w')))
                     (RESOURCE_URIs "IPS_KVMRedirectionSettingData"))
                  (Some stored :: rest'))
               stored rest' _ _ Hpos eq_refl eq_refl eq_refl Hf Hres Hto).
    destruct value as [|[|]| | | | |]; reflexivity.
  - eexists. split.
    { apply (put_update_run None "IPS_KVMRedirectionSettingData" k _ fields w dg
               dp rest Hpos eq_refl Hs Hdg Hdp Hr Hk). }
    split.
    { intros _. cbn [get_path getitem]. rewrite assoc_dict_set_same.
      cbn [obind getitem].
      rewrite (assoc_dict_update_notin "OptInPolicyTimeout");
        [|cbn; intuition discriminate].
      destruct (assoc "OptInPolicyTimeout" fields); reflexivity. }
    intros w' stored rest' Hs' Hf Hstored.
    assert (Hres : getitem (WryDict stored) "IPS_KVMRedirectionSettingData" =
                   Ok (VDict (dict_update fields [("OptInPolicy", VBool false)]))).
    { rewrite Hstored. cbn [getitem]. rewrite assoc_dict_set_same. reflexivity. }
    assert (Hpol : getitem (VDict (dict_update fields
                                [("OptInPolicy", VBool false)])) "OptInPolicy" =
                   Ok (VBool false)).
    { cbn [getitem].
      rewrite (assoc_dict_update_in "OptInPolicy" (VBool false)); [reflexivity| |].
      - repeat constructor; cbn; intuition discriminate.
      - left. reflexivity. }
    unfold AMTKVMSettings.opt_in_timeout. unfold bind at 1.
    rewrite (get_setting_run None "IPS_KVMRedirectionSettingData" "OptInPolicy"
               w' stored _ _ _ Hpos eq_refl eq_refl Hs' Hf Hres Hpol).
    reflexivity.
Qed.

(** X12.  The [password] setter stores nothing.  Its statement calls [put]
    without the settings (the dict stands outside the call), so after
    fetching the resource the update raises: the setter never returns, and
    everything it sends is a query -- no put. *)
Theorem set_password_stores_nothing (value : Value) :
  never_returns (AMTKVMSettings.set_password value) /\
  emits (fun r => is_query r = true) (AMTKVMSettings.set_password value).
Proof.
  unfold AMTKVMSettings.set_password. split.
  - do 4 (apply never_returns_bind_r; intros ?).
    destruct a2; apply never_returns_raise.
  - emits_step.
    { unfold DeviceCapability.pick_resource_name. cbn. apply emits_ret. }
    emits_step; [emits_step|]. emits_step; [apply emits_get_resource|].
    emits_step; [emits_step|]. destruct a2; apply emits_raise.
Qed.

End KVMSettings.

Section OptInConsent.

Context {env : Environment}.

(** X13.  The [required] setter and getter agree on the three consent
    levels.  For a level of [_consent_mapping] the setter puts the level's
    code under [OptInRequired] (0 for [None], 1 for 'KVM', 4294967295 for
    'All'), merged into the resource it fetched; on a device that then
    reports what was put, the getter selects the level that was set. *)
Theorem required_round_trip (value : Value) (key : Z) (buttons : RadioButtons)
    (w : World) (dg dp : XmlDoc) (rest : list (option XmlDoc))
    (fields : list (string * Value)) (k : string) :
  (0 < RETRY_LIMIT)%nat ->
  script w = Some dg :: Some dp :: rest ->
  is_fault dg = false ->
  is_fault dp = false ->
  getitem (WryDict dg) "IPS_OptInService" = Ok (VDict fields) ->
  first_key (WryDict dg) = Ok k ->
  In (key, value) AMTOptInConsent._consent_mapping ->
  exists payload,
    snd (AMTOptInConsent.set_required value buttons w) =
      mkWorld rest
        (sent w ++
         [ReqGet (add_client_options (Some (self_options w)))
            (RESOURCE_URIs "IPS_OptInService");
          ReqPut (add_client_options (Some (self_options w))) (RESOURCE_URIs k)
            payload])%list
        (self_options w) /\
    get_path ["IPS_OptInService"; "OptInRequired"] payload = Ok (VInt key) /\
    forall (w' : World) (stored : XmlDoc) (rest' : list (option XmlDoc))
           (buttons' : RadioButtons),
      script w' = Some stored :: rest' ->
      is_fault stored = false ->
      WryDict stored = payload ->
      py_mem value (choices buttons') = true ->
      exists selection,
        fst (AMTOptInConsent.required buttons' w') = Ok selection /\
        selected selection = value.
Proof.
  intros Hpos Hs Hdg Hdp Hr Hk Hin.
  assert (Hkey : AMTOptInConsent.consent_key value
                   AMTOptInConsent._consent_mapping = Ok key /\
                 int_dict_get AMTOptInConsent._consent_mapping (VInt key) =
                   Ok value).
  { destruct Hin as [E|[E|[E|[]]]]; inversion E; subst; split; reflexivity. }
  destruct Hkey as [Hkey Hback].
  assert (Hstored : assoc "OptInRequired"
                      (dict_update fields [("OptInRequired", VInt key)]) =
                    Some (VInt key)).
  { apply assoc_dict_update_in; [|left; reflexivity].
    repeat constructor. cbn. tauto. }
  eexists. split; [|split].
  - unfold AMTOptInConsent.set_required. unfold bind at 1, lift at 1.
    rewrite Hkey. unfold bind at 1.
    rewrite (put_update_run None "IPS_OptInService" k _ fields w dg dp rest Hpos
               eq_refl Hs Hdg Hdp Hr Hk).
    unfold lift. reflexivity.
  - cbn [get_path getitem]. rewrite assoc_dict_set_same. cbn [obind getitem].
    rewrite Hstored. reflexivity.
  - intros w' stored rest' buttons' Hs' Hf Hpayload Hmem.
    unfold AMTOptInConsent.required. unfold bind at 1.
    rewrite (get_setting_run None "IPS_OptInService" "OptInRequired" w' stored
               rest' (VDict (dict_update fields [("OptInRequired", VInt key)]))
               (VInt key) Hpos eq_refl eq_refl Hs' Hf).
    + unfold bind at 1, lift at 1. rewrite Hback. unfold lift, select.
      rewrite Hmem. cbn. eexists. split; reflexivity.
    + rewrite Hpayload. cbn [getitem]. rewrite assoc_dict_set_same. reflexivity.
    + cbn [getitem]. rewrite Hstored. reflexivity.
Qed.

(** X14.  The [required] setter refuses a value that equals none of the
    levels [None], 'KVM', 'All': it raises [KeyError] before anything is sent
    and leaves the selection alone. *)
Theorem set_required_unknown_level (value : Value) (buttons : RadioButtons)
    (w : World) :
  py_mem value [VNone; VStr "KVM"; VStr "All"] = false ->
  AMTOptInConsent.set_required value buttons w = (Raise (KeyError ""), w).
Proof.
  intros Hmem. unfold py_mem in Hmem. cbn [existsb] in Hmem.
  apply orb_false_elim in Hmem. destruct Hmem as [H0 Hmem].
  apply orb_false_elim in Hmem. destruct Hmem as [H1 Hmem].
  apply orb_false_elim in Hmem. destruct Hmem as [H2 _].
  unfold AMTOptInConsent.set_required, AMTOptInConsent._consent_mapping.
  unfold bind, lift. cbn [AMTOptInConsent.consent_key].
  rewrite H0, H1, H2. reflexivity.
Qed.

End OptInConsent.

Section BootMedia.

Context {env : Environment}.

Lemma split_on_nonempty (sep : ascii) (s : string) : split_on sep s <> [].
Proof.
  destruct s as [|c s]; cbn; [discriminate|].
  destruct (Ascii.eqb c sep); [discriminate|].
  destruct (split_on sep s); discriminate.
Qed.

Lemma split_on_app (sep : ascii) (a b : string) :
  split_on sep (a ++ String sep b) = (split_on sep a ++ split_on sep b)%list.
Proof.
  induction a as [|c a IH]; cbn.
  - rewrite Ascii.eqb_refl. reflexivity.
  - destruct (Ascii.eqb c sep); [rewrite IH; reflexivity|].
    rewrite IH. pose proof (split_on_nonempty sep a) as Hne.
    destruct (split_on sep a); [contradiction|]. reflexivity.
Qed.

Lemma split_on_colon_free (s : string) :
  colon_free s = true -> split_on ":"%char s = [s].
Proof.
  unfold colon_free. induction s as [|c s IH]; cbn; [reflexivity|].
  intros H. apply andb_true_iff in H. destruct H as [Hc Hs].
  apply negb_true_iff in Hc. rewrite Hc, (IH Hs). reflexivity.
Qed.

Lemma append_assoc_colon (pre rest : string) :
  (pre ++ ":") ++ rest = pre ++ String ":"%char rest.
Proof.
  induction pre as [|c pre IH]; cbn; [reflexivity|]. rewrite IH. reflexivity.
Qed.

Lemma seq_index_last_but_one (l : list Value) (x y : Value) :
  seq_index (l ++ [x; y]) (-2) = Ok x.
Proof.
  unfold seq_index. rewrite length_app. cbn [length]. cbv zeta.
  set (n := length l).
  change (-2 <? 0) with true. cbv iota.
  replace (-2 + Z.of_nat (n + 2)) with (Z.of_nat n) by lia.
  replace ((0 <=? Z.of_nat n) && (Z.of_nat n <? Z.of_nat (n + 2))) with true
    by (symmetry; apply andb_true_iff; split;
        [apply Z.leb_le | apply Z.ltb_lt]; lia).
  rewrite Nat2Z.id, nth_error_app2 by (fold n; lia).
  fold n. rewrite Nat.sub_diag. reflexivity.
Qed.

Lemma medium_label_labelled (source : Value) (label : string) :
  labelled source label -> medium_label source = Ok (VStr label).
Proof.
  intros (head & last & Hsbs & Hlabel & Hlast & Hhead).
  unfold medium_label. rewrite Hsbs. cbn [obind].
  change (label ++ ":" ++ last) with (label ++ String ":"%char last).
  destruct Hhead as [->|(pre & ->)].
  - cbn [append]. rewrite split_on_app, (split_on_colon_free _ Hlabel),
      (split_on_colon_free _ Hlast).
    reflexivity.
  - rewrite append_assoc_colon, !split_on_app,
      (split_on_colon_free _ Hlabel), (split_on_colon_free _ Hlast).
    rewrite map_app. cbn [map app]. apply seq_index_last_but_one.
Qed.

(** Every string holds no colon or has a last segment but one. *)
Lemma last_but_one_segment (s : string) :
  colon_free s = true \/
  exists head label last,
    s = head ++ label ++ ":" ++ last /\
    colon_free label = true /\ colon_free last = true /\
    (head = "" \/ exists pre, head = pre ++ ":").
Proof.
  induction s as [|c s IH]; [left; reflexivity|].
  destruct (Ascii.eqb c ":"%char) eqn:Hc.
  - apply Ascii.eqb_eq in Hc. subst c. right.
    destruct IH as [Hfree|(head & label & last & -> & Hl & Hla & Hh)].
    + exists "", "", s. repeat split; auto.
    + destruct Hh as [->|(pre & ->)].
      * exists ":", label, last. repeat split; auto.
        right. exists "". reflexivity.
      * exists (String ":"%char pre ++ ":"), label, last. repeat split; auto.
        right. exists (String ":"%char pre). reflexivity.
  - destruct IH as [Hfree|(head & label & last & -> & Hl & Hla & Hh)].
    + left. unfold colon_free in *. cbn [list_ascii_of_string forallb].
      rewrite Hc, Hfree. reflexivity.
    + right. destruct Hh as [->|(pre & ->)].
      * exists "", (String c label), last. repeat split; auto.
        unfold colon_free in *. cbn [list_ascii_of_string forallb].
        rewrite Hc, Hl. reflexivity.
      * exists (String c pre ++ ":"), label, last. repeat split; auto.
        right. exists (String c pre). reflexivity.
Qed.

Lemma medium_label_one_segment (source : Value) (s : string) :
  getitem source "StructuredBootString" = Ok (VStr s) ->
  colon_free s = true ->
  medium_label source = Raise IndexError.
Proof.
  intros Hsbs Hfree. unfold medium_label. rewrite Hsbs. cbn [obind].
  rewrite (split_on_colon_free _ Hfree). reflexivity.
Qed.

Lemma medium_labels_labelled (sources : list Value) (labels : list string) :
  Forall2 labelled sources labels ->
  medium_labels sources = Ok (map VStr labels).
Proof.
  induction 1 as [|source label sources labels Hl _ IH]; [reflexivity|].
  cbn [medium_labels map]. rewrite (medium_label_labelled _ _ Hl). cbn [obind].
  rewrite IH. reflexivity.
Qed.

(** X15.  [supported_media] returns, for each boot source the enumeration
    delivered and in the same order, the last colon-separated segment but
    one of its [StructuredBootString] ('Hard-Disk' for 'CIM:Hard-Disk:1',
    'PXE' for 'PXE:1'); a source whose string holds no colon makes the whole
    read fail with [IndexError].  Every source with a string under
    [StructuredBootString] is of one of these two kinds. *)
Theorem supported_media_labels (w w' : World) (returned : Value)
    (sources : list Value) :
  DeviceCapability.walk "CIM_BootSourceSetting" VNone w = (Ok returned, w') ->
  getitem returned "CIM_BootSourceSetting" = Ok (VList sources) ->
  (forall labels,
     Forall2 labelled sources labels ->
     AMTBootMedia.supported_media w = (Ok (VList (map VStr labels)), w')) /\
  (forall before labels source s after,
     sources = (before ++ source :: after)%list ->
     Forall2 labelled before labels ->
     getitem source "StructuredBootString" = Ok (VStr s) ->
     colon_free s = true ->
     AMTBootMedia.supported_media w = (Raise IndexError, w')) /\
  (forall source s,
     getitem source "StructuredBootString" = Ok (VStr s) ->
     colon_free s = true \/ exists label, labelled source label).
Proof.
  intros Hwalk Hsources.
  assert (Hrun : AMTBootMedia.supported_media w =
                 (labels <- lift (medium_labels sources) ;; ret (VList labels)) w').
  { unfold AMTBootMedia.supported_media.
    rewrite (bind_ok _ _ w w' returned Hwalk).
    unfold bind at 1, lift at 1. rewrite Hsources.
    unfold bind at 1, lift at 1. reflexivity. }
  split; [|split].
  - intros labels Hl. rewrite Hrun. unfold bind, lift.
    rewrite (medium_labels_labelled _ _ Hl). reflexivity.
  - intros before labels source s after -> Hl Hsbs Hfree. rewrite Hrun.
    unfold bind, lift.
    replace (medium_labels (before ++ source :: after)) with
      (@Raise (list Value) IndexError); [reflexivity|].
    clear Hrun Hsources Hwalk. induction Hl as [|b l before labels Hb _ IH].
    + cbn [app medium_labels].
      rewrite (medium_label_one_segment _ _ Hsbs Hfree). reflexivity.
    + cbn [app medium_labels]. rewrite (medium_label_labelled _ _ Hb).
      cbn [obind]. rewrite <- IH. reflexivity.
  - intros source s Hsbs.
    destruct (last_but_one_segment s)
      as [Hfree|(head & label & last & -> & Hl & Hla & Hh)];
      [left; exact Hfree|].
    right. exists label, head, last. auto.
Qed.

End BootMedia.

Section BootMedium.

Context {env : Environment}.

Lemma query_invokes_only (method : string) (r : Request) :
  is_query r = true -> invokes_only method r.
Proof. destruct r; cbn; intros H; try discriminate; exact I. Qed.

Lemma emits_invoke_method_named (service_name resource_name affected_item
    method_name : string) (options : Options) (selector : Value)
    (method_args : list (string * Value)) (anonymous : bool) :
  emits (invokes_only method_name)
    (invoke_method service_name resource_name affected_item method_name options
       selector method_args anonymous).
Proof.
  unfold invoke_method. apply emits_bind.
  - intros w. exists []. destruct (copy_client_options options).
    cbn. rewrite app_nil_r. auto.
  - intros o. emits_step; [apply emits_lift|]. destruct a as [d o'].
    emits_step; [apply emits_lift|]. emits_step.
    + apply emits_transaction. reflexivity.
    + emits_step; [apply emits_lift|]. emits_step; [apply emits_lift|].
      emits_step; [apply emits_raise | apply emits_ret].
Qed.

Lemma set_boot_config_role_never_returns (enabled_state : Value) :
  never_returns (AMTBoot._set_boot_config_role enabled_state).
Proof.
  unfold AMTBoot._set_boot_config_role.
  do 3 (apply never_returns_bind_r; intros ?).
  destruct (negb _); [apply never_returns_raise|].
  apply never_returns_bind_r; intros options.
  destruct a; try apply never_returns_raise;
    apply never_returns_bind_l; intros w; reflexivity.
Qed.

Lemma set_boot_config_role_queries (enabled_state : Value) :
  emits (fun r => is_query r = true)
    (AMTBoot._set_boot_config_role enabled_state).
Proof.
  unfold AMTBoot._set_boot_config_role.
  emits_step; [repeat emits_step|].
  emits_step; [apply emits_capability_get|].
  emits_step; [emits_step|]. emits_step; [emits_step|].
  emits_step; [emits_step|].
  destruct a; try apply emits_raise;
    (apply (emits_bind_post _ (fun _ => False));
     [ intros w u w' H; discriminate H | apply emits_lift | intros u [] ]).
Qed.

(** X16.  The [medium] setter never returns, and never puts.  After
    [ChangeBootOrder] it calls [_set_boot_config_role], which reads the boot
    service and then hands [invoke_method] the keyword [args_after], which it
    does not have: [_set_boot_config_role] never returns and sends queries
    only, so [SetBootConfigRole] is never invoked.  Everything the setter
    sends is a query or a [ChangeBootOrder] invocation; in particular the
    boot settings it zeroed are never put. *)
Theorem set_medium_never_returns (value : string) :
  never_returns (AMTBoot.set_medium value) /\
  emits (invokes_only "ChangeBootOrder") (AMTBoot.set_medium value) /\
  forall enabled_state,
    never_returns (AMTBoot._set_boot_config_role enabled_state) /\
    emits (fun r => is_query r = true)
      (AMTBoot._set_boot_config_role enabled_state).
Proof.
  split; [|split].
  - unfold AMTBoot.set_medium.
    do 10 (apply never_returns_bind_r; intros ?).
    apply never_returns_bind_l, set_boot_config_role_never_returns.
  - unfold AMTBoot.set_medium.
    emits_step.
    { eapply emits_weaken; [apply query_invokes_only|apply emits_capability_get]. }
    emits_step; [emits_step|]. emits_step.
    { eapply emits_weaken; [apply query_invokes_only|apply emits_capability_walk]. }
    do 3 (emits_step; [emits_step|]). emits_step.
    { eapply emits_weaken; [apply query_invokes_only|apply emits_capability_get]. }
    emits_step; [emits_step|]. emits_step; [emits_step|].
    emits_step; [apply emits_invoke_method_named|].
    emits_step; [|emits_step].
    eapply emits_weaken; [apply query_invokes_only|apply set_boot_config_role_queries].
  - intros enabled_state. split.
    + apply set_boot_config_role_never_returns.
    + apply set_boot_config_role_queries.
Qed.

End BootMedium.

Section PortValidation.

Context {env : Environment}.

(** X17.  The [enabled_ports] setter rejects a target that names a port
    outside 5900, 16994 and 16995: after the two reads of the current
    enablement it raises [ValueError], and nothing it sent is a put. *)
Theorem enabled_ports_setter_invalid_port (values0 : list Value) (v : Value)
    (w w1 w2 : World) (m1 m2 : EnablementMap) :
  AMTKVM.enabled_ports w = (Ok m1, w1) ->
  AMTKVM.enabled_ports w1 = (Ok m2, w2) ->
  forallb hashable values0 = true ->
  In v values0 ->
  py_mem v [VInt 5900; VInt 16994; VInt 16995] = false ->
  AMTKVM.set_enabled_ports values0 w =
    (Raise (ValueError "Invalid port(s) specified"), w2) /\
  no_put_since w w2.
Proof.
  intros H1 H2 Hhash Hin Hout.
  pose proof (enabled_ports_universe w m1 w1 H1) as Hu. cbn beta in Hu.
  split.
  - unfold AMTKVM.set_enabled_ports.
    rewrite (bind_ok _ _ w w1 m1 H1), (bind_ok _ _ w1 w2 m2 H2), Hu.
    unfold AMTKVM.validate_ports. unfold bind at 1. unfold bind at 1.
    unfold lift at 1, py_set at 1. rewrite Hhash.
    unfold bind at 1. unfold lift at 1.
    change (py_set [VInt 5900; VInt 16994; VInt 16995])
      with (@Ok (list Value) [VInt 5900; VInt 16994; VInt 16995]).
    cbv beta iota zeta.
    assert (Hinv : In v (filter (fun v0 => negb (py_mem v0
                                   [VInt 5900; VInt 16994; VInt 16995])) values0)).
    { apply filter_In. split; [exact Hin|]. rewrite Hout. reflexivity. }
    destruct (filter _ values0) as [|x invalid]; [destruct Hinv|].
    reflexivity.
  - assert (Hq1 : no_put_since w w1).
    { pose proof (no_put_since_query _ w emits_enabled_ports) as H.
      rewrite H1 in H. exact H. }
    assert (Hq2 : no_put_since w1 w2).
    { pose proof (no_put_since_query _ w1 emits_enabled_ports) as H.
      rewrite H2 in H. exact H. }
    exact (no_put_since_trans _ _ _ Hq1 Hq2).
Qed.

End PortValidation.

Section OptionsCopy.

Context {env : Environment}.

Lemma reapply_settings_fixed (o : Options) (attrs : list string) :
  (forall attr, In attr attrs -> prefix "get_" attr = true ->
     exists v, call_getter attr o = Ok v /\
               call_setter (str_replace "get_" "set_" attr) v o = Ok o) ->
  reapply_settings attrs o = (Ok tt, o).
Proof.
  induction attrs as [|attr attrs IH]; intros H; [reflexivity|].
  cbn [reapply_settings].
  destruct (prefix "get_" attr) eqn:Hp.
  - destruct (H attr (or_introl eq_refl) Hp) as (v & Hg & Hset).
    rewrite Hg, Hset. apply IH. intros a Ha. apply H. right. exact Ha.
  - apply IH. intros a Ha. apply H. right. exact Ha.
Qed.

(** X18.  On an options object whose setters store what its getters read
    -- each [set_x(get_x())] succeeds and changes nothing -- the patched
    [__copy__] succeeds, leaves the object as it was, and returns the newly
    constructed [ClientOptions()]: none of the object's settings reach the
    copy. *)
Theorem copy_client_options_keeps_self (o : Options) :
  (forall attr, In attr (dir o) -> prefix "get_" attr = true ->
     exists v, call_getter attr o = Ok v /\
               call_setter (str_replace "get_" "set_" attr) v o = Ok o) ->
  copy_client_options o = (Ok ClientOptions, o).
Proof.
  intros H. unfold copy_client_options.
  rewrite (reapply_settings_fixed o (dir o) H). reflexivity.
Qed.

End OptionsCopy.

Section InvokePayload.

Context {env : Environment}.

Lemma seq_index_in_range (l : list Value) (i : Z) (x : Value) :
  0 <= i -> nth_error l (Z.to_nat i) = Some x -> seq_index l i = Ok x.
Proof.
  intros Hi Hnth. unfold seq_index. cbv zeta.
  replace (i <? 0) with false by (symmetry; apply Z.ltb_ge; exact Hi).
  assert (Hlt : (Z.to_nat i < length l)%nat)
    by (apply nth_error_Some; congruence).
  replace ((0 <=? i) && (i <? Z.of_nat (length l))) with true
    by (symmetry; apply andb_true_iff; split;
        [apply Z.leb_le | apply Z.ltb_lt]; lia).
  rewrite Hnth. reflexivity.
Qed.

(** X19.  [invoke_method] with a selector of the wrong length sends nothing:
    a selector of one component raises [IndexError] (there is no
    [selector[1]]), one of more than three components fails the assertion on
    its length; in both cases after the options were copied and before any
    request. *)
Theorem invoke_method_selector_arity (service_name resource_name affected_item
    method_name : string) (options new_options self' : Options)
    (l : list Value) (method_args : list (string * Value)) (anonymous : bool)
    (w : World) :
  copy_client_options options = (Ok new_options, self') ->
  (length l = 1 \/ 3 < length l)%nat ->
  invoke_method service_name resource_name affected_item method_name options
    (VTuple l) method_args anonymous w =
    (Raise (if (length l =? 1)%nat then IndexError else AssertionError),
     mkWorld (script w) (sent w) self').
Proof.
  intros Hcopy Hlen. unfold invoke_method. unfold bind at 1. rewrite Hcopy.
  unfold bind at 1, lift at 1.
  destruct l as [|a [|b [|c [|d l]]]]; cbn [length] in Hlen; try lia.
  - reflexivity.
  - unfold add_selector_set. cbn [truthy].
    cbn [getindex].
    rewrite (seq_index_in_range (a :: b :: c :: d :: l) 1 b ltac:(lia) eq_refl).
    rewrite (seq_index_in_range (a :: b :: c :: d :: l) 0 a ltac:(lia) eq_refl).
    cbn [obind].
    destruct (setitem_path_resolved
                [method_name ++ "_INPUT"; affected_item; "ReferenceParameters"]
                "SelectorSet"
                (VDict (OrderedDict
                   [("Selector",
                     VDict (OrderedDict [("#text", b); ("@Name", a)]));
                    ("@xmlns", VStr (SCHEMAS "wsman"))]))
                _ (method_input_resolves (RESOURCE_URIs service_name)
                     resource_name affected_item method_name
                     (if anonymous then "addressing_anonymous" else "addressing")))
      as (e' & Hset & _).
    rewrite Hset. cbn [obind py_len length].
    replace (2 <? Z.of_nat (S (S (S (S (length l)))))) with true
      by (symmetry; apply Z.ltb_lt; lia).
    replace (Z.of_nat (S (S (S (S (length l))))) =? 3) with false
      by (symmetry; apply Z.eqb_neq; lia).
    reflexivity.
Qed.

Lemma setitem_path_stored (p k k' : string) (x d d' : Value) :
  setitem_path [p] k x d = Ok d' ->
  get_path [p; k'] d' = if String.eqb k' k then Ok x else get_path [p; k'] d.
Proof.
  cbn [setitem_path get_path]. destruct d as [| | | | | |e0]; cbn [getitem];
    try discriminate.
  destruct (assoc p e0) as [sub|] eqn:Hp; [|discriminate]. cbn [obind].
  destruct sub as [| | | | | |e]; try discriminate. cbn [obind].
  intros H. inversion H; subst. cbn [getitem]. rewrite assoc_dict_set_same.
  cbn [obind getitem].
  destruct (String.eqb k' k) eqn:E.
  - apply String.eqb_eq in E. subst. rewrite assoc_dict_set_same. reflexivity.
  - rewrite assoc_dict_set_other
      by (intros ->; rewrite String.eqb_refl in E; discriminate).
    rewrite ?Hp. reflexivity.
Qed.

Lemma add_method_args_keeps (service_uri method_name : string)
    (method_args : list (string * Value)) (n : string) :
  ~ In n (map fst method_args) ->
  forall data data',
    add_method_args service_uri method_name method_args data = Ok data' ->
    get_path [method_name ++ "_INPUT"; n] data' =
    get_path [method_name ++ "_INPUT"; n] data.
Proof.
  induction method_args as [|[a x] method_args IH]; intros Hnot data data' H.
  - inversion H. reflexivity.
  - cbn [add_method_args] in H.
    destruct (setitem_path _ a _ data) as [d1|e|] eqn:Hset; try discriminate.
    cbn [obind] in H. cbn in Hnot.
    rewrite (IH ltac:(tauto) d1 data' H).
    rewrite (setitem_path_stored _ _ n _ _ _ Hset).
    destruct (String.eqb n a) eqn:E; [|reflexivity].
    apply String.eqb_eq in E. subst. tauto.
Qed.

Lemma add_method_args_stored (service_uri method_name : string)
    (method_args : list (string * Value)) :
  NoDup (map fst method_args) ->
  forall data data',
    add_method_args service_uri method_name method_args data = Ok data' ->
    forall n v,
      In (n, v) method_args ->
      get_path [method_name ++ "_INPUT"; n; "#text"] data' = Ok v.
Proof.
  induction method_args as [|[a x] method_args IH]; intros Hnd data data' H n v Hin;
    [destruct Hin|].
  cbn [add_method_args] in H.
  destruct (setitem_path _ a _ data) as [d1|e|] eqn:Hset; try discriminate.
  cbn [obind] in H. cbn in Hnd. inversion Hnd as [|? ? Hnotin Hnd']; subst.
  destruct Hin as [E|Hin].
  - inversion E; subst.
    change [method_name ++ "_INPUT"; n; "#text"]
      with (app [String.append method_name "_INPUT"; n] ["#text"]).
    rewrite get_path_app.
    rewrite (add_method_args_keeps _ _ _ n Hnotin d1 data' H).
    rewrite (setitem_path_stored _ _ n _ _ _ Hset), String.eqb_refl.
    reflexivity.
  - exact (IH Hnd' d1 data' H n v Hin).
Qed.

(** X20.  The request [invoke_method] sends carries every method argument:
    for arguments with distinct names, the payload holds each argument's
    value under [<method>_INPUT/<name>/#text], whatever the selector. *)
Theorem invoke_method_args_in_payload (service_name resource_name affected_item
    method_name : string) (options new_options self' : Options)
    (selector : Value) (method_args : list (string * Value)) (anonymous : bool)
    (w : World) :
  (0 < RETRY_LIMIT)%nat ->
  copy_client_options options = (Ok new_options, self') ->
  selector_shape selector ->
  NoDup (map fst method_args) ->
  exists data l,
    sent (snd (invoke_method service_name resource_name affected_item method_name
                 options selector method_args anonymous w)) =
      (sent w ++
       ReqInvoke (add_client_options (Some (outgoing_options selector new_options)))
         (RESOURCE_URIs service_name) method_name data :: l)%list /\
    forall n v,
      In (n, v) method_args ->
      get_path [method_name ++ "_INPUT"; n; "#text"] data = Ok v.
Proof.
  intros Hpos Hcopy Hshape Hnd.
  destruct (invoke_method_sends service_name resource_name affected_item
              method_name options new_options self' selector method_args
              anonymous w Hpos Hcopy Hshape)
    as (data0 & data & l & _ & Hargs & Hsent).
  exists data, l. split; [exact Hsent|].
  exact (add_method_args_stored _ _ _ Hnd data0 data Hargs).
Qed.

End InvokePayload.

Section RedirectionFeatures.

Context {env : Environment}.

(** X21.  The [enabled_features] setter and getter agree on the four valid
    feature lists.  For [], ['SoL'], ['IDER'] and ['SoL', 'IDER'] the setter
    puts the matching [EnabledState] (32768, 32770, 32769, 32771), merged
    into the resource it fetched; on a device that then reports what was put,
    the getter returns the map of 'SoL' and 'IDER' with exactly those
    features enabled, after one get. *)
Theorem redirection_features_round_trip (features : list Value) (code : Z)
    (w : World) (dg dp : XmlDoc) (rest : list (option XmlDoc))
    (fields : list (string * Value)) (k : string) :
  In (features, code)
     [([], 32768); ([VStr "SoL"], 32770); ([VStr "IDER"], 32769);
      ([VStr "SoL"; VStr "IDER"], 32771)] ->
  (0 < RETRY_LIMIT)%nat ->
  script w = Some dg :: Some dp :: rest ->
  is_fault dg = false ->
  is_fault dp = false ->
  getitem (WryDict dg) "AMT_RedirectionService" = Ok (VDict fields) ->
  first_key (WryDict dg) = Ok k ->
  exists payload,
    AMTRedirection.set_enabled_features features w =
      (Ok tt,
       mkWorld rest
         (sent w ++
          [ReqGet (add_client_options (Some (self_options w)))
             (RESOURCE_URIs "AMT_RedirectionService");
           ReqPut (add_client_options (Some (self_options w))) (RESOURCE_URIs k)
             payload])%list
         (self_options w)) /\
    get_path ["AMT_RedirectionService"; "EnabledState"] payload = Ok (VInt code) /\
    forall (w' : World) (stored : XmlDoc) (rest' : list (option XmlDoc)),
      script w' = Some stored :: rest' ->
      is_fault stored = false ->
      WryDict stored = payload ->
      AMTRedirection.enabled_features w' =
        (Ok (mkEnablementMap [VStr "SoL"; VStr "IDER"] features),
         after_call w'
           (ReqGet (add_client_options (Some (self_options w')))
              (RESOURCE_URIs "AMT_RedirectionService")) rest').
Proof.
  intros Hin Hpos Hs Hdg Hdp Hr Hk.
  destruct (features_round_trip features code w dg dp rest fields k Hin Hpos Hs
              Hdg Hdp Hr Hk) as [Hset Hdec].
  assert (Hstored : assoc "EnabledState"
                      (dict_update fields [("EnabledState", VInt code)]) =
                    Some (VInt code)).
  { apply assoc_dict_update_in; [|left; reflexivity].
    repeat constructor. cbn. tauto. }
  eexists. split; [exact Hset|]. split.
  - cbn [get_path getitem]. rewrite assoc_dict_set_same. cbn [obind getitem].
    rewrite Hstored. reflexivity.
  - intros w' stored rest' Hs' Hf Hpayload.
    unfold AMTRedirection.enabled_features. unfold bind at 1.
    rewrite (get_setting_run None "AMT_RedirectionService" "EnabledState" w'
               stored rest'
               (VDict (dict_update fields [("EnabledState", VInt code)]))
               (VInt code) Hpos eq_refl eq_refl Hs' Hf).
    + unfold lift. rewrite Hdec. reflexivity.
    + rewrite Hpayload. cbn [getitem]. rewrite assoc_dict_set_same. reflexivity.
    + cbn [getitem]. rewrite Hstored. reflexivity.
Qed.

(** X22.  Below 32768 the [enabled_features] getter has no feature set to
    return: for an [EnabledState] from 0 to 11 (the generic states of
    [_state_mapping]) it raises [LookupError], for every other integer below
    32768 [KeyError], after the one get. *)
Theorem enabled_features_below_range (w : World) (d : XmlDoc)
    (rest : list (option XmlDoc)) (r : Value) (z : Z) :
  (0 < RETRY_LIMIT)%nat ->
  script w = Some d :: rest ->
  is_fault d = false ->
  getitem (WryDict d) "AMT_RedirectionService" = Ok r ->
  getitem r "EnabledState" = Ok (VInt z) ->
  z < 32768 ->
  AMTRedirection.enabled_features w =
    (Raise (if (0 <=? z) && (z <=? 11)
            then LookupError "Unknown state discovered"
            else KeyError "Unknown state discovered"),
     after_call w (ReqGet (add_client_options (Some (self_options w)))
                     (RESOURCE_URIs "AMT_RedirectionService")) rest).
Proof.
  intros Hpos Hs Hd Hr Hv Hz.
  unfold AMTRedirection.enabled_features. unfold bind at 1.
  rewrite (get_setting_run None "AMT_RedirectionService" "EnabledState" w d rest
             r (VInt z) Hpos eq_refl eq_refl Hs Hd Hr Hv).
  unfold lift. rewrite (enabled_features_low_codes z Hz).
  destruct ((0 <=? z) && (z <=? 11)); reflexivity.
Qed.

End RedirectionFeatures.

Section PortsRead.

Context {env : Environment}.

Lemma enabled_ports_combinations :
  returns (fun m => In (enabled m)
             [ []; [VInt 5900]; [VInt 16994]; [VInt 5900; VInt 16994];
               [VInt 16994; VInt 16995];
               [VInt 5900; VInt 16994; VInt 16995] ])
    AMTKVM.enabled_ports.
Proof.
  pose (U := [VInt 5900; VInt 16994; VInt 16995]).
  unfold AMTKVM.enabled_ports.
  eapply returns_bind; [apply returns_any|]. intros is5900 _.
  eapply (returns_bind (fun m => m = mkEnablementMap U [] \/
                                 m = mkEnablementMap U [VInt 5900])).
  { destruct (truthy is5900).
    - intros w a w' H. unfold lift in H. inversion H. right. reflexivity.
    - apply returns_ret. left. reflexivity. }
  intros ports Hp.
  eapply returns_bind; [apply returns_any|]. intros listener _.
  destruct (truthy listener).
  2:{ apply returns_ret. destruct Hp as [-> | ->]; cbn; auto. }
  eapply (returns_bind (fun m => m = mkEnablementMap U [VInt 16994] \/
                                 m = mkEnablementMap U [VInt 5900; VInt 16994])).
  { intros w a w' H. unfold lift in H.
    destruct Hp as [-> | ->]; inversion H; [left|right]; reflexivity. }
  intros ports2 Hp2.
  eapply returns_bind; [apply returns_any|]. intros tls _.
  destruct (truthy tls).
  - intros w a w' H. unfold lift in H.
    destruct Hp2 as [-> | ->]; inversion H; cbn; auto 10.
  - apply returns_ret. destruct Hp2 as [-> | ->]; cbn; auto 10.
Qed.

(** X23.  What a read of [enabled_ports] can return: the map over the three
    ports 5900, 16994 and 16995 with one of six enablements -- port 16995 is
    never reported without port 16994 -- and the read sends queries only. *)
Theorem enabled_ports_read (w w' : World) (m : EnablementMap) :
  AMTKVM.enabled_ports w = (Ok m, w') ->
  values m = [VInt 5900; VInt 16994; VInt 16995] /\
  In (enabled m)
     [ []; [VInt 5900]; [VInt 16994]; [VInt 5900; VInt 16994];
       [VInt 16994; VInt 16995]; [VInt 5900; VInt 16994; VInt 16995] ] /\
  no_put_since w w'.
Proof.
  intros H. split; [|split].
  - exact (enabled_ports_universe w m w' H).
  - exact (enabled_ports_combinations w m w' H).
  - pose proof (no_put_since_query _ w emits_enabled_ports) as Hq.
    rewrite H in Hq. exact Hq.
Qed.

End PortsRead.

Section KVMSwitch.

Context {env : Environment}.

(** X24.  The [enabled] setter of [AMTKVM] cannot switch KVM on or off: for
    [True] and [False] it calls [request_state_change], whose call of
    [invoke_method] cannot bind its arguments, and every other value is
    refused; so every assignment raises [TypeError], with nothing sent. *)
Theorem kvm_set_enabled_type_error (value : Value) (w : World) :
  exists msg,
    AMTKVMSettings.set_enabled value w = (Raise (TypeError msg), w).
Proof.
  destruct value as [|[|]| | | | |]; eexists; reflexivity.
Qed.

(** X25.  [default_screen] written is [default_screen] read: the setter puts
    the value merged into the settings it fetched, and on a device that then
    reports what was put the getter returns the value, after one get. *)
Theorem default_screen_round_trip (value : Value) (w : World) (dg dp : XmlDoc)
    (rest : list (option XmlDoc)) (fields : list (string * Value)) (k : string) :
  (0 < RETRY_LIMIT)%nat ->
  script w = Some dg :: Some dp :: rest ->
  is_fault dg = false ->
  is_fault dp = false ->
  getitem (WryDict dg) "IPS_KVMRedirectionSettingData" = Ok (VDict fields) ->
  first_key (WryDict dg) = Ok k ->
  exists payload,
    AMTKVMSettings.set_default_screen value w =
      (Ok tt,
       mkWorld rest
         (sent w ++
          [ReqGet (add_client_options (Some (self_options w)))
             (RESOURCE_URIs "IPS_KVMRedirectionSettingData");
           ReqPut (add_client_options (Some (self_options w))) (RESOURCE_URIs k)
             payload])%list
         (self_options w)) /\
    forall (w' : World) (stored : XmlDoc) (rest' : list (option XmlDoc)),
      script w' = Some stored :: rest' ->
      is_fault stored = false ->
      WryDict stored = payload ->
      AMTKVMSettings.default_screen w' =
        (Ok value,
         after_call w'
           (ReqGet (add_client_options (Some (self_options w')))
              (RESOURCE_URIs "IPS_KVMRedirectionSettingData")) rest').
Proof.
  intros Hpos Hs Hdg Hdp Hr Hk.
  eexists. split.
  { apply (put_update_run None "IPS_KVMRedirectionSettingData" k _ fields w dg
             dp rest Hpos eq_refl Hs Hdg Hdp Hr Hk). }
  intros w' stored rest' Hs' Hf Hpayload.
  unfold AMTKVMSettings.default_screen.
  apply (get_setting_run None "IPS_KVMRedirectionSettingData" "DefaultScreen" w'
           stored rest' (VDict (dict_update fields [("DefaultScreen", value)]))
           value Hpos eq_refl eq_refl Hs' Hf).
  - rewrite Hpayload. cbn [getitem]. rewrite assoc_dict_set_same. reflexivity.
  - cbn [getitem].
    rewrite (assoc_dict_update_in "DefaultScreen" value); [reflexivity| |].
    + repeat constructor. cbn. tauto.
    + left. reflexivity.
Qed.

End KVMSwitch.

Section OptInState.

Context {env : Environment}.

(** X26.  An opt-in code lifetime that the setter accepts is the lifetime
    the getter reads: for an integer from 60 to 900, [code_ttl] is put merged
    into the fetched resource, and on a device that then reports what was
    put, the getter returns it after one get. *)
Theorem code_ttl_round_trip (z : Z) (w : World) (dg dp : XmlDoc)
    (rest : list (option XmlDoc)) (fields : list (string * Value)) (k : string) :
  (0 < RETRY_LIMIT)%nat ->
  script w = Some dg :: Some dp :: rest ->
  is_fault dg = false ->
  is_fault dp = false ->
  getitem (WryDict dg) "IPS_OptInService" = Ok (VDict fields) ->
  first_key (WryDict dg) = Ok k ->
  60 <= z <= 900 ->
  exists payload,
    AMTOptIn.set_code_ttl (VInt z) w =
      (Ok tt,
       mkWorld rest
         (sent w ++
          [ReqGet (add_client_options (Some (self_options w)))
             (RESOURCE_URIs "IPS_OptInService");
           ReqPut (add_client_options (Some (self_options w))) (RESOURCE_URIs k)
             payload])%list
         (self_options w)) /\
    forall (w' : World) (stored : XmlDoc) (rest' : list (option XmlDoc)),
      script w' = Some stored :: rest' ->
      is_fault stored = false ->
      WryDict stored = payload ->
      AMTOptInConsent.code_ttl w' =
        (Ok (VInt z),
         after_call w'
           (ReqGet (add_client_options (Some (self_options w')))
              (RESOURCE_URIs "IPS_OptInService")) rest').
Proof.
  intros Hpos Hs Hdg Hdp Hr Hk Hz.
  eexists. split.
  { unfold AMTOptIn.set_code_ttl.
    replace (60 <=? z) with true by (symmetry; apply Z.leb_le; lia).
    replace (z <=? 900) with true by (symmetry; apply Z.leb_le; lia).
    cbn [andb].
    apply (put_update_run None "IPS_OptInService" k _ fields w dg dp rest Hpos
             eq_refl Hs Hdg Hdp Hr Hk). }
  intros w' stored rest' Hs' Hf Hpayload.
  unfold AMTOptInConsent.code_ttl.
  apply (get_setting_run None "IPS_OptInService" "OptInCodeTimeout" w' stored
           rest' (VDict (dict_update fields [("OptInCodeTimeout", VInt z)]))
           (VInt z) Hpos eq_refl eq_refl Hs' Hf).
  - rewrite Hpayload. cbn [getitem]. rewrite assoc_dict_set_same. reflexivity.
  - cbn [getitem].
    rewrite (assoc_dict_update_in "OptInCodeTimeout" (VInt z)); [reflexivity| |].
    + repeat constructor. cbn. tauto.
    + left. reflexivity.
Qed.

(** X27.  The [state] property of [AMTOptIn] names the opt-in state the
    device reports for the codes 0 to 4, and raises [KeyError] for every
    other integer code, after the one get. *)
Theorem opt_in_state_decode (w : World) (d : XmlDoc)
    (rest : list (option XmlDoc)) (r : Value) (c : Z) :
  (0 < RETRY_LIMIT)%nat ->
  script w = Some d :: rest ->
  is_fault d = false ->
  getitem (WryDict d) "IPS_OptInService" = Ok r ->
  getitem r "OptInState" = Ok (VInt c) ->
  AMTOptInConsent.state w =
    ((if (0 <=? c) && (c <=? 4)
      then Ok (nth (Z.to_nat c)
                 [VStr "Not started"; VStr "Requested"; VStr "Displayed";
                  VStr "Received"; VStr "In Session"] VNone)
      else Raise (KeyError "<key>")),
     after_call w (ReqGet (add_client_options (Some (self_options w)))
                     (RESOURCE_URIs "IPS_OptInService")) rest).
Proof.
  intros Hpos Hs Hd Hr Hv. unfold AMTOptInConsent.state. unfold bind at 1.
  rewrite (get_setting_run None "IPS_OptInService" "OptInState" w d rest r
             (VInt c) Hpos eq_refl eq_refl Hs Hd Hr Hv).
  unfold lift. f_equal. unfold int_dict_get. cbn [hashable find fst snd py_eq].
  destruct (c =? 0) eqn:E0; [apply Z.eqb_eq in E0; subst; reflexivity|].
  destruct (c =? 1) eqn:E1; [apply Z.eqb_eq in E1; subst; reflexivity|].
  destruct (c =? 2) eqn:E2; [apply Z.eqb_eq in E2; subst; reflexivity|].
  destruct (c =? 3) eqn:E3; [apply Z.eqb_eq in E3; subst; reflexivity|].
  destruct (c =? 4) eqn:E4; [apply Z.eqb_eq in E4; subst; reflexivity|].
  apply Z.eqb_neq in E0, E1, E2, E3, E4.
  replace ((0 <=? c) && (c <=? 4)) with false; [reflexivity|].
  symmetry. apply andb_false_iff.
  destruct (Z.leb_spec 0 c); [right; apply Z.leb_gt; lia | left; reflexivity].
Qed.

End OptInState.

Section WalkFilter.

Context {env : Environment}.

(** X28.  A walk's filter is never sent.  [enumerate_resource] takes
    [wsman_filter] but passes none to [wsman_enumerate] or [wsman_pull]:
    whatever filter [walk] is given, every request it sends is a query that
    carries no filter, and goes out with the capability's options. *)
Theorem walk_drops_filter (resource_name : string) (wsman_filter : Value)
    (w : World) :
  exists l,
    sent (snd (DeviceCapability.walk resource_name wsman_filter w)) =
      (sent w ++ l)%list /\
    Forall (fun r => is_query r = true /\ request_filter r = VNone /\
                     request_options r =
                       add_client_options (Some (self_options w))) l.
Proof.
  unfold DeviceCapability.walk. unfold bind at 1. cbn [read_options].
  assert (H : emits (fun r => is_query r = true /\ request_filter r = VNone /\
                              request_options r =
                                add_client_options (Some (self_options w)))
                (enumerate_resource resource_name wsman_filter
                   (Some (self_options w)))).
  { unfold enumerate_resource. emits_step.
    - apply emits_transaction. repeat split.
    - do 2 (emits_step; [emits_step|]).
      apply (emits_inspect _ (fun w0 => bind (pull_loop _ _ _ _ _ _) _)).
      intros w0. emits_step; [|emits_step].
      apply emits_pull_loop. repeat split. }
  exact (H w).
Qed.

End WalkFilter.

(** ** Instances of the theorems, and inputs where a claim fails *)

Lemma sample_retry_limit : (0 < @RETRY_LIMIT sample_env)%nat.
Proof. cbn. repeat constructor. Defined.

(** C1 at a device that delivers a fault document to [wsman_get], at once
    or after one attempt without answer. *)
Lemma transaction_layer_validation_witness :
  fst (wsman_get (env := sample_env) "uri" None false
         (sample_world [None; Some fault_doc])) = Raise (WSManFault fault_doc)
  /\ fst (wsman_get (env := sample_env) "uri" None true
            (sample_world [Some fault_doc])) = Ok fault_doc.
Proof.
  pose proof (transaction_layer_validation (env := sample_env) "uri" "method"
                "ctx" VNone VNone None (wsman_get "uri" None)
                (or_introl eq_refl)) as H.
  split.
  - exact (proj1 (proj2 (H (sample_world [None; Some fault_doc]) false)
                    1%nat fault_doc [] ltac:(cbn; lia) eq_refl)
             eq_refl eq_refl).
  - exact (proj1 (proj2 (proj2 (H (sample_world [Some fault_doc]) true)
                           0%nat fault_doc [] ltac:(cbn; lia) eq_refl))
             eq_refl).
Defined.

(** C2 at an enumeration of two pages of one instance each. *)
Lemma enumerate_resource_pages_witness :
  fst (enumerate_resource (env := sample_env) "AMT_TLSSettingData" VNone None
         tls_pages_world) =
    Ok (VDict [("AMT_TLSSettingData",
                VList [VDict [("Enabled", VBool true)];
                       VDict [("Enabled", VBool false)]])]).
Proof.
  refine (f_equal fst
            (proj1 (enumerate_resource_pages (env := sample_env)
                      "AMT_TLSSettingData" VNone None tls_pages_world
                      (enumerate_doc "ctx-1")
                      (VDict [("EnumerationContext", VStr "ctx-1")])
                      (VStr "ctx-1")
                      [pull_doc "AMT_TLSSettingData"
                         (VDict [("Enabled", VBool true)]) false]
                      (pull_doc "AMT_TLSSettingData"
                         (VDict [("Enabled", VBool false)]) true)
                      [] sample_retry_limit eq_refl eq_refl eq_refl eq_refl
                      _ _))).
  - constructor; [|constructor]. split; [reflexivity|].
    exists (VBool false), (VDict [("Enabled", VBool true)]).
    split; reflexivity.
  - split; [reflexivity|].
    exists VNone, (VDict [("Enabled", VBool false)]). split; reflexivity.
Defined.

(** C2 as stated fails on a page that carries two instances: the pager
    returns one entry, the page's sequence, where the concatenation of the
    pages' items has two. *)
Lemma enumerate_resource_not_concatenation :
  let pages := [pull_doc "AMT_TLSSettingData"
                  (VList [VDict [("Enabled", VBool true)];
                          VDict [("Enabled", VBool false)]]) true] in
  fst (enumerate_resource (env := sample_env) "AMT_TLSSettingData" VNone None
         two_instance_page_world) =
    Ok (VDict [("AMT_TLSSettingData",
                VList [VList [VDict [("Enabled", VBool true)];
                              VDict [("Enabled", VBool false)]]])])
  /\ flat_map (fun p => instances (page_item "AMT_TLSSettingData" p)) pages =
       [VDict [("Enabled", VBool true)]; VDict [("Enabled", VBool false)]]
  /\ [VList [VDict [("Enabled", VBool true)]; VDict [("Enabled", VBool false)]]]
       <> flat_map (fun p => instances (page_item "AMT_TLSSettingData" p)) pages.
Proof.
  cbv zeta. split; [vm_compute; reflexivity|]. split; [reflexivity|].
  vm_compute. discriminate.
Qed.

(** C3 at a [ChangeBootOrder] the device answers, after one attempt without
    answer, with return value 2. *)
Lemma invoke_method_return_value_witness :
  fst (invoke_method (env := sample_env) "CIM_BootConfigSetting"
         "CIM_BootSourceSetting" "Source" "ChangeBootOrder" caller_options
         (VTuple [VStr "InstanceID"; VStr "source-1"; VStr "config-0"]) [] false
         (sample_world [None; Some (invoke_doc "ChangeBootOrder" (VInt 2))])) =
    Raise (NonZeroReturn (VInt 2)).
Proof.
  refine (invoke_method_return_value (env := sample_env) "CIM_BootConfigSetting"
            "CIM_BootSourceSetting" "Source" "ChangeBootOrder" caller_options
            (mkSimpleOptions 0 0 []) caller_options
            (VTuple [VStr "InstanceID"; VStr "source-1"; VStr "config-0"]) []
            false
            (sample_world [None; Some (invoke_doc "ChangeBootOrder" (VInt 2))])
            (invoke_doc "ChangeBootOrder" (VInt 2)) [] 1%nat
            (VDict [("ReturnValue", VInt 2)]) (VInt 2)
            ltac:(cbn; lia) eq_refl _ eq_refl eq_refl eq_refl eq_refl).
  right. right. exists (VStr "InstanceID"), (VStr "source-1"), (VStr "config-0").
  reflexivity.
Defined.

(** C4 at a device that reports power state 2, 'on'. *)
Lemma toggle_issues_no_transition_witness :
  fst (AMTPower.toggle (env := sample_env)
         (sample_world
            [Some (resource_doc "CIM_AssociatedPowerManagementService"
                     [("PowerState", VInt 2)])])) =
    Raise (NameError "SomeError").
Proof.
  exact (f_equal fst
           (toggle_issues_no_transition (env := sample_env) 2
              (StateMap (VStr "on") VNone)
              (sample_world
                 [Some (resource_doc "CIM_AssociatedPowerManagementService"
                          [("PowerState", VInt 2)])])
              (resource_doc "CIM_AssociatedPowerManagementService"
                 [("PowerState", VInt 2)])
              [] (VDict [("PowerState", VInt 2)])
              sample_retry_limit eq_refl eq_refl eq_refl eq_refl eq_refl)).
Defined.

(** C5 at three devices: the target {16995} alone and the target
    {16994, 16995} with TLS off are rejected without a put; the target
    {5900, 16994} on a device with nothing enabled is accepted with two
    puts, the first switching port 5900 on and the second port 16994. *)
Lemma enabled_ports_setter_contract_witness :
  (exists msg,
     fst (AMTKVM.set_enabled_ports (env := sample_env) [VInt 16995]
            kvm_tls_off_world) = Raise (ValueError msg)) /\
  (exists msg,
     fst (AMTKVM.set_enabled_ports (env := sample_env) [VInt 16994; VInt 16995]
            kvm_tls_off_world) = Raise (ValueError msg)) /\
  (exists l,
     sent (snd (AMTKVM.set_enabled_ports (env := sample_env)
                  [VInt 5900; VInt 16994] kvm_off_world)) =
       (sent kvm_off_world ++ l)%list /\
     Forall2 port_put [(5900, true); (16994, true)] (filter is_put l) /\
     count_puts l = 2%nat).
Proof.
  pose (off := mkEnablementMap [VInt 5900; VInt 16994; VInt 16995] []).
  split; [|split].
  - pose (w1 := snd (AMTKVM.enabled_ports (env := sample_env) kvm_tls_off_world)).
    pose (w2 := snd (AMTKVM.enabled_ports (env := sample_env) w1)).
    destruct (proj1 (proj1 (enabled_ports_setter_contract (env := sample_env)
                              [16995] kvm_tls_off_world w1 w2 off off
                              ltac:(vm_compute; reflexivity)
                              ltac:(vm_compute; reflexivity))
                       (or_introl eq_refl) eq_refl)
                ltac:(cbn; intros [H|[]]; discriminate H))
      as (msg & H & _).
    exists msg. exact (f_equal fst H).
  - pose (w1 := snd (AMTKVM.enabled_ports (env := sample_env) kvm_tls_off_world)).
    pose (w2 := snd (AMTKVM.enabled_ports (env := sample_env) w1)).
    pose (w3 := snd (AMTKVM.tls_enabled (env := sample_env) w2)).
    destruct (proj2 (proj1 (enabled_ports_setter_contract (env := sample_env)
                              [16994; 16995] kvm_tls_off_world w1 w2 off off
                              ltac:(vm_compute; reflexivity)
                              ltac:(vm_compute; reflexivity))
                       (or_intror (or_introl eq_refl)) eq_refl)
                (VBool false) w3 ltac:(vm_compute; reflexivity) eq_refl)
      as (msg & w' & H & _).
    exists msg. exact (f_equal fst H).
  - pose (w1 := snd (AMTKVM.enabled_ports (env := sample_env) kvm_off_world)).
    pose (w2 := snd (AMTKVM.enabled_ports (env := sample_env) w1)).
    refine (proj2 (enabled_ports_setter_contract (env := sample_env)
                     [5900; 16994] kvm_off_world w1 w2 off off
                     ltac:(vm_compute; reflexivity)
                     ltac:(vm_compute; reflexivity))
              (snd (AMTKVM.set_enabled_ports (env := sample_env)
                      [VInt 5900; VInt 16994] kvm_off_world))
              _ ltac:(vm_compute; reflexivity)).
    unfold answered. vm_compute. repeat constructor; discriminate.
Defined.

(** C5 as stated fails twice.  On a device with 16994 and 16995 enabled the
    target {16994} is accepted; the symmetric difference with the enablement
    is {16995}, and no put at all is issued.  On a device with nothing
    enabled the target {5900} is accepted with one put, the sixth request,
    and the two requests after it are reads of the device again. *)
Lemma enabled_ports_setter_puts_differ :
  (fst (AMTKVM.set_enabled_ports (env := sample_env) [VInt 16994] kvm_tls_world)
     = Ok tt /\
   fst (AMTKVM.enabled_ports (env := sample_env) kvm_tls_world) =
     Ok (mkEnablementMap [VInt 5900; VInt 16994; VInt 16995]
           [VInt 16994; VInt 16995]) /\
   filter (changed [16994] [VInt 16994; VInt 16995]) [5900; 16994; 16995] =
     [16995] /\
   count_puts (sent (snd (AMTKVM.set_enabled_ports (env := sample_env)
                            [VInt 16994] kvm_tls_world))) = 0%nat) /\
  (fst (AMTKVM.set_enabled_ports (env := sample_env) [VInt 5900] kvm_off_world)
     = Ok tt /\
   map (fun r => (is_put r, is_query r))
     (skipn 5 (sent (snd (AMTKVM.set_enabled_ports (env := sample_env)
                            [VInt 5900] kvm_off_world)))) =
     [(true, false); (false, true); (false, true)]).
Proof. vm_compute. repeat split; reflexivity. Qed.

(** C6 at the feature list ['SoL', 'KVM']. *)
Lemma enabled_features_accepts_foreign_feature_witness :
  fst (AMTRedirection.set_enabled_features (env := sample_env)
         [VStr "SoL"; VStr "KVM"]
         (sample_world [Some (redirection_doc false);
                        Some (redirection_doc false)])) = Ok tt.
Proof.
  exact (f_equal fst
           (enabled_features_accepts_foreign_feature (env := sample_env)
              (VStr "KVM")
              (sample_world [Some (redirection_doc false);
                             Some (redirection_doc false)])
              (redirection_doc false) (redirection_doc false) []
              [("ListenerEnabled", VBool false); ("EnabledState", VInt 32768)]
              "AMT_RedirectionService"
              sample_retry_limit eq_refl eq_refl eq_refl eq_refl eq_refl
              eq_refl eq_refl)).
Defined.

(** C7 at the code 32772. *)
Lemma enabled_features_unknown_high_code_witness :
  fst (AMTRedirection.enabled_features (env := sample_env)
         (sample_world
            [Some (resource_doc "AMT_RedirectionService"
                     [("EnabledState", VInt 32772)])])) =
    Ok (mkEnablementMap [VStr "SoL"; VStr "IDER"] []).
Proof.
  exact (f_equal fst
           (enabled_features_unknown_high_code (env := sample_env) 32772
              (sample_world
                 [Some (resource_doc "AMT_RedirectionService"
                          [("EnabledState", VInt 32772)])])
              (resource_doc "AMT_RedirectionService"
                 [("EnabledState", VInt 32772)])
              [] (VDict [("EnabledState", VInt 32772)])
              sample_retry_limit eq_refl eq_refl eq_refl eq_refl eq_refl)).
Defined.

(** C8 at 59, 901, 60 and 900. *)
Lemma code_ttl_bounds_witness :
  let w := sample_world [Some opt_in_doc; Some opt_in_doc] in
  fst (AMTOptIn.set_code_ttl (env := sample_env) (VInt 59) w) =
    Raise (TypeError "TTL (in seconds) must be an integer between 60 and 900.") /\
  fst (AMTOptIn.set_code_ttl (env := sample_env) (VInt 901) w) =
    Raise (TypeError "TTL (in seconds) must be an integer between 60 and 900.") /\
  fst (AMTOptIn.set_code_ttl (env := sample_env) (VInt 60) w) = Ok tt /\
  fst (AMTOptIn.set_code_ttl (env := sample_env) (VInt 900) w) = Ok tt.
Proof.
  intros w.
  assert (Hbad : forall v, (v < 60 \/ 900 < v) ->
                 forall z, VInt v = VInt z -> z < 60 \/ 900 < z).
  { intros v Hv z E. inversion E; subst. exact Hv. }
  assert (Hgood : forall v, 60 <= v <= 900 ->
            fst (AMTOptIn.set_code_ttl (env := sample_env) (VInt v) w) = Ok tt).
  { intros v Hv.
    exact (f_equal fst
             (proj2 (code_ttl_bounds (env := sample_env) (VInt v) w
                       sample_retry_limit)
                v opt_in_doc opt_in_doc []
                [("OptInCodeTimeout", VInt 120); ("OptInRequired", VInt 1)]
                "IPS_OptInService" eq_refl Hv eq_refl eq_refl eq_refl eq_refl
                eq_refl)). }
  split; [|split; [|split]].
  - exact (f_equal fst
             (proj1 (code_ttl_bounds (env := sample_env) (VInt 59) w
                       sample_retry_limit) (Hbad 59 ltac:(lia)))).
  - exact (f_equal fst
             (proj1 (code_ttl_bounds (env := sample_env) (VInt 901) w
                       sample_retry_limit) (Hbad 901 ltac:(lia)))).
  - apply Hgood. lia.
  - apply Hgood. lia.
Defined.

(** C9 at a device with a CD/DVD and a hard-disk source: the medium
    "Floppy" is in neither structured string; "Hard" is in the second. *)
Lemma medium_lookup_witness :
  fst (AMTBoot.set_medium (env := sample_env) "Floppy" boot_world) =
    Raise (LookupError "This medium is not supported by the device") /\
  exists data l0 l,
    Forall (fun r => is_invoke r = false) l0 /\
    get_path ["ChangeBootOrder_INPUT"; "Source"; "ReferenceParameters";
              "SelectorSet"; "Selector"; "#text"] data =
      Ok (VStr "Intel(r) AMT: Force Hard-drive Boot") /\
    sent (snd (AMTBoot.set_medium (env := sample_env) "Hard" boot_world)) =
      (l0 ++
       @ReqInvoke sample_env
         (mkSimpleOptions 0 0
            [(VStr "InstanceID", VStr "Intel(r) AMT: Boot Configuration 0")])
         "http://schemas.example/CIM_BootConfigSetting" "ChangeBootOrder" data
       :: l)%list.
Proof.
  pose (cd := boot_source "Intel(r) AMT: Force CD/DVD Boot" "CIM:CD/DVD:1").
  pose (hd := boot_source "Intel(r) AMT: Force Hard-drive Boot" "CIM:Hard-Disk:1").
  pose (settings := VDict [("UseSOL", VBool true); ("BIOSPause", VBool false)]).
  pose (zeroed := VDict [("UseSOL", VBool false); ("BIOSPause", VBool false)]).
  pose (returned := VDict [("CIM_BootSourceSetting", VList [cd; hd])]).
  pose (w1 := snd (DeviceCapability.get (env := sample_env) None
                     (Some "AMT_BootSettingData") None boot_world)).
  pose (w2 := snd (DeviceCapability.walk (env := sample_env)
                     "CIM_BootSourceSetting" VNone w1)).
  pose (w3 := snd (DeviceCapability.get (env := sample_env) None
                     (Some "CIM_BootConfigSetting") None w2)).
  assert (Hcd : forall value, contains value "CIM:CD/DVD:1" = false ->
                lacks_medium value cd).
  { intros value H. exists "CIM:CD/DVD:1". split; [reflexivity|exact H]. }
  assert (Hhd : forall value, contains value "CIM:Hard-Disk:1" = false ->
                lacks_medium value hd).
  { intros value H. exists "CIM:Hard-Disk:1". split; [reflexivity|exact H]. }
  split.
  - destruct (medium_lookup (env := sample_env) "Floppy" boot_world w1 w2
                settings zeroed returned [cd; hd] sample_retry_limit
                ltac:(vm_compute; reflexivity) eq_refl
                ltac:(vm_compute; reflexivity) eq_refl) as [Hnone _].
    destruct (Hnone (Forall_cons _ (Hcd "Floppy" eq_refl)
                       (Forall_cons _ (Hhd "Floppy" eq_refl) (Forall_nil _))))
      as [H _].
    exact (f_equal fst H).
  - destruct (medium_lookup (env := sample_env) "Hard" boot_world w1 w2
                settings zeroed returned [cd; hd] sample_retry_limit
                ltac:(vm_compute; reflexivity) eq_refl
                ltac:(vm_compute; reflexivity) eq_refl) as [_ Hfound].
    destruct (Hfound [cd] hd [] "CIM:Hard-Disk:1"
                (VStr "Intel(r) AMT: Force Hard-drive Boot")
                (VDict [("InstanceID", VStr "Intel(r) AMT: Boot Configuration 0")])
                (VStr "Intel(r) AMT: Boot Configuration 0") w3
                (mkSimpleOptions 0 0 []) caller_options
                eq_refl
                (Forall_cons _ (Hcd "Hard" eq_refl) (Forall_nil _))
                eq_refl eq_refl eq_refl
                ltac:(vm_compute; reflexivity) eq_refl
                ltac:(vm_compute; reflexivity))
      as (data & l0 & l & Hw3 & Hl0 & Htext & Hsent).
    exists data, l0, l. split; [exact Hl0|]. split; [exact Htext|].
    rewrite Hsent, Hw3. reflexivity.
Defined.

(** C10 at options a caller configured with timeout 30, on an options class
    that records the calls of its setter: the copy holds the default and no
    write, and the caller's object has had its own timeout written to it. *)
Lemma copy_client_options_returns_default_witness :
  copy_client_options (env := logged_env) (mkLoggedOptions 30 []) =
    (Ok (mkLoggedOptions 0 []),
     mkLoggedOptions 30 [("set_timeout", VInt 30)]) /\
  mkLoggedOptions 0 [] = @ClientOptions _ (@options_api logged_env) /\
  reapplied_to_self (env := logged_env) ["get_timeout"]
    (mkLoggedOptions 30 [])
    (mkLoggedOptions 30 [("set_timeout", VInt 30)]).
Proof.
  split; [reflexivity|].
  destruct (copy_client_options_returns_default (env := logged_env)
              (mkLoggedOptions 30 []) (mkLoggedOptions 0 [])
              (mkLoggedOptions 30 [("set_timeout", VInt 30)]) eq_refl)
    as (Hnew & Hself & _).
  split; [exact Hnew|exact Hself].
Defined.

(** ** Instances of the further properties *)

(** X1 at an enumeration whose second pull is answered with a fault. *)
Lemma enumerate_resource_fault_discards_witness :
  fst (enumerate_resource (env := sample_env) "AMT_TLSSettingData" VNone None
         faulty_pages_world) = Raise (WSManFault fault_doc).
Proof.
  refine (f_equal fst
            (enumerate_resource_fault_discards (env := sample_env)
               "AMT_TLSSettingData" VNone None faulty_pages_world
               (enumerate_doc "ctx-1")
               (VDict [("EnumerationContext", VStr "ctx-1")]) (VStr "ctx-1")
               [pull_doc "AMT_TLSSettingData"
                  (VDict [("Enabled", VBool true)]) false]
               fault_doc [] sample_retry_limit eq_refl eq_refl eq_refl eq_refl
               _ eq_refl)).
  constructor; [|constructor]. split; [reflexivity|].
  exists (VBool false), (VDict [("Enabled", VBool true)]). split; reflexivity.
Defined.

(** X2 at an answer to [enumerate] without [EnumerationContext]. *)
Lemma enumerate_resource_without_context_witness :
  fst (enumerate_resource (env := sample_env) "AMT_TLSSettingData" VNone None
         (sample_world [Some contextless_doc])) =
    Raise (KeyError "EnumerationContext").
Proof.
  refine (f_equal fst
            (enumerate_resource_without_context (env := sample_env)
               "AMT_TLSSettingData" VNone None
               (sample_world [Some contextless_doc]) contextless_doc []
               (KeyError "EnumerationContext") sample_retry_limit eq_refl
               eq_refl _)).
  right. exists (VDict []). split; reflexivity.
Defined.

(** X3 at a device whose listener is switched on: the payload holds the new
    [ListenerEnabled] and the [EnabledState] as it was fetched. *)
Lemma put_update_merges_witness :
  exists payload,
    DeviceCapability.put (env := sample_env) None (Some "AMT_RedirectionService")
      [("ListenerEnabled", VBool true)] false true
      (update_world (redirection_doc false) (redirection_doc true)) =
      (Ok tt,
       @mkWorld sample_env []
         [@ReqGet sample_env caller_options
            "http://schemas.example/AMT_RedirectionService";
          @ReqPut sample_env caller_options
            "http://schemas.example/AMT_RedirectionService" payload]
         caller_options) /\
    get_path ["AMT_RedirectionService"; "ListenerEnabled"] payload =
      Ok (VBool true) /\
    get_path ["AMT_RedirectionService"; "EnabledState"] payload =
      Ok (VInt 32768).
Proof.
  destruct (put_update_merges (env := sample_env) None "AMT_RedirectionService"
              "AMT_RedirectionService" [("ListenerEnabled", VBool true)]
              [("ListenerEnabled", VBool false); ("EnabledState", VInt 32768)]
              (update_world (redirection_doc false) (redirection_doc true))
              (redirection_doc false) (redirection_doc true) []
              sample_retry_limit eq_refl eq_refl eq_refl eq_refl eq_refl eq_refl
              ltac:(repeat constructor; cbn; tauto))
    as (payload & Hrun & Hnew & Hold & _).
  exists payload. split; [exact Hrun|]. split.
  - exact (Hnew "ListenerEnabled" (VBool true) (or_introl eq_refl)).
  - exact (Hold "EnabledState"
             ltac:(cbn; intros [H|[]]; discriminate H)).
Defined.

(** X4 at a replacing put of the listener setting. *)
Lemma put_replace_sends_input_witness :
  sent (snd (DeviceCapability.put (env := sample_env) None
               (Some "AMT_RedirectionService")
               [("ListenerEnabled", VBool true)] false false
               (sample_world [Some (redirection_doc true)]))) =
    [@ReqPut sample_env caller_options
       "http://schemas.example/AMT_RedirectionService"
       (VDict [("AMT_RedirectionService",
                VDict [("ListenerEnabled", VBool true)])])].
Proof.
  exact (f_equal (fun p => sent (snd p))
           (put_replace_sends_input (env := sample_env) None
              "AMT_RedirectionService" [("ListenerEnabled", VBool true)]
              (sample_world [Some (redirection_doc true)]) (redirection_doc true)
              [] sample_retry_limit eq_refl eq_refl eq_refl)).
Defined.

(** X5 at a mapping put under its first key, and at the empty mapping. *)
Lemma put_resource_target_witness :
  sent (snd (put_resource (env := sample_env)
               (VDict [("AMT_RedirectionService", VDict [])]) None None false
               (sample_world [Some (redirection_doc true)]))) =
    [@ReqPut sample_env (mkSimpleOptions 0 0 [])
       "http://schemas.example/AMT_RedirectionService"
       (VDict [("AMT_RedirectionService", VDict [])])] /\
  put_resource (env := sample_env) (VDict []) None None false
    (sample_world [Some (redirection_doc true)]) =
    (Raise IndexError, sample_world [Some (redirection_doc true)]).
Proof.
  destruct (put_resource_target (env := sample_env)
              (VDict [("AMT_RedirectionService", VDict [])]) None false
              (sample_world [Some (redirection_doc true)]) (redirection_doc true)
              [] sample_retry_limit eq_refl eq_refl)
    as (_ & Hkey & Hempty).
  split.
  - exact (f_equal (fun p => sent (snd p))
             (Hkey None "AMT_RedirectionService" (or_introl eq_refl) eq_refl)).
  - exact (Hempty None (or_introl eq_refl)).
Defined.

(** X7 at a device that reports power state -1: the last entry of the
    list. *)
Lemma power_state_decode_witness :
  fst (AMTPower.state (env := sample_env)
         (sample_world
            [Some (resource_doc "CIM_AssociatedPowerManagementService"
                     [("PowerState", VInt (-1))])])) =
    Ok (StateMap (VStr "Diagnostic Interrupt (INIT)") VNone).
Proof.
  exact (f_equal fst
           (power_state_decode (env := sample_env)
              (sample_world
                 [Some (resource_doc "CIM_AssociatedPowerManagementService"
                          [("PowerState", VInt (-1))])])
              (resource_doc "CIM_AssociatedPowerManagementService"
                 [("PowerState", VInt (-1))])
              [] (VDict [("PowerState", VInt (-1))]) (-1)
              sample_retry_limit eq_refl eq_refl eq_refl eq_refl)).
Defined.

(** X10 at a device whose KVM is enabled but offline. *)
Lemma kvm_enabled_decode_witness :
  fst (AMTKVMSettings.enabled (env := sample_env)
         (sample_world
            [Some (resource_doc "CIM_KVMRedirectionSAP"
                     [("EnabledState", VInt 6)])])) = Ok (VBool true).
Proof.
  exact (f_equal fst
           (kvm_enabled_decode (env := sample_env)
              (sample_world
                 [Some (resource_doc "CIM_KVMRedirectionSAP"
                          [("EnabledState", VInt 6)])])
              (resource_doc "CIM_KVMRedirectionSAP" [("EnabledState", VInt 6)])
              [] (VDict [("EnabledState", VInt 6)]) 6
              sample_retry_limit eq_refl eq_refl eq_refl eq_refl)).
Defined.

(** X11 at a timeout of 120 seconds set on a device with opt-in on. *)
Lemma opt_in_timeout_round_trip_witness :
  fst (AMTKVMSettings.set_opt_in_timeout (env := sample_env) (VInt 120)
         (update_world (kvm_policy_doc false 300 0) (kvm_policy_doc true 120 0))) =
    Ok tt /\
  fst (AMTKVMSettings.opt_in_timeout (env := sample_env)
         (update_world (kvm_policy_doc true 120 0) (kvm_policy_doc true 120 0))) =
    Ok (VInt 120).
Proof.
  destruct (opt_in_timeout_round_trip (env := sample_env) (VInt 120)
              (update_world (kvm_policy_doc false 300 0)
                 (kvm_policy_doc true 120 0))
              (kvm_policy_doc false 300 0) (kvm_policy_doc true 120 0) []
              [("OptInPolicy", VBool false); ("OptInPolicyTimeout", VInt 300);
               ("DefaultScreen", VInt 0)]
              "IPS_KVMRedirectionSettingData"
              sample_retry_limit eq_refl eq_refl eq_refl eq_refl eq_refl)
    as (payload & Hrun & _ & Hback).
  split; [exact (f_equal fst Hrun)|].
  refine (Hback (update_world (kvm_policy_doc true 120 0)
                   (kvm_policy_doc true 120 0))
            (kvm_policy_doc true 120 0) [] eq_refl eq_refl _).
  vm_compute in Hrun. inversion Hrun. reflexivity.
Defined.

(** X13 at the level 'All' set on a device that required consent for KVM
    only. *)
Lemma required_round_trip_witness :
  exists selection,
    fst (AMTOptInConsent.required (env := sample_env) consent_buttons
           (sample_world
              [Some (resource_doc "IPS_OptInService"
                       [("OptInCodeTimeout", VInt 120);
                        ("OptInRequired", VInt 4294967295)])])) = Ok selection /\
    selected selection = VStr "All".
Proof.
  destruct (required_round_trip (env := sample_env) (VStr "All") 4294967295
              consent_buttons (update_world opt_in_doc opt_in_doc)
              opt_in_doc opt_in_doc []
              [("OptInCodeTimeout", VInt 120); ("OptInRequired", VInt 1)]
              "IPS_OptInService"
              sample_retry_limit eq_refl eq_refl eq_refl eq_refl eq_refl
              (or_intror (or_intror (or_introl eq_refl))))
    as (payload & Hrun & _ & Hback).
  refine (Hback (sample_world
                   [Some (resource_doc "IPS_OptInService"
                            [("OptInCodeTimeout", VInt 120);
                             ("OptInRequired", VInt 4294967295)])])
            (resource_doc "IPS_OptInService"
               [("OptInCodeTimeout", VInt 120);
                ("OptInRequired", VInt 4294967295)])
            [] consent_buttons eq_refl eq_refl _ eq_refl).
  vm_compute in Hrun. inversion Hrun. reflexivity.
Defined.

(** X14 at a level the mapping does not have. *)
Lemma set_required_unknown_level_witness :
  AMTOptInConsent.set_required (env := sample_env) (VStr "Everything")
    consent_buttons (update_world opt_in_doc opt_in_doc) =
    (Raise (KeyError ""), update_world opt_in_doc opt_in_doc).
Proof.
  exact (set_required_unknown_level (env := sample_env) (VStr "Everything")
           consent_buttons (update_world opt_in_doc opt_in_doc) eq_refl).
Defined.

(** X15 at the boot sources 'CIM:CD/DVD:1', 'CIM:Hard-Disk:1' and
    'PXE:1'. *)
Lemma supported_media_labels_witness :
  fst (AMTBootMedia.supported_media (env := sample_env) boot_sources_world) =
    Ok (VList [VStr "CD/DVD"; VStr "Hard-Disk"; VStr "PXE"]).
Proof.
  refine (f_equal fst
            (proj1 (supported_media_labels (env := sample_env)
                      boot_sources_world
                      (snd (DeviceCapability.walk (env := sample_env)
                              "CIM_BootSourceSetting" VNone boot_sources_world))
                      (VDict [("CIM_BootSourceSetting",
                               VList [boot_source
                                        "Intel(r) AMT: Force CD/DVD Boot"
                                        "CIM:CD/DVD:1";
                                      boot_source
                                        "Intel(r) AMT: Force Hard-drive Boot"
                                        "CIM:Hard-Disk:1";
                                      boot_source
                                        "Intel(r) AMT: Force PXE Boot"
                                        "PXE:1"])])
                      _ ltac:(vm_compute; reflexivity) eq_refl)
               ["CD/DVD"; "Hard-Disk"; "PXE"] _)).
  constructor; [|constructor; [|constructor; [|constructor]]].
  - exists "CIM:", "1". repeat split. right. exists "CIM". reflexivity.
  - exists "CIM:", "1". repeat split. right. exists "CIM". reflexivity.
  - exists "", "1". repeat split. left. reflexivity.
Defined.

(** X17 at the target {8080} on a device with nothing enabled. *)
Lemma enabled_ports_setter_invalid_port_witness :
  fst (AMTKVM.set_enabled_ports (env := sample_env) [VInt 8080] kvm_off_world) =
    Raise (ValueError "Invalid port(s) specified").
Proof.
  pose (off := mkEnablementMap [VInt 5900; VInt 16994; VInt 16995] []).
  pose (w1 := snd (AMTKVM.enabled_ports (env := sample_env) kvm_off_world)).
  pose (w2 := snd (AMTKVM.enabled_ports (env := sample_env) w1)).
  exact (f_equal fst
           (proj1 (enabled_ports_setter_invalid_port (env := sample_env)
                     [VInt 8080] (VInt 8080) kvm_off_world w1 w2 off off
                     ltac:(vm_compute; reflexivity)
                     ltac:(vm_compute; reflexivity)
                     eq_refl (or_introl eq_refl) eq_refl))).
Defined.

(** X18 at the options of the sample device, whose two settings have
    getter and setter. *)
Lemma copy_client_options_keeps_self_witness :
  copy_client_options (env := sample_env) caller_options =
    (Ok (mkSimpleOptions 0 0 []), caller_options).
Proof.
  refine (copy_client_options_keeps_self (env := sample_env) caller_options _).
  intros attr Hin Hp. cbn in Hin.
  destruct Hin as [<-|[<-|[<-|[<-|[<-|[]]]]]];
    try (vm_compute in Hp; discriminate Hp);
    eexists; split; reflexivity.
Defined.

(** X19 at a selector of four components. *)
Lemma invoke_method_selector_arity_witness :
  fst (invoke_method (env := sample_env) "CIM_BootConfigSetting"
         "CIM_BootSourceSetting" "Source" "ChangeBootOrder" caller_options
         (VTuple [VStr "InstanceID"; VStr "source-1"; VStr "config-0";
                  VStr "extra"]) [] false
         (sample_world [Some (invoke_doc "ChangeBootOrder" (VInt 0))])) =
    Raise AssertionError.
Proof.
  exact (f_equal fst
           (invoke_method_selector_arity (env := sample_env)
              "CIM_BootConfigSetting" "CIM_BootSourceSetting" "Source"
              "ChangeBootOrder" caller_options (mkSimpleOptions 0 0 [])
              caller_options
              [VStr "InstanceID"; VStr "source-1"; VStr "config-0"; VStr "extra"]
              [] false
              (sample_world [Some (invoke_doc "ChangeBootOrder" (VInt 0))])
              eq_refl ltac:(right; cbn; lia))).
Defined.

(** X20 at an invocation of [SetBootConfigRole] with the argument [Role]. *)
Lemma invoke_method_args_in_payload_witness :
  exists data l,
    sent (snd (invoke_method (env := sample_env) "CIM_BootService"
                 "CIM_BootConfigSetting" "BootConfigSetting" "SetBootConfigRole"
                 caller_options VNone [("Role", VStr "1")] false
                 (sample_world [Some (invoke_doc "SetBootConfigRole" (VInt 0))]))) =
      @ReqInvoke sample_env (mkSimpleOptions 0 0 [])
        "http://schemas.example/CIM_BootService" "SetBootConfigRole" data :: l /\
    get_path ["SetBootConfigRole_INPUT"; "Role"; "#text"] data = Ok (VStr "1").
Proof.
  destruct (invoke_method_args_in_payload (env := sample_env) "CIM_BootService"
              "CIM_BootConfigSetting" "BootConfigSetting" "SetBootConfigRole"
              caller_options (mkSimpleOptions 0 0 []) caller_options VNone
              [("Role", VStr "1")] false
              (sample_world [Some (invoke_doc "SetBootConfigRole" (VInt 0))])
              sample_retry_limit eq_refl (or_introl eq_refl)
              ltac:(repeat constructor; cbn; tauto))
    as (data & l & Hsent & Hargs).
  exists data, l. split; [exact Hsent|].
  exact (Hargs "Role" (VStr "1") (or_introl eq_refl)).
Defined.

(** X21 at the feature list ['SoL']. *)
Lemma redirection_features_round_trip_witness :
  fst (AMTRedirection.set_enabled_features (env := sample_env) [VStr "SoL"]
         (update_world (redirection_doc true) (redirection_doc true))) = Ok tt /\
  fst (AMTRedirection.enabled_features (env := sample_env)
         (sample_world
            [Some (resource_doc "AMT_RedirectionService"
                     [("ListenerEnabled", VBool true);
                      ("EnabledState", VInt 32770)])])) =
    Ok (mkEnablementMap [VStr "SoL"; VStr "IDER"] [VStr "SoL"]).
Proof.
  destruct (redirection_features_round_trip (env := sample_env) [VStr "SoL"]
              32770 (update_world (redirection_doc true) (redirection_doc true))
              (redirection_doc true) (redirection_doc true) []
              [("ListenerEnabled", VBool true); ("EnabledState", VInt 32768)]
              "AMT_RedirectionService"
              (or_intror (or_introl eq_refl))
              sample_retry_limit eq_refl eq_refl eq_refl eq_refl eq_refl)
    as (payload & Hrun & _ & Hback).
  split; [exact (f_equal fst Hrun)|].
  refine (f_equal fst
            (Hback (sample_world
                      [Some (resource_doc "AMT_RedirectionService"
                               [("ListenerEnabled", VBool true);
                                ("EnabledState", VInt 32770)])])
               (resource_doc "AMT_RedirectionService"
                  [("ListenerEnabled", VBool true);
                   ("EnabledState", VInt 32770)])
               [] eq_refl eq_refl _)).
  vm_compute in Hrun. inversion Hrun. reflexivity.
Defined.

(** X22 at a device that reports the generic state 3, 'Disabled'. *)
Lemma enabled_features_below_range_witness :
  fst (AMTRedirection.enabled_features (env := sample_env)
         (sample_world
            [Some (resource_doc "AMT_RedirectionService"
                     [("EnabledState", VInt 3)])])) =
    Raise (LookupError "Unknown state discovered").
Proof.
  exact (f_equal fst
           (enabled_features_below_range (env := sample_env)
              (sample_world
                 [Some (resource_doc "AMT_RedirectionService"
                          [("EnabledState", VInt 3)])])
              (resource_doc "AMT_RedirectionService" [("EnabledState", VInt 3)])
              [] (VDict [("EnabledState", VInt 3)]) 3
              sample_retry_limit eq_refl eq_refl eq_refl eq_refl eq_refl)).
Defined.

(** X23 at a device with the listener and TLS on. *)
Lemma enabled_ports_read_witness :
  fst (AMTKVM.enabled_ports (env := sample_env)
         (sample_world ports_read_tls_on)) =
    Ok (mkEnablementMap [VInt 5900; VInt 16994; VInt 16995]
          [VInt 16994; VInt 16995]) /\
  no_put_since (sample_world ports_read_tls_on)
    (snd (AMTKVM.enabled_ports (env := sample_env)
            (sample_world ports_read_tls_on))).
Proof.
  destruct (enabled_ports_read (env := sample_env)
              (sample_world ports_read_tls_on)
              (snd (AMTKVM.enabled_ports (env := sample_env)
                      (sample_world ports_read_tls_on)))
              (mkEnablementMap [VInt 5900; VInt 16994; VInt 16995]
                 [VInt 16994; VInt 16995])
              ltac:(vm_compute; reflexivity))
    as (_ & _ & Hq).
  split; [vm_compute; reflexivity|exact Hq].
Defined.

(** X25 at the screen 2. *)
Lemma default_screen_round_trip_witness :
  fst (AMTKVMSettings.set_default_screen (env := sample_env) (VInt 2)
         (update_world (kvm_policy_doc true 300 0) (kvm_policy_doc true 300 2))) =
    Ok tt /\
  fst (AMTKVMSettings.default_screen (env := sample_env)
         (sample_world [Some (kvm_policy_doc true 300 2)])) = Ok (VInt 2).
Proof.
  destruct (default_screen_round_trip (env := sample_env) (VInt 2)
              (update_world (kvm_policy_doc true 300 0)
                 (kvm_policy_doc true 300 2))
              (kvm_policy_doc true 300 0) (kvm_policy_doc true 300 2) []
              [("OptInPolicy", VBool true); ("OptInPolicyTimeout", VInt 300);
               ("DefaultScreen", VInt 0)]
              "IPS_KVMRedirectionSettingData"
              sample_retry_limit eq_refl eq_refl eq_refl eq_refl eq_refl)
    as (payload & Hrun & Hback).
  split; [exact (f_equal fst Hrun)|].
  refine (f_equal fst
            (Hback (sample_world [Some (kvm_policy_doc true 300 2)])
               (kvm_policy_doc true 300 2) [] eq_refl eq_refl _)).
  vm_compute in Hrun. inversion Hrun. reflexivity.
Defined.

(** X26 at a lifetime of 600 seconds. *)
Lemma code_ttl_round_trip_witness :
  fst (AMTOptIn.set_code_ttl (env := sample_env) (VInt 600)
         (update_world opt_in_doc opt_in_doc)) = Ok tt /\
  fst (AMTOptInConsent.code_ttl (env := sample_env)
         (sample_world
            [Some (resource_doc "IPS_OptInService"
                     [("OptInCodeTimeout", VInt 600);
                      ("OptInRequired", VInt 1)])])) = Ok (VInt 600).
Proof.
  destruct (code_ttl_round_trip (env := sample_env) 600
              (update_world opt_in_doc opt_in_doc) opt_in_doc opt_in_doc []
              [("OptInCodeTimeout", VInt 120); ("OptInRequired", VInt 1)]
              "IPS_OptInService"
              sample_retry_limit eq_refl eq_refl eq_refl eq_refl eq_refl
              ltac:(lia))
    as (payload & Hrun & Hback).
  split; [exact (f_equal fst Hrun)|].
  refine (f_equal fst
            (Hback (sample_world
                      [Some (resource_doc "IPS_OptInService"
                               [("OptInCodeTimeout", VInt 600);
                                ("OptInRequired", VInt 1)])])
               (resource_doc "IPS_OptInService"
                  [("OptInCodeTimeout", VInt 600); ("OptInRequired", VInt 1)])
               [] eq_refl eq_refl _)).
  vm_compute in Hrun. inversion Hrun. reflexivity.
Defined.

(** X27 at a device in an opt-in session. *)
Lemma opt_in_state_decode_witness :
  fst (AMTOptInConsent.state (env := sample_env)
         (sample_world
            [Some (resource_doc "IPS_OptInService" [("OptInState", VInt 4)])])) =
    Ok (VStr "In Session").
Proof.
  exact (f_equal fst
           (opt_in_state_decode (env := sample_env)
              (sample_world
                 [Some (resource_doc "IPS_OptInService"
                          [("OptInState", VInt 4)])])
              (resource_doc "IPS_OptInService" [("OptInState", VInt 4)])
              [] (VDict [("OptInState", VInt 4)]) 4
              sample_retry_limit eq_refl eq_refl eq_refl eq_refl)).
Defined.
